(** * E-commerce backend: cart aggregate, cart-to-order conversion and the
      order-status state machine

    A shallow embedding of [src/models/Cart.js], of the Order schema
    ([src/unnamed/part_001], the file required as [./Order]) and of the order
    handlers of [src/controllers/orderController.js].

    Documents are records; a Mongoose method that mutates [this] and may
    throw is a function returning the in-memory document after the call
    together with an [outcome]; the order collection is a list of documents;
    [Date.now()] and fresh ObjectIds are inputs of the calls that use them. *)

From Stdlib Require Import ZArith QArith Qround String Ascii DecimalString List Bool Lia.
From stdpp Require Import base list.
Import ListNotations.

Local Open Scope string_scope.
Local Open Scope Z_scope.

(** ** JavaScript numbers

    Prices, quantities and totals are JS Numbers. The development is
    parametric in their arithmetic, so that the results hold for IEEE-754
    doubles as well as for any exact model of them. *)

Class JsNumber (num : Type) := {
  (** the literal of an integer *)
  ofZ : Z -> num;
  (** [a + b] *)
  nadd : num -> num -> num;
  (** [a * b] *)
  nmul : num -> num -> num;
  (** [parseFloat(x.toFixed(2))] *)
  toFixed2 : num -> num;
  (** truthiness, [!!x]: false exactly for [0], [-0] and [NaN] *)
  truthy : num -> bool;
  (** [a <= b] *)
  nleb : num -> num -> bool;
  (** [Number.isInteger(x)] *)
  isInteger : num -> bool;
  (** equality of the JSON serialisations of two numbers *)
  json_neqb : num -> num -> bool
}.

(** An exact instance on the rationals: [toFixed(2)] picks the nearest
    multiple of 1/100, a tie going away from zero. *)
Definition Q_round2 (q : Q) : Q :=
  if Qle_bool 0 q
  then Qred (Qfloor (q * 100 + (1 # 2)) # 100)
  else Qred (- (Qfloor ((- q) * 100 + (1 # 2)) # 100)).

#[export] Instance Q_JsNumber : JsNumber Q := {
  ofZ := inject_Z;
  nadd := fun a b => Qred (a + b);
  nmul := fun a b => Qred (a * b);
  toFixed2 := Q_round2;
  truthy := fun q => negb (Qeq_bool q 0);
  nleb := Qle_bool;
  isInteger := fun q => Qeq_bool (inject_Z (Qfloor q)) q;
  json_neqb := Qeq_bool
}.

(** ** Errors and outcomes *)

(** Modelled from the spec: [utils/AppError] is not among the sources; its
    instances carry a message and an HTTP status code (spec, section 7).
    The other constructors are the JavaScript and Mongoose errors the
    modelled code can raise. *)
Inductive JsError : Type :=
| AppError (message : string) (statusCode : Z)
| ReferenceError (message : string)
| TypeError (message : string)
| ValidationError (message : string).

Definition error_message (e : JsError) : string :=
  match e with
  | AppError m _ | ReferenceError m | TypeError m | ValidationError m => m
  end.

Inductive outcome (A : Type) : Type :=
| Ok (a : A)
| Throw (e : JsError).
Arguments Ok {A} a.
Arguments Throw {A} e.

Definition is_ok {A} (r : outcome A) : bool :=
  match r with Ok _ => true | Throw _ => false end.

(** ** Strings *)

(** ObjectIds are their 24-character hexadecimal strings, times are
    milliseconds. *)
Abbreviation ObjectId := string (only parsing).
Abbreviation Timestamp := Z (only parsing).

(** [!s] for a string that may be [undefined]. *)
Definition falsy_str (s : option string) : bool :=
  match s with
  | None => true
  | Some s => String.eqb s ""
  end.

Definition ascii_lower (c : ascii) : ascii :=
  let n := nat_of_ascii c in
  if (Nat.leb 65 n && Nat.leb n 90)%bool then ascii_of_nat (n + 32) else c.

Definition ascii_upper (c : ascii) : ascii :=
  let n := nat_of_ascii c in
  if (Nat.leb 97 n && Nat.leb n 122)%bool then ascii_of_nat (n - 32) else c.

(** [String.prototype.toLowerCase] and [toUpperCase], on ASCII text. *)
Fixpoint toLowerCase (s : string) : string :=
  match s with
  | EmptyString => EmptyString
  | String c r => String (ascii_lower c) (toLowerCase r)
  end.

Fixpoint toUpperCase (s : string) : string :=
  match s with
  | EmptyString => EmptyString
  | String c r => String (ascii_upper c) (toUpperCase r)
  end.

Definition is_space (c : ascii) : bool :=
  let n := nat_of_ascii c in
  (Nat.eqb n 32 || (Nat.leb 9 n && Nat.leb n 13))%bool.

Fixpoint trim_start (s : string) : string :=
  match s with
  | EmptyString => EmptyString
  | String c r => if is_space c then trim_start r else s
  end.

Fixpoint string_rev_onto (s acc : string) : string :=
  match s with
  | EmptyString => acc
  | String c r => string_rev_onto r (String c acc)
  end.

(** [String.prototype.trim], on ASCII text. *)
Definition trim (s : string) : string :=
  string_rev_onto (trim_start (string_rev_onto (trim_start s) "")) "".

Definition opt_str_eqb (a b : option string) : bool :=
  match a, b with
  | Some x, Some y => String.eqb x y
  | None, None => true
  | _, _ => false
  end.

(** Membership in a schema [enum]. *)
Definition in_enum (s : string) (values : list string) : bool :=
  existsb (String.eqb s) values.

(** A [required] string path: present and not empty. *)
Definition required_str (s : option string) : bool := negb (falsy_str s).

(** ** The Order schema ([src/unnamed/part_001]) *)

Module Order.
Section Schema.
Context {num : Type} `{!JsNumber num}.

(** [orderItemSchema] *)
Record Item : Type := mkItem {
  product : ObjectId;
  name : string;
  quantity : num;
  price : num;
  image : string
}.

(** [shippingAddressSchema]; a path the caller left out is [None]. *)
Record ShippingAddress : Type := mkShippingAddress {
  fullName : option string;
  phone : option string;
  country : option string;
  city : option string;
  street : option string;
  postalCode : option string;
  addressNotes : option string
}.

(** [paymentDetailsSchema] *)
Record PaymentDetails : Type := mkPaymentDetails {
  provider : option string;
  paymentID : option string;
  payerEmail : option string;
  cardLast4 : option string;
  receiptUrl : option string
}.

(** A document of [orderSchema]. *)
Record Doc : Type := mkDoc {
  _id : ObjectId;
  user : option ObjectId;
  isGuest : bool;
  guestEmail : option string;
  guestName : option string;
  orderItems : list Item;
  shippingAddress : ShippingAddress;
  paymentDetails : PaymentDetails;
  paymentMethod : string;
  paymentStatus : string;
  status : string;
  totalAmount : num;
  isPaid : bool;
  paidAt : option Timestamp;
  isDelivered : bool;
  deliveredAt : option Timestamp;
  isCancelled : bool;
  cancelledAt : option Timestamp;
  notes : option string;
  trackingNumber : option string;
  invoiceURL : option string
}.

(** The plain object handed to [Order.create]: a path with a schema default
    that the caller did not set is [None]. *)
Record Data : Type := mkData {
  d_user : option ObjectId;
  d_isGuest : option bool;
  d_guestEmail : option string;
  d_guestName : option string;
  d_orderItems : list Item;
  d_shippingAddress : ShippingAddress;
  d_paymentDetails : PaymentDetails;
  d_paymentMethod : string;
  d_paymentStatus : option string;
  d_status : option string;
  d_totalAmount : num;
  d_isPaid : option bool;
  d_paidAt : option Timestamp;
  d_isDelivered : option bool
}.

Definition paymentMethod_enum : list string := ["cash"; "paypal"; "stripe"; "card"].
Definition paymentStatus_enum : list string := ["pending"; "paid"; "failed"].
Definition status_enum : list string :=
  ["processing"; "confirmed"; "shipped"; "delivered"; "cancelled"].

(** The document [new Order(data)] builds: the given paths, the schema
    defaults for the others. *)
Definition build (newId : ObjectId) (d : Data) : Doc :=
  {| _id := newId;
     user := d_user d;
     isGuest := default false (d_isGuest d);
     guestEmail := d_guestEmail d;
     guestName := d_guestName d;
     orderItems := d_orderItems d;
     shippingAddress := d_shippingAddress d;
     paymentDetails := d_paymentDetails d;
     paymentMethod := d_paymentMethod d;
     paymentStatus := default "pending" (d_paymentStatus d);
     status := default "processing" (d_status d);
     totalAmount := d_totalAmount d;
     isPaid := default false (d_isPaid d);
     paidAt := d_paidAt d;
     isDelivered := default false (d_isDelivered d);
     deliveredAt := None;
     isCancelled := false;
     cancelledAt := None;
     notes := None;
     trackingNumber := None;
     invoiceURL := None |}.

Definition item_valid (it : Item) : bool :=
  negb (String.eqb (product it) "")
  && negb (String.eqb (name it) "")
  && nleb (ofZ 1) (quantity it).

Definition address_valid (a : ShippingAddress) : bool :=
  required_str (fullName a) && required_str (phone a)
  && required_str (country a) && required_str (city a)
  && required_str (street a) && required_str (postalCode a).

(** The schema validators that run on [save]. *)
Definition validate (o : Doc) : bool :=
  (if isGuest o then required_str (guestEmail o) else true)
  && negb (Nat.eqb (length (orderItems o)) 0)
  && forallb item_valid (orderItems o)
  && address_valid (shippingAddress o)
  && in_enum (paymentMethod o) paymentMethod_enum
  && in_enum (paymentStatus o) paymentStatus_enum
  && in_enum (status o) status_enum
  && nleb (ofZ 0) (totalAmount o).

(** Assignments to the paths the handlers write. *)
Definition set_status (x : string) (o : Doc) : Doc :=
  {| _id := _id o; user := user o; isGuest := isGuest o;
     guestEmail := guestEmail o; guestName := guestName o;
     orderItems := orderItems o; shippingAddress := shippingAddress o;
     paymentDetails := paymentDetails o; paymentMethod := paymentMethod o;
     paymentStatus := paymentStatus o; status := x;
     totalAmount := totalAmount o; isPaid := isPaid o; paidAt := paidAt o;
     isDelivered := isDelivered o; deliveredAt := deliveredAt o;
     isCancelled := isCancelled o; cancelledAt := cancelledAt o;
     notes := notes o; trackingNumber := trackingNumber o;
     invoiceURL := invoiceURL o |}.

Definition set_paymentStatus (x : string) (o : Doc) : Doc :=
  {| _id := _id o; user := user o; isGuest := isGuest o;
     guestEmail := guestEmail o; guestName := guestName o;
     orderItems := orderItems o; shippingAddress := shippingAddress o;
     paymentDetails := paymentDetails o; paymentMethod := paymentMethod o;
     paymentStatus := x; status := status o; totalAmount := totalAmount o;
     isPaid := isPaid o; paidAt := paidAt o; isDelivered := isDelivered o;
     deliveredAt := deliveredAt o; isCancelled := isCancelled o;
     cancelledAt := cancelledAt o; notes := notes o;
     trackingNumber := trackingNumber o; invoiceURL := invoiceURL o |}.

Definition set_isPaid (x : bool) (o : Doc) : Doc :=
  {| _id := _id o; user := user o; isGuest := isGuest o;
     guestEmail := guestEmail o; guestName := guestName o;
     orderItems := orderItems o; shippingAddress := shippingAddress o;
     paymentDetails := paymentDetails o; paymentMethod := paymentMethod o;
     paymentStatus := paymentStatus o; status := status o;
     totalAmount := totalAmount o; isPaid := x; paidAt := paidAt o;
     isDelivered := isDelivered o; deliveredAt := deliveredAt o;
     isCancelled := isCancelled o; cancelledAt := cancelledAt o;
     notes := notes o; trackingNumber := trackingNumber o;
     invoiceURL := invoiceURL o |}.

Definition set_paidAt (x : option Timestamp) (o : Doc) : Doc :=
  {| _id := _id o; user := user o; isGuest := isGuest o;
     guestEmail := guestEmail o; guestName := guestName o;
     orderItems := orderItems o; shippingAddress := shippingAddress o;
     paymentDetails := paymentDetails o; paymentMethod := paymentMethod o;
     paymentStatus := paymentStatus o; status := status o;
     totalAmount := totalAmount o; isPaid := isPaid o; paidAt := x;
     isDelivered := isDelivered o; deliveredAt := deliveredAt o;
     isCancelled := isCancelled o; cancelledAt := cancelledAt o;
     notes := notes o; trackingNumber := trackingNumber o;
     invoiceURL := invoiceURL o |}.

Definition set_isDelivered (x : bool) (o : Doc) : Doc :=
  {| _id := _id o; user := user o; isGuest := isGuest o;
     guestEmail := guestEmail o; guestName := guestName o;
     orderItems := orderItems o; shippingAddress := shippingAddress o;
     paymentDetails := paymentDetails o; paymentMethod := paymentMethod o;
     paymentStatus := paymentStatus o; status := status o;
     totalAmount := totalAmount o; isPaid := isPaid o; paidAt := paidAt o;
     isDelivered := x; deliveredAt := deliveredAt o;
     isCancelled := isCancelled o; cancelledAt := cancelledAt o;
     notes := notes o; trackingNumber := trackingNumber o;
     invoiceURL := invoiceURL o |}.

Definition set_deliveredAt (x : option Timestamp) (o : Doc) : Doc :=
  {| _id := _id o; user := user o; isGuest := isGuest o;
     guestEmail := guestEmail o; guestName := guestName o;
     orderItems := orderItems o; shippingAddress := shippingAddress o;
     paymentDetails := paymentDetails o; paymentMethod := paymentMethod o;
     paymentStatus := paymentStatus o; status := status o;
     totalAmount := totalAmount o; isPaid := isPaid o; paidAt := paidAt o;
     isDelivered := isDelivered o; deliveredAt := x;
     isCancelled := isCancelled o; cancelledAt := cancelledAt o;
     notes := notes o; trackingNumber := trackingNumber o;
     invoiceURL := invoiceURL o |}.

Definition set_isCancelled (x : bool) (o : Doc) : Doc :=
  {| _id := _id o; user := user o; isGuest := isGuest o;
     guestEmail := guestEmail o; guestName := guestName o;
     orderItems := orderItems o; shippingAddress := shippingAddress o;
     paymentDetails := paymentDetails o; paymentMethod := paymentMethod o;
     paymentStatus := paymentStatus o; status := status o;
     totalAmount := totalAmount o; isPaid := isPaid o; paidAt := paidAt o;
     isDelivered := isDelivered o; deliveredAt := deliveredAt o;
     isCancelled := x; cancelledAt := cancelledAt o; notes := notes o;
     trackingNumber := trackingNumber o; invoiceURL := invoiceURL o |}.

Definition set_cancelledAt (x : option Timestamp) (o : Doc) : Doc :=
  {| _id := _id o; user := user o; isGuest := isGuest o;
     guestEmail := guestEmail o; guestName := guestName o;
     orderItems := orderItems o; shippingAddress := shippingAddress o;
     paymentDetails := paymentDetails o; paymentMethod := paymentMethod o;
     paymentStatus := paymentStatus o; status := status o;
     totalAmount := totalAmount o; isPaid := isPaid o; paidAt := paidAt o;
     isDelivered := isDelivered o; deliveredAt := deliveredAt o;
     isCancelled := isCancelled o; cancelledAt := x; notes := notes o;
     trackingNumber := trackingNumber o; invoiceURL := invoiceURL o |}.

Definition set_notes (x : option string) (o : Doc) : Doc :=
  {| _id := _id o; user := user o; isGuest := isGuest o;
     guestEmail := guestEmail o; guestName := guestName o;
     orderItems := orderItems o; shippingAddress := shippingAddress o;
     paymentDetails := paymentDetails o; paymentMethod := paymentMethod o;
     paymentStatus := paymentStatus o; status := status o;
     totalAmount := totalAmount o; isPaid := isPaid o; paidAt := paidAt o;
     isDelivered := isDelivered o; deliveredAt := deliveredAt o;
     isCancelled := isCancelled o; cancelledAt := cancelledAt o;
     notes := x; trackingNumber := trackingNumber o;
     invoiceURL := invoiceURL o |}.

Definition set_trackingNumber (x : option string) (o : Doc) : Doc :=
  {| _id := _id o; user := user o; isGuest := isGuest o;
     guestEmail := guestEmail o; guestName := guestName o;
     orderItems := orderItems o; shippingAddress := shippingAddress o;
     paymentDetails := paymentDetails o; paymentMethod := paymentMethod o;
     paymentStatus := paymentStatus o; status := status o;
     totalAmount := totalAmount o; isPaid := isPaid o; paidAt := paidAt o;
     isDelivered := isDelivered o; deliveredAt := deliveredAt o;
     isCancelled := isCancelled o; cancelledAt := cancelledAt o;
     notes := notes o; trackingNumber := x; invoiceURL := invoiceURL o |}.

Definition set_invoiceURL (x : option string) (o : Doc) : Doc :=
  {| _id := _id o; user := user o; isGuest := isGuest o;
     guestEmail := guestEmail o; guestName := guestName o;
     orderItems := orderItems o; shippingAddress := shippingAddress o;
     paymentDetails := paymentDetails o; paymentMethod := paymentMethod o;
     paymentStatus := paymentStatus o; status := status o;
     totalAmount := totalAmount o; isPaid := isPaid o; paidAt := paidAt o;
     isDelivered := isDelivered o; deliveredAt := deliveredAt o;
     isCancelled := isCancelled o; cancelledAt := cancelledAt o;
     notes := notes o; trackingNumber := trackingNumber o; invoiceURL := x |}.

(** The collection. *)
Definition Store : Type := list Doc.

(** [Order.create(data)]: build, validate, insert. *)
Definition create (newId : ObjectId) (d : Data) (db : Store)
  : Store * outcome Doc :=
  let o := build newId d in
  if validate o then ((db ++ [o])%list, Ok o)
  else (db, Throw (ValidationError "Order validation failed")).

(** [Order.findById(id)] *)
Definition findById (id : ObjectId) (db : Store) : option Doc :=
  find (fun o => String.eqb (_id o) id) db.

(** [order.save()] of a document that was loaded from the collection:
    the stored document with the same [_id] is replaced. The validators
    are run on the whole document: a stored document is taken to satisfy
    those of the paths a handler does not write. *)
Fixpoint replace (o : Doc) (db : Store) : Store :=
  match db with
  | [] => []
  | x :: rest =>
      if String.eqb (_id x) (_id o) then o :: rest else x :: replace o rest
  end.

Definition save (o : Doc) (db : Store) : Store * outcome Doc :=
  if validate o then (replace o db, Ok o)
  else (db, Throw (ValidationError "Order validation failed")).

End Schema.
Arguments Item : clear implicits.
Arguments Doc : clear implicits.
Arguments Data : clear implicits.
Arguments Store : clear implicits.
End Order.

(** ** The Cart model ([src/models/Cart.js]) *)

(** [a || d] for a string that may be [undefined]. *)
Definition str_or (a : option string) (d : string) : string :=
  match a with
  | Some s => if String.eqb s "" then d else s
  | None => d
  end.

(** [arr.findIndex(p)]; [None] stands for [-1]. *)
Fixpoint findIndex {A : Type} (p : A -> bool) (l : list A) : option nat :=
  match l with
  | [] => None
  | x :: rest => if p x then Some 0%nat else option_map S (findIndex p rest)
  end.

Module Cart.
Section Schema.
Context {num : Type} `{!JsNumber num}.

(** The nested [variant] path of a cart item. *)
Record Variant : Type := mkVariant {
  v_id : option ObjectId;
  v_name : option string;
  v_sku : option string;
  v_color : option string;
  v_size : option string;
  v_price : option num;
  v_stock : option num
}.

(** [{}] *)
Definition emptyVariant : Variant :=
  {| v_id := None; v_name := None; v_sku := None; v_color := None;
     v_size := None; v_price := None; v_stock := None |}.

(** A document of [cartItemSchema]. *)
Record Item : Type := mkItem {
  item_id : option ObjectId;
  product : ObjectId;
  name : string;
  quantity : num;
  price : num;
  image : string;
  variant : Variant;
  addedAt : Timestamp
}.

(** A value that [JSON.stringify] prints: a string or a number. *)
Inductive JsValue : Type :=
| JString (s : string)
| JNumber (n : num).

(** A property of the plain object [itemData.variant]: a path of the
    schema with a value of its type, or an [_id], which [cartController]
    sends and for which the schema has no path. *)
Inductive VariantField : Type :=
| Field_id (id : ObjectId)
| Field_name (s : string)
| Field_sku (s : string)
| Field_color (s : string)
| Field_size (s : string)
| Field_price (n : num)
| Field_stock (n : num).

(** The plain object handed to [addItem]; its [variant], when there is
    one, is the list of its properties in their order, each key once. *)
Record ItemData : Type := mkItemData {
  data_product : ObjectId;
  data_name : string;
  data_quantity : num;
  data_price : num;
  data_image : option string;
  data_variant : option (list VariantField)
}.

(** A document of [cartSchema]. *)
Record Doc : Type := mkDoc {
  user : option ObjectId;
  isGuest : bool;
  guestEmail : option string;
  items : list Item;
  paymentMethod : option string;
  subtotal : num;
  shippingCost : num;
  totalAmount : num;
  isConverted : bool;
  lastUpdated : Timestamp
}.

Definition set_quantity (q : num) (it : Item) : Item :=
  {| item_id := item_id it; product := product it; name := name it;
     quantity := q; price := price it; image := image it;
     variant := variant it; addedAt := addedAt it |}.

Definition set_items (its : list Item) (c : Doc) : Doc :=
  {| user := user c; isGuest := isGuest c; guestEmail := guestEmail c;
     items := its; paymentMethod := paymentMethod c;
     subtotal := subtotal c; shippingCost := shippingCost c;
     totalAmount := totalAmount c; isConverted := isConverted c;
     lastUpdated := lastUpdated c |}.

Definition set_subtotal (x : num) (c : Doc) : Doc :=
  {| user := user c; isGuest := isGuest c; guestEmail := guestEmail c;
     items := items c; paymentMethod := paymentMethod c;
     subtotal := x; shippingCost := shippingCost c;
     totalAmount := totalAmount c; isConverted := isConverted c;
     lastUpdated := lastUpdated c |}.

Definition set_totalAmount (x : num) (c : Doc) : Doc :=
  {| user := user c; isGuest := isGuest c; guestEmail := guestEmail c;
     items := items c; paymentMethod := paymentMethod c;
     subtotal := subtotal c; shippingCost := shippingCost c;
     totalAmount := x; isConverted := isConverted c;
     lastUpdated := lastUpdated c |}.

Definition set_isConverted (b : bool) (c : Doc) : Doc :=
  {| user := user c; isGuest := isGuest c; guestEmail := guestEmail c;
     items := items c; paymentMethod := paymentMethod c;
     subtotal := subtotal c; shippingCost := shippingCost c;
     totalAmount := totalAmount c; isConverted := b;
     lastUpdated := lastUpdated c |}.

Definition set_lastUpdated (t : Timestamp) (c : Doc) : Doc :=
  {| user := user c; isGuest := isGuest c; guestEmail := guestEmail c;
     items := items c; paymentMethod := paymentMethod c;
     subtotal := subtotal c; shippingCost := shippingCost c;
     totalAmount := totalAmount c; isConverted := isConverted c;
     lastUpdated := t |}.

(** *** Validation and [save] *)

(** The validators of [cartItemSchema]. *)
Definition item_valid (it : Item) : bool :=
  negb (String.eqb (product it) "")
  && negb (String.eqb (name it) "")
  && nleb (ofZ 1) (quantity it)
  && nleb (quantity it) (ofZ 100)
  && isInteger (quantity it)
  && nleb (ofZ 0) (price it).

(** The validators of the paths the cart methods write: the items and the
    three amounts. *)
Definition validate (c : Doc) : bool :=
  Nat.leb (length (items c)) 50
  && forallb item_valid (items c)
  && nleb (ofZ 0) (subtotal c)
  && nleb (ofZ 0) (shippingCost c)
  && nleb (ofZ 0) (totalAmount c).

(** [this.save()]: validation, then the [pre('save')] hook that stamps
    [lastUpdated]. *)
Definition save (now : Timestamp) (c : Doc) : Doc * outcome unit :=
  if validate c then (set_lastUpdated now c, Ok tt)
  else (c, Throw (ValidationError "Cart validation failed")).

(** *** [calculateTotals] *)

(** The [forEach] loop: [subtotal] and [itemCount] are the two
    accumulators, a throw leaves the loop. *)
Fixpoint forEach_totals (its : list Item) (subtotal itemCount : num)
  : outcome (num * num) :=
  match its with
  | [] => Ok (subtotal, itemCount)
  | item :: rest =>
      if negb (truthy (price item)) || negb (truthy (quantity item))
      then Throw (AppError "Invalid item in cart" 400)
      else forEach_totals rest
             (nadd subtotal (nmul (price item) (quantity item)))
             (nadd itemCount (quantity item))
  end.

(** The [try] block catches what the loop throws and rethrows it as a 500;
    the promise of [this.save()] is returned without [await], so its
    rejection passes through as it is. *)
Definition calculateTotals (now : Timestamp) (c : Doc) : Doc * outcome unit :=
  match forEach_totals (items c) (ofZ 0) (ofZ 0) with
  | Throw error =>
      (c, Throw (AppError ("Error calculating cart totals: "
                           ++ error_message error) 500))
  | Ok (sub, _) =>
      let c1 := set_subtotal (toFixed2 sub) c in
      let c2 := set_totalAmount
                  (toFixed2 (nadd (subtotal c1) (shippingCost c1))) c1 in
      let c3 := set_lastUpdated now c2 in
      save now c3
  end.

(** *** [addItem] *)

(** The key and the value of a property. *)
Definition field_entry (f : VariantField) : string * JsValue :=
  match f with
  | Field_id id => ("_id", JString id)
  | Field_name s => ("name", JString s)
  | Field_sku s => ("sku", JString s)
  | Field_color s => ("color", JString s)
  | Field_size s => ("size", JString s)
  | Field_price n => ("price", JNumber n)
  | Field_stock n => ("stock", JNumber n)
  end.

(** The keys of the object given, in their order. *)
Definition given_keys (fields : list VariantField) : list string :=
  map fst (map field_entry fields).

(** The paths under [variant], in the order of the schema. *)
Definition variant_paths : list string :=
  ["name"; "sku"; "color"; "size"; "price"; "stock"].

(** The keys are among the paths, each once at most, and in their
    order. *)
Fixpoint in_order (keys paths : list string) {struct paths} : bool :=
  match keys, paths with
  | [], _ => true
  | _ :: _, [] => false
  | k :: keys', p :: paths' =>
      if String.eqb k p then in_order keys' paths' else in_order keys paths'
  end.

Definition opt_entry (key : string) (value : option JsValue)
  : list (string * JsValue) :=
  match value with
  | Some v => [(key, v)]
  | None => []
  end.

(** The own properties of a stored variant, in their order. Mongoose sets
    the keys of a nested object in the order of the schema, whatever the
    order they were given in, and any other key after them; a path that
    was not set is absent. *)
Definition variant_entries (v : Variant) : list (string * JsValue) :=
  (opt_entry "name" (option_map JString (v_name v))
   ++ opt_entry "sku" (option_map JString (v_sku v))
   ++ opt_entry "color" (option_map JString (v_color v))
   ++ opt_entry "size" (option_map JString (v_size v))
   ++ opt_entry "price" (option_map JNumber (v_price v))
   ++ opt_entry "stock" (option_map JNumber (v_stock v))
   ++ opt_entry "_id" (option_map JString (v_id v)))%list.

(** Two values print the same. *)
Definition JsValue_eqb (a b : JsValue) : bool :=
  match a, b with
  | JString x, JString y => String.eqb x y
  | JNumber x, JNumber y => json_neqb x y
  | _, _ => false
  end.

(** [JSON.stringify(a) === JSON.stringify(b)] for two flat objects given
    by their properties: the texts agree when the keys are the same, in
    the same order, with values that print the same. *)
Fixpoint JSON_stringify_eqb (a b : list (string * JsValue)) : bool :=
  match a, b with
  | [], [] => true
  | (k, x) :: a', (l, y) :: b' =>
      String.eqb k l && JsValue_eqb x y && JSON_stringify_eqb a' b'
  | _, _ => false
  end.

(** The callback of [findIndex] in [addItem]: the stored variant of the
    line against [itemData.variant || {}] as it was given. *)
Definition same_line (itemData : ItemData) (item : Item) : bool :=
  String.eqb (product item) (data_product itemData)
  && JSON_stringify_eqb (variant_entries (variant item))
       (map field_entry (default [] (data_variant itemData))).

(** The value given for a path, when it is a string, or a number. *)
Definition get_string (key : string) (o : list (string * JsValue))
  : option string :=
  match find (fun e => String.eqb (fst e) key) o with
  | Some (_, JString s) => Some s
  | _ => None
  end.

Definition get_number (key : string) (o : list (string * JsValue))
  : option num :=
  match find (fun e => String.eqb (fst e) key) o with
  | Some (_, JNumber n) => Some n
  | _ => None
  end.

(** What the schema stores of the object given: its six paths, with their
    setters applied ([trim], and [uppercase] for the SKU). [_id: false]
    under [variant] is an option, not a path, so an [_id] is dropped. *)
Definition castVariant (fields : list VariantField) : Variant :=
  let o := map field_entry fields in
  {| v_id := None;
     v_name := option_map trim (get_string "name" o);
     v_sku := option_map (fun s => toUpperCase (trim s)) (get_string "sku" o);
     v_color := option_map trim (get_string "color" o);
     v_size := option_map trim (get_string "size" o);
     v_price := get_number "price" o;
     v_stock := get_number "stock" o |}.

(** The subdocument that [this.items.push({...itemData, addedAt})] stores. *)
Definition castItem (itemData : ItemData) (now : Timestamp) : Item :=
  {| item_id := None;
     product := data_product itemData;
     name := trim (data_name itemData);
     quantity := data_quantity itemData;
     price := data_price itemData;
     image := default "" (data_image itemData);
     variant := castVariant (default [] (data_variant itemData));
     addedAt := now |}.

Definition addItem (now : Timestamp) (itemData : ItemData) (c : Doc)
  : Doc * outcome unit :=
  if isConverted c
  then (c, Throw (AppError "Cannot add items to a converted cart" 400))
  else
    let its :=
      match findIndex (same_line itemData) (items c) with
      | Some existingItemIndex =>
          alter (fun it => set_quantity
                             (nadd (quantity it) (data_quantity itemData)) it)
                existingItemIndex (items c)
      | None => (items c ++ [castItem itemData now])%list
      end in
    calculateTotals now (set_items its c).

(** *** [removeItem] *)

(** The callback of [findIndex] in [removeItem]; [targetId] is
    [itemId?.toString()], and [undefined === undefined] holds. *)
Definition removeItem_matches (targetId : option string) (item : Item) : bool :=
  opt_str_eqb (item_id item) targetId
  || opt_str_eqb (Some (product item)) targetId
  || (negb (falsy_str (v_id (variant item)))
      && opt_str_eqb (v_id (variant item)) targetId).

(** [next] is not bound in the method: reaching the not-found branch
    raises a [ReferenceError]. *)
Definition removeItem (now : Timestamp) (itemId : option string) (c : Doc)
  : Doc * outcome unit :=
  if isConverted c
  then (c, Throw (AppError "Cannot modify a converted cart" 400))
  else
    match findIndex (removeItem_matches itemId) (items c) with
    | None => (c, Throw (ReferenceError "next is not defined"))
    | Some itemIndex =>
        calculateTotals now (set_items (delete itemIndex (items c)) c)
    end.

(** *** [updateItemQuantity] *)

Definition updateItemQuantity_matches (targetId : option string) (item : Item)
  : bool :=
  opt_str_eqb (Some (product item)) targetId
  || (negb (falsy_str (v_id (variant item)))
      && opt_str_eqb (v_id (variant item)) targetId).

(** [find] returns the first matching subdocument, which is then
    written in place. *)
Definition updateItemQuantity (now : Timestamp) (itemId : option string)
    (newQuantity : num) (c : Doc) : Doc * outcome unit :=
  if isConverted c
  then (c, Throw (AppError "Cannot modify a converted cart" 400))
  else
    match findIndex (updateItemQuantity_matches itemId) (items c) with
    | None => (c, Throw (AppError "Item not found in cart" 404))
    | Some i =>
        calculateTotals now
          (set_items (alter (set_quantity newQuantity) i (items c)) c)
    end.

(** *** [convertToOrder] *)

(** The destructured argument; [paymentDetails] defaults to [{}]. *)
Record ConvertArgs : Type := mkConvertArgs {
  arg_paymentDetails : option Order.PaymentDetails;
  arg_shippingAddress : option Order.ShippingAddress;
  arg_paymentMethod : option string
}.

(** The template literal [pay_${Date.now()}]. *)
Definition pay_id (now : Timestamp) : string :=
  "pay_" ++ DecimalString.NilZero.string_of_int (Z.to_int now).

Definition orderItem_of (item : Item) : Order.Item num :=
  {| Order.product := product item;
     Order.name := name item;
     Order.quantity := quantity item;
     Order.price := price item;
     Order.image := image item |}.

(** The [orderData] object, before the owner paths are set. [this.user]
    is an unpopulated ObjectId, so [this.user.email] is [undefined];
    [taxAmount] and [guestName] are not paths of [cartSchema]. *)
Definition orderData (now : Timestamp) (c : Doc)
    (paymentDetails : Order.PaymentDetails)
    (shippingAddress : Order.ShippingAddress) (paymentMethod : string)
  : Order.Data num :=
  {| Order.d_orderItems := map orderItem_of (items c);
     Order.d_shippingAddress :=
       {| Order.fullName := Order.fullName shippingAddress;
          Order.phone := Order.phone shippingAddress;
          Order.country := Order.country shippingAddress;
          Order.city := Order.city shippingAddress;
          Order.street := Order.street shippingAddress;
          Order.postalCode := Order.postalCode shippingAddress;
          Order.addressNotes :=
            Some (str_or (Order.addressNotes shippingAddress) "") |};
     Order.d_paymentMethod := paymentMethod;
     Order.d_paymentDetails :=
       {| Order.provider := Some paymentMethod;
          Order.paymentID :=
            Some (str_or (Order.paymentID paymentDetails) (pay_id now));
          Order.payerEmail :=
            if falsy_str (Order.payerEmail paymentDetails)
            then (match user c with Some _ => None | None => guestEmail c end)
            else Order.payerEmail paymentDetails;
          Order.cardLast4 :=
            Some (str_or (Order.cardLast4 paymentDetails) "0000");
          Order.receiptUrl :=
            Some (str_or (Order.receiptUrl paymentDetails) "") |};
     Order.d_totalAmount := totalAmount c;
     Order.d_isPaid := Some (negb (String.eqb paymentMethod "cash"));
     Order.d_paidAt :=
       if negb (String.eqb paymentMethod "cash") then Some now else None;
     Order.d_isDelivered := Some false;
     Order.d_status :=
       Some (if String.eqb paymentMethod "cash" then "pending"
             else "processing");
     Order.d_paymentStatus := None;
     Order.d_user := None;
     Order.d_isGuest := None;
     Order.d_guestEmail := None;
     Order.d_guestName := None |}.

(** "Set user or guest information". *)
Definition set_owner (c : Doc) (d : Order.Data num) : Order.Data num :=
  let with_owner u g e n :=
    {| Order.d_user := u; Order.d_isGuest := g;
       Order.d_guestEmail := e; Order.d_guestName := n;
       Order.d_orderItems := Order.d_orderItems d;
       Order.d_shippingAddress := Order.d_shippingAddress d;
       Order.d_paymentDetails := Order.d_paymentDetails d;
       Order.d_paymentMethod := Order.d_paymentMethod d;
       Order.d_paymentStatus := Order.d_paymentStatus d;
       Order.d_status := Order.d_status d;
       Order.d_totalAmount := Order.d_totalAmount d;
       Order.d_isPaid := Order.d_isPaid d;
       Order.d_paidAt := Order.d_paidAt d;
       Order.d_isDelivered := Order.d_isDelivered d |} in
  match user c with
  | Some u => with_owner (Some u) (Some false) None None
  | None =>
      if isGuest c
      then with_owner None (Some true) (guestEmail c) (Some "Guest")
      else d
  end.

(** The method works on the in-memory cart and on the order collection:
    it returns both, and the created order or the error thrown. *)
Definition convertToOrder (now : Timestamp) (newId : ObjectId)
    (args : ConvertArgs) (c : Doc) (db : Order.Store num)
  : Doc * Order.Store num * outcome (Order.Doc num) :=
  if isConverted c
  then (c, db, Throw (AppError "Cart has already been converted to an order" 400))
  else if Nat.eqb (length (items c)) 0
  then (c, db, Throw (AppError "Cannot convert empty cart to order" 400))
  else
    match arg_shippingAddress args with
    | None => (c, db, Throw (AppError "Shipping address is required" 400))
    | Some shippingAddress =>
        if falsy_str (arg_paymentMethod args)
        then (c, db, Throw (AppError "Payment method is required" 400))
        else
          let paymentMethod := default "" (arg_paymentMethod args) in
          let paymentDetails :=
            default (Order.mkPaymentDetails None None None None None)
                    (arg_paymentDetails args) in
          let '(c1, r) :=
            if negb (truthy (totalAmount c)) || negb (truthy (subtotal c))
            then calculateTotals now c
            else (c, Ok tt) in
          match r with
          | Throw e => (c1, db, Throw e)
          | Ok _ =>
              let d := set_owner c1
                         (orderData now c1 paymentDetails shippingAddress
                                    paymentMethod) in
              match Order.create newId d db with
              | (db', Throw e) => (c1, db', Throw e)
              | (db', Ok order) =>
                  match save now (set_isConverted true c1) with
                  | (c2, Throw e) => (c2, db', Throw e)
                  | (c2, Ok _) => (c2, db', Ok order)
                  end
              end
          end
    end.

End Schema.
Arguments Variant : clear implicits.
Arguments JsValue : clear implicits.
Arguments VariantField : clear implicits.
Arguments Item : clear implicits.
Arguments ItemData : clear implicits.
Arguments Doc : clear implicits.
End Cart.

(** ** The order handlers ([src/controllers/orderController.js]) *)

Module orderController.
Section Handlers.
Context {num : Type} `{!JsNumber num}.

(** [req.user], as the authentication middleware attaches it. *)
Record User : Type := mkUser {
  _id : ObjectId;
  role : string
}.

(** The parts of a request the handlers read. *)
Record Request : Type := mkRequest {
  user : option User;
  params_orderId : option string;
  query_guestEmail : option string;
  body_guestEmail : option string;
  body_newStatus : option string;
  body_notes : option string;
  body_trackingNumber : option string;
  body_shippingProvider : option string
}.

(** What a handler does with the response: [res.status(code).json(..)]
    about an order, or [next(err)] (also for a rejection that [catchAsync]
    forwards). *)
Inductive Response : Type :=
| Json (code : Z) (order : Order.Doc num)
| Next (err : JsError).

(** A filter object [{ _id, user?, guestEmail?, isGuest? }]. *)
Record Query : Type := mkQuery {
  q_id : ObjectId;
  q_user : option ObjectId;
  q_guestEmail : option string;
  q_isGuest : option bool
}.

Definition matches (q : Query) (o : Order.Doc num) : bool :=
  String.eqb (Order._id o) (q_id q)
  && match q_user q with
     | Some u => opt_str_eqb (Order.user o) (Some u)
     | None => true
     end
  && match q_guestEmail q with
     | Some e => opt_str_eqb (Order.guestEmail o) (Some e)
     | None => true
     end
  && match q_isGuest q with
     | Some b => Bool.eqb (Order.isGuest o) b
     | None => true
     end.

(** [Order.findOne(query)] *)
Definition findOne (q : Query) (db : Order.Store num) : option (Order.Doc num) :=
  find (matches q) db.

(** [!orderId || orderId.length !== 24] *)
Definition invalid_orderId (orderId : option string) : bool :=
  match orderId with
  | None => true
  | Some s => String.eqb s "" || negb (Nat.eqb (String.length s) 24)
  end.

Definition is_admin (u : option User) : bool :=
  match u with
  | Some u => String.eqb (role u) "admin"
  | None => false
  end.

(** [order.save()] inside a handler: a rejection goes to [next]. *)
Definition save_and_respond (code : Z) (o : Order.Doc num)
    (db : Order.Store num) : Order.Store num * Response :=
  match Order.save o db with
  | (db', Ok o') => (db', Json code o')
  | (db', Throw e) => (db', Next e)
  end.

(** [if (notes) order.notes = notes] *)
Definition set_notes_if (notes : option string) (o : Order.Doc num)
  : Order.Doc num :=
  if falsy_str notes then o else Order.set_notes notes o.

(** *** [getMyOrderById] *)
Definition getMyOrderById (req : Request) (db : Order.Store num) : Response :=
  if invalid_orderId (params_orderId req)
  then Next (AppError "Please provide a valid order ID." 400)
  else
    let orderId := default "" (params_orderId req) in
    let query : outcome Query :=
      if negb (is_admin (user req)) then
        match user req with
        | Some u => Ok (mkQuery orderId (Some (_id u)) None None)
        | None =>
            if negb (falsy_str (query_guestEmail req))
            then Ok (mkQuery orderId None
                       (option_map toLowerCase (query_guestEmail req))
                       (Some true))
            else Throw (AppError "Please provide your email to view this order." 400)
        end
      else Ok (mkQuery orderId None None None) in
    match query with
    | Throw e => Next e
    | Ok q =>
        match findOne q db with
        | None => Next (AppError "No order found with that ID for your account." 404)
        | Some order => Json 200 order
        end
    end.

(** *** [cancelMyOrder] *)
Definition cancelMyOrder (now : Timestamp) (req : Request)
    (db : Order.Store num) : Order.Store num * Response :=
  if invalid_orderId (params_orderId req)
  then (db, Next (AppError "Please provide a valid order ID." 400))
  else
    let orderId := default "" (params_orderId req) in
    let query : outcome Query :=
      if negb (is_admin (user req)) then
        match user req with
        | Some u => Ok (mkQuery orderId (Some (_id u)) None None)
        | None =>
            if negb (falsy_str (body_guestEmail req))
            then Ok (mkQuery orderId None
                       (option_map toLowerCase (body_guestEmail req))
                       (Some true))
            else Throw (AppError "Please provide your email to cancel this order." 400)
        end
      else Ok (mkQuery orderId None None None) in
    match query with
    | Throw e => (db, Next e)
    | Ok q =>
        match findOne q db with
        | None => (db, Next (AppError "No order found with this ID for your account." 404))
        | Some order =>
            if String.eqb (Order.status order) "cancelled" || Order.isCancelled order
            then (db, Next (AppError "This order has already been cancelled." 400))
            else if String.eqb (Order.status order) "delivered" || Order.isDelivered order
            then (db, Next (AppError "Delivered orders cannot be cancelled." 400))
            else if String.eqb (Order.status order) "shipped"
                    && String.eqb (Order.paymentStatus order) "paid"
            then (db, Next (AppError "Shipped and paid orders cannot be cancelled." 400))
            else
              let order := Order.set_status "cancelled" order in
              let order := Order.set_isCancelled true order in
              let order := Order.set_cancelledAt (Some now) order in
              save_and_respond 200 order db
        end
    end.

(** *** [updateOrderStatus] *)
Definition allowedStatuses : list string :=
  ["processing"; "confirmed"; "shipped"; "delivered"; "cancelled"].

Definition updateOrderStatus (now : Timestamp) (req : Request)
    (db : Order.Store num) : Order.Store num * Response :=
  if invalid_orderId (params_orderId req)
  then (db, Next (AppError "Please provide a valid order ID." 400))
  else if falsy_str (body_newStatus req)
  then (db, Next (AppError "Please provide a new order status." 400))
  else
    let orderId := default "" (params_orderId req) in
    let newStatus := toLowerCase (default "" (body_newStatus req)) in
    if negb (in_enum newStatus allowedStatuses)
    then (db, Next (AppError ("Invalid status: " ++ newStatus) 400))
    else
      match Order.findById orderId db with
      | None => (db, Next (AppError "No order found with this ID." 404))
      | Some order =>
          if in_enum (Order.status order) ["confirmed"; "shipped"; "delivered"]
             && String.eqb newStatus "cancelled"
          then (db, Next (AppError
                 "You cannot cancel an order that is already confirmed or beyond." 400))
          else if String.eqb (Order.status order) "delivered"
          then (db, Next (AppError "Delivered orders cannot be updated." 400))
          else if String.eqb (Order.status order) newStatus
          then (db, Next (AppError "Order already has this status." 400))
          else
            let order := Order.set_status newStatus order in
            let order :=
              if String.eqb newStatus "cancelled"
              then Order.set_cancelledAt (Some now) (Order.set_isCancelled true order)
              else order in
            let order :=
              if String.eqb newStatus "delivered"
              then Order.set_deliveredAt (Some now) (Order.set_isDelivered true order)
              else order in
            let order := set_notes_if (body_notes req) order in
            let order :=
              if String.eqb newStatus "delivered"
                 && String.eqb (Order.paymentMethod order) "cash"
              then Order.set_paymentStatus "paid"
                     (Order.set_paidAt (Some now) (Order.set_isPaid true order))
              else order in
            save_and_respond 200 order db
      end.

(** [req.user.role !== "admin"]; reading [role] of an absent user throws. *)
Definition require_admin (req : Request) (message : string) : outcome unit :=
  match user req with
  | None => Throw (TypeError "Cannot read properties of undefined (reading 'role')")
  | Some u =>
      if negb (String.eqb (role u) "admin") then Throw (AppError message 403)
      else Ok tt
  end.

(** *** [markOrderAsPaid] *)
Definition markOrderAsPaid (now : Timestamp) (req : Request)
    (db : Order.Store num) : Order.Store num * Response :=
  if invalid_orderId (params_orderId req)
  then (db, Next (AppError "Please provide a valid order ID." 400))
  else
    match require_admin req "Only admins can mark orders as paid." with
    | Throw e => (db, Next e)
    | Ok _ =>
        match Order.findById (default "" (params_orderId req)) db with
        | None => (db, Next (AppError "No order found with this ID." 404))
        | Some order =>
            if String.eqb (Order.status order) "cancelled" || Order.isCancelled order
            then (db, Next (AppError
                   "This order is cancelled and cannot be marked as paid." 400))
            else if Order.isPaid order
            then (db, Next (AppError "Order is already marked as paid." 400))
            else
              let order := Order.set_isPaid true order in
              let order := Order.set_paidAt (Some now) order in
              let order := Order.set_isDelivered true order in
              let order := Order.set_status "delivered" order in
              let order := Order.set_paymentStatus "paid" order in
              let order := set_notes_if (body_notes req) order in
              save_and_respond 200 order db
        end
    end.

(** *** [markOrderAsDelivered] *)
Definition markOrderAsDelivered (now : Timestamp) (req : Request)
    (db : Order.Store num) : Order.Store num * Response :=
  if invalid_orderId (params_orderId req)
  then (db, Next (AppError "Please provide a valid order ID." 400))
  else
    match require_admin req "Only admins can mark orders as delivered." with
    | Throw e => (db, Next e)
    | Ok _ =>
        match Order.findById (default "" (params_orderId req)) db with
        | None => (db, Next (AppError "Order not found." 404))
        | Some order =>
            if String.eqb (Order.status order) "cancelled" || Order.isCancelled order
            then (db, Next (AppError
                   "This order was cancelled and cannot be marked as delivered." 400))
            else if Order.isDelivered order
            then (db, Next (AppError "Order is already marked as delivered." 400))
            else
              let order := Order.set_status "delivered" order in
              let order := Order.set_isDelivered true order in
              let order := Order.set_deliveredAt (Some now) order in
              let order := set_notes_if (body_notes req) order in
              let order :=
                if String.eqb (Order.paymentMethod order) "cash"
                   && negb (Order.isPaid order)
                then Order.set_paymentStatus "paid"
                       (Order.set_paidAt (Some now) (Order.set_isPaid true order))
                else order in
              save_and_respond 200 order db
        end
    end.

(** *** [markOrderAsCancelled] *)
Definition markOrderAsCancelled (now : Timestamp) (req : Request)
    (db : Order.Store num) : Order.Store num * Response :=
  if invalid_orderId (params_orderId req)
  then (db, Next (AppError "Please provide a valid order ID." 400))
  else
    match require_admin req "Only admins can cancel orders." with
    | Throw e => (db, Next e)
    | Ok _ =>
        match Order.findById (default "" (params_orderId req)) db with
        | None => (db, Next (AppError "Order not found." 404))
        | Some order =>
            if String.eqb (Order.status order) "delivered"
            then (db, Next (AppError "Delivered orders cannot be cancelled." 400))
            else if String.eqb (Order.status order) "cancelled"
                    || Order.isCancelled order
            then (db, Next (AppError "Order is already cancelled." 400))
            else
              let order := Order.set_status "cancelled" order in
              let order := Order.set_isCancelled true order in
              let order := Order.set_cancelledAt (Some now) order in
              let order := set_notes_if (body_notes req) order in
              save_and_respond 200 order db
        end
    end.

(** *** [addTrackingInfo] *)

(** [isDeleted] and [shippingProvider] are not paths of [orderSchema]:
    the first reads as [undefined], the second is not stored. *)
Definition addTrackingInfo (req : Request) (db : Order.Store num)
  : Order.Store num * Response :=
  if invalid_orderId (params_orderId req)
  then (db, Next (AppError "Please provide a valid order ID." 400))
  else if falsy_str (body_trackingNumber req)
          || falsy_str (body_shippingProvider req)
  then (db, Next (AppError
         "Tracking number and shipping provider are required." 400))
  else
    match Order.findById (default "" (params_orderId req)) db with
    | None => (db, Next (AppError "Order not found." 404))
    | Some order =>
        save_and_respond 200
          (Order.set_trackingNumber (body_trackingNumber req) order) db
    end.

(** *** [deleteOrder] *)

(** [logs] is not a path of [orderSchema] either: [order.logs.push] throws
    before [save] is reached. *)
Definition deleteOrder (req : Request) (db : Order.Store num)
  : Order.Store num * Response :=
  if invalid_orderId (params_orderId req)
  then (db, Next (AppError "Please provide a valid order ID." 400))
  else
    match Order.findById (default "" (params_orderId req)) db with
    | None => (db, Next (AppError "Order not found." 404))
    | Some order =>
        (db, Next (TypeError
           "Cannot read properties of undefined (reading 'push')"))
    end.

(** *** [generateInvoiceForOrder] *)

(** [pdf] is the outcome of the call to [generateInvoice], which writes
    the PDF file. *)
Definition generateInvoiceForOrder (pdf : outcome unit) (req : Request)
    (db : Order.Store num) : Order.Store num * Response :=
  let orderId := default "" (params_orderId req) in
  let query :=
    match user req with
    | Some u => mkQuery orderId (Some (_id u)) None None
    | None =>
        if negb (falsy_str (body_guestEmail req))
        then mkQuery orderId None
               (option_map toLowerCase (body_guestEmail req)) None
        else mkQuery orderId None None None
    end in
  match findOne query db with
  | None => (db, Next (AppError "Order not found or not paid." 400))
  | Some order =>
      if negb (Order.isPaid order)
      then (db, Next (AppError "Order not found or not paid." 400))
      else
        match pdf with
        | Throw e => (db, Next e)
        | Ok _ =>
            save_and_respond 200
              (Order.set_invoiceURL
                 (Some ("/invoices/invoice-" ++ Order._id order ++ ".pdf"))
                 order) db
        end
  end.

(** *** The handlers that write to an order *)

Inductive Action : Type :=
| CancelMyOrder
| GenerateInvoiceForOrder (pdf : outcome unit)
| UpdateOrderStatus
| MarkOrderAsPaid
| MarkOrderAsDelivered
| MarkOrderAsCancelled
| AddTrackingInfo
| DeleteOrder.

Definition handle (a : Action) (now : Timestamp) (req : Request)
    (db : Order.Store num) : Order.Store num * Response :=
  match a with
  | CancelMyOrder => cancelMyOrder now req db
  | GenerateInvoiceForOrder pdf => generateInvoiceForOrder pdf req db
  | UpdateOrderStatus => updateOrderStatus now req db
  | MarkOrderAsPaid => markOrderAsPaid now req db
  | MarkOrderAsDelivered => markOrderAsDelivered now req db
  | MarkOrderAsCancelled => markOrderAsCancelled now req db
  | AddTrackingInfo => addTrackingInfo req db
  | DeleteOrder => deleteOrder req db
  end.

(** A delivery: the status update to [delivered], or mark-as-delivered. *)
Definition is_delivery (a : Action) (req : Request) : bool :=
  match a with
  | UpdateOrderStatus =>
      String.eqb (toLowerCase (default "" (body_newStatus req))) "delivered"
  | MarkOrderAsDelivered => true
  | _ => false
  end.

Definition is_markPaid (a : Action) : bool :=
  match a with
  | MarkOrderAsPaid => true
  | _ => false
  end.

Definition is_success (r : Response) : bool :=
  match r with
  | Json _ _ => true
  | Next _ => false
  end.

End Handlers.
Arguments Response : clear implicits.
End orderController.

(** ** Sequences of cart operations and the totals they must establish *)

Module CartOps.
Section Ops.
Context {num : Type} `{!JsNumber num}.

(** The three mutators of the cart's lines. *)
Inductive Op : Type :=
| AddItem (itemData : Cart.ItemData num)
| RemoveItem (itemId : option string)
| UpdateItemQuantity (itemId : option string) (newQuantity : num).

Definition apply (now : Timestamp) (op : Op) (c : Cart.Doc num)
  : Cart.Doc num * outcome unit :=
  match op with
  | AddItem itemData => Cart.addItem now itemData c
  | RemoveItem itemId => Cart.removeItem now itemId c
  | UpdateItemQuantity itemId q => Cart.updateItemQuantity now itemId q c
  end.

(** The calls are made one after the other on the same in-memory cart,
    each at its own time; the run is [Some] when every call returned. *)
Fixpoint run (ops : list (Timestamp * Op)) (c : Cart.Doc num)
  : option (Cart.Doc num) :=
  match ops with
  | [] => Some c
  | (now, op) :: rest =>
      match apply now op c with
      | (c', Ok _) => run rest c'
      | (_, Throw _) => None
      end
  end.

(** [price * quantity] of a line. *)
Definition line_total (it : Cart.Item num) : num :=
  nmul (Cart.price it) (Cart.quantity it).

(** The sum of the line totals, added up in line order from [0]. *)
Definition sum_of_lines (its : list (Cart.Item num)) : num :=
  fold_left nadd (map line_total its) (ofZ 0).

(** The totals agree with the lines. *)
Definition totals_ok (c : Cart.Doc num) : Prop :=
  Cart.subtotal c = toFixed2 (sum_of_lines (Cart.items c))
  /\ Cart.totalAmount c
     = toFixed2 (nadd (Cart.subtotal c) (Cart.shippingCost c)).

End Ops.
Arguments Op : clear implicits.
End CartOps.

(** ** Concrete documents, over the rationals *)

Module Sample.

Definition product1 : ObjectId := "64b7f0c2a1d3e4f5a6b7c8d1".
Definition product2 : ObjectId := "64b7f0c2a1d3e4f5a6b7c8d2".
Definition order1 : ObjectId := "64b7f0c2a1d3e4f5a6b7c8e1".
Definition customer1 : ObjectId := "64b7f0c2a1d3e4f5a6b7c8f1".

Definition lineAt (t : Timestamp) (p : ObjectId) (n : string) (q pr : Q)
  : Cart.Item Q :=
  {| Cart.item_id := None; Cart.product := p; Cart.name := n;
     Cart.quantity := q; Cart.price := pr; Cart.image := "";
     Cart.variant := Cart.emptyVariant; Cart.addedAt := t |}.

Definition line := lineAt 0.

Definition itemData (p : ObjectId) (n : string) (q pr : Q) : Cart.ItemData Q :=
  {| Cart.data_product := p; Cart.data_name := n; Cart.data_quantity := q;
     Cart.data_price := pr; Cart.data_image := None;
     Cart.data_variant := None |}.

(** An item with a variant, and the one that [cartController.addItem]
    builds for the red mug: the variant as [{_id, name, price, sku}]. *)
Definition variantItem (fields : list (Cart.VariantField Q)) : Cart.ItemData Q :=
  {| Cart.data_product := product1; Cart.data_name := "Mug - Red";
     Cart.data_quantity := 1%Q; Cart.data_price := 12%Q;
     Cart.data_image := Some ""; Cart.data_variant := Some fields |}.

Definition redVariant : list (Cart.VariantField Q) :=
  [Cart.Field_id "64b7f0c2a1d3e4f5a6b7c8a1"; Cart.Field_name "Red";
   Cart.Field_price 12%Q; Cart.Field_sku "MUG-RED"].

Definition redMug : Cart.ItemData Q := variantItem redVariant.

(** A guest cart with the given lines and shipping cost, totals not yet
    computed. *)
Definition cartState (its : list (Cart.Item Q)) (sub shipping total : Q)
    (converted : bool) (updated : Timestamp) : Cart.Doc Q :=
  {| Cart.user := None; Cart.isGuest := true;
     Cart.guestEmail := Some "a@b.com"; Cart.items := its;
     Cart.paymentMethod := None; Cart.subtotal := sub;
     Cart.shippingCost := shipping; Cart.totalAmount := total;
     Cart.isConverted := converted; Cart.lastUpdated := updated |}.

Definition cart (its : list (Cart.Item Q)) (shipping : Q) : Cart.Doc Q :=
  cartState its 0%Q shipping 0%Q false 0.

Definition emptyCart : Cart.Doc Q := cart [] 5%Q.

Definition twoLines : list (Cart.Item Q) :=
  [line product1 "Mug" 2%Q 10%Q; line product2 "Pen" 1%Q 5%Q].

Definition address : Order.ShippingAddress :=
  {| Order.fullName := Some "Ada Guest"; Order.phone := Some "555-0100";
     Order.country := Some "NL"; Order.city := Some "Delft";
     Order.street := Some "Main 1"; Order.postalCode := Some "2611";
     Order.addressNotes := None |}.

Definition convertArgs (method : string) : Cart.ConvertArgs :=
  {| Cart.arg_paymentDetails := None;
     Cart.arg_shippingAddress := Some address;
     Cart.arg_paymentMethod := Some method |}.

(** An order of a registered customer, or of a guest when [owner] is
    [None], in a given state. *)
Definition order (owner : option ObjectId) (method status paymentStatus : string)
    (paid delivered cancelled : bool) : Order.Doc Q :=
  {| Order._id := order1;
     Order.user := owner;
     Order.isGuest := match owner with Some _ => false | None => true end;
     Order.guestEmail := match owner with Some _ => None | None => Some "a@b.com" end;
     Order.guestName := match owner with Some _ => None | None => Some "Guest User" end;
     Order.orderItems :=
       [ {| Order.product := product1; Order.name := "Mug";
            Order.quantity := 2%Q; Order.price := 10%Q; Order.image := "" |} ];
     Order.shippingAddress := address;
     Order.paymentDetails := Order.mkPaymentDetails None None None None None;
     Order.paymentMethod := method;
     Order.paymentStatus := paymentStatus;
     Order.status := status;
     Order.totalAmount := 20%Q;
     Order.isPaid := paid;
     Order.paidAt := None;
     Order.isDelivered := delivered;
     Order.deliveredAt := None;
     Order.isCancelled := cancelled;
     Order.cancelledAt := None;
     Order.notes := None;
     Order.trackingNumber := None;
     Order.invoiceURL := None |}.

Definition admin : orderController.User := orderController.mkUser "64b7f0c2a1d3e4f5a6b7c8a0" "admin".
Definition customer : orderController.User := orderController.mkUser customer1 "user".
Definition stranger : orderController.User :=
  orderController.mkUser "64b7f0c2a1d3e4f5a6b7c8f2" "user".

(** A request about [order1]. *)
Definition request (u : option orderController.User) (guestEmail newStatus : option string)
  : orderController.Request :=
  {| orderController.user := u;
     orderController.params_orderId := Some order1;
     orderController.query_guestEmail := guestEmail;
     orderController.body_guestEmail := guestEmail;
     orderController.body_newStatus := newStatus;
     orderController.body_notes := None;
     orderController.body_trackingNumber := None;
     orderController.body_shippingProvider := None |}.

(** The two additions of the spec's example, at times 1 and 2, and the
    cart they lead to from [emptyCart]. *)
Definition addMug : Timestamp * CartOps.Op Q :=
  (1, CartOps.AddItem (itemData product1 "Mug" 2%Q 10%Q)).
Definition addPen : Timestamp * CartOps.Op Q :=
  (2, CartOps.AddItem (itemData product2 "Pen" 1%Q 5%Q)).

Definition filledCart : Cart.Doc Q :=
  cartState [lineAt 1 product1 "Mug" 2%Q 10%Q; lineAt 2 product2 "Pen" 1%Q 5%Q]
            25%Q 5%Q 30%Q false 2.

(** [filledCart] after its conversion at time 7, and the order created
    with payment method [card]. *)
Definition convertedCart : Cart.Doc Q :=
  cartState [lineAt 1 product1 "Mug" 2%Q 10%Q; lineAt 2 product2 "Pen" 1%Q 5%Q]
            25%Q 5%Q 30%Q true 7.

Definition cardOrder : Order.Doc Q :=
  {| Order._id := order1;
     Order.user := None;
     Order.isGuest := true;
     Order.guestEmail := Some "a@b.com";
     Order.guestName := Some "Guest";
     Order.orderItems :=
       [ {| Order.product := product1; Order.name := "Mug";
            Order.quantity := 2%Q; Order.price := 10%Q; Order.image := "" |};
         {| Order.product := product2; Order.name := "Pen";
            Order.quantity := 1%Q; Order.price := 5%Q; Order.image := "" |} ];
     Order.shippingAddress :=
       {| Order.fullName := Some "Ada Guest"; Order.phone := Some "555-0100";
          Order.country := Some "NL"; Order.city := Some "Delft";
          Order.street := Some "Main 1"; Order.postalCode := Some "2611";
          Order.addressNotes := Some "" |};
     Order.paymentDetails :=
       {| Order.provider := Some "card"; Order.paymentID := Some "pay_7";
          Order.payerEmail := Some "a@b.com"; Order.cardLast4 := Some "0000";
          Order.receiptUrl := Some "" |};
     Order.paymentMethod := "card";
     Order.paymentStatus := "pending";
     Order.status := "processing";
     Order.totalAmount := 30%Q;
     Order.isPaid := true;
     Order.paidAt := Some 7;
     Order.isDelivered := false;
     Order.deliveredAt := None;
     Order.isCancelled := false;
     Order.cancelledAt := None;
     Order.notes := None;
     Order.trackingNumber := None;
     Order.invoiceURL := None |}.

(** Orders in the states the properties below are about. *)
Definition guestOrder : Order.Doc Q :=
  order None "card" "processing" "pending" true false false.
Definition unpaidOrder : Order.Doc Q :=
  order (Some customer1) "card" "processing" "pending" false false false.
Definition confirmedOrder : Order.Doc Q :=
  order (Some customer1) "card" "confirmed" "pending" true false false.
Definition cancelledOrder : Order.Doc Q :=
  order (Some customer1) "card" "cancelled" "pending" true false true.


(** A cash order on its way, and the same order once an administrator has
    marked it delivered at time 9. *)
Definition cashOrder : Order.Doc Q :=
  order (Some customer1) "cash" "shipped" "pending" false false false.

Definition deliveredCashOrder : Order.Doc Q :=
  Order.set_paymentStatus "paid"
    (Order.set_paidAt (Some 9)
       (Order.set_isPaid true
          (Order.set_deliveredAt (Some 9)
             (Order.set_isDelivered true
                (Order.set_status "delivered" cashOrder))))).

End Sample.

(** ** The guard [canConvertToOrder] ([src/models/Cart.js]) *)

Module CartGuard.
Section Guard.
Context {num : Type} `{!JsNumber num}.

(** The method returns [true], or hands an error to the callback it was
    given and returns what the callback returns. *)
Inductive Verdict : Type :=
| Convertible
| Refused (err : JsError).

(** [!item.price || !item.quantity], the test in the loop of
    [calculateTotals]. *)
Definition zero_line (item : Cart.Item num) : bool :=
  negb (truthy (Cart.price item)) || negb (truthy (Cart.quantity item)).

(** [!item.product || !item.quantity || !item.price] *)
Definition invalid_item (item : Cart.Item num) : bool :=
  String.eqb (Cart.product item) ""
  || negb (truthy (Cart.quantity item))
  || negb (truthy (Cart.price item)).

Definition canConvertToOrder (c : Cart.Doc num) : Verdict :=
  if Cart.isConverted c
  then Refused (AppError "Cart has already been converted to an order" 400)
  else if Nat.eqb (length (Cart.items c)) 0
  then Refused (AppError "Cannot convert empty cart to order" 400)
  else if falsy_str (Cart.paymentMethod c)
  then Refused (AppError "Payment method is required" 400)
  else if existsb invalid_item (Cart.items c)
  then Refused (AppError "Invalid items in cart" 400)
  else Convertible.

End Guard.
End CartGuard.

(** ** Creating orders ([src/controllers/orderController.js]) *)

(** The comparison [a < b] and the conversion of a number to a string, which
    the direct order creation needs on top of [JsNumber]. *)
Class JsNumberText (num : Type) := {
  (** [a < b] *)
  nltb : num -> num -> bool;
  (** [`${x}`] *)
  numToString : num -> string
}.

(** On the rationals: an integer prints as its digits, another rational as
    numerator, a slash and denominator. *)
Definition Q_toString (q : Q) : string :=
  let r := Qred q in
  if Pos.eqb (Qden r) 1
  then DecimalString.NilZero.string_of_int (Z.to_int (Qnum r))
  else DecimalString.NilZero.string_of_int (Z.to_int (Qnum r)) ++ "/"
       ++ DecimalString.NilZero.string_of_uint (Pos.to_uint (Qden r)).

#[export] Instance Q_JsNumberText : JsNumberText Q := {
  nltb := fun a b => negb (Qle_bool b a);
  numToString := Q_toString
}.

Module orderCreation.
Section Creation.
Context {num : Type} `{!JsNumber num} `{!JsNumberText num}.

Import orderController.

(** *** [createOrderFromCart] *)

(** The parts of [req.body] that [createOrderFromCart] reads. *)
Record CartBody : Type := mkCartBody {
  cb_paymentDetails : option Order.PaymentDetails;
  cb_shippingAddress : option Order.ShippingAddress;
  cb_paymentMethod : option string;
  cb_guestEmail : option string
}.

(** The cart collection; a document is identified by its position. *)
Abbreviation Carts := (list (Cart.Doc num)).

(** [{ user: id, isConverted: false }] *)
Definition active_cart_of_user (id : ObjectId) (c : Cart.Doc num) : bool :=
  opt_str_eqb (Cart.user c) (Some id) && negb (Cart.isConverted c).

(** [{ guestEmail: email, isConverted: false }] *)
Definition active_cart_of_guest (email : string) (c : Cart.Doc num) : bool :=
  opt_str_eqb (Cart.guestEmail c) (Some email) && negb (Cart.isConverted c).

(** The paths by which a cart is selected, and its lines. *)
Definition same_cart (c c' : Cart.Doc num) : Prop :=
  Cart.user c' = Cart.user c /\ Cart.guestEmail c' = Cart.guestEmail c
  /\ Cart.isConverted c' = Cart.isConverted c
  /\ Cart.items c' = Cart.items c.

(** The state of the cart that [convertToOrder] has written to the
    collection, if any: the cart it returns with an order; when it throws,
    the cart saved by [calculateTotals], if the four guards were passed
    and that call was made and returned. *)
Definition saved_by_convertToOrder (now : Timestamp) (args : Cart.ConvertArgs)
    (c c' : Cart.Doc num) (r : outcome (Order.Doc num))
  : option (Cart.Doc num) :=
  match r with
  | Ok _ => Some c'
  | Throw _ =>
      let refused :=
        Cart.isConverted c || Nat.eqb (length (Cart.items c)) 0
        || match Cart.arg_shippingAddress args with
           | None => true
           | Some _ => false
           end
        || falsy_str (Cart.arg_paymentMethod args) in
      if negb refused
         && (negb (truthy (Cart.totalAmount c)) || negb (truthy (Cart.subtotal c)))
      then match Cart.calculateTotals now c with
           | (c1, Ok _) => Some c1
           | (_, Throw _) => None
           end
      else None
  end.

(** [Cart.findOne(filter)]: the first cart that passes the filter, with
    its position. *)
Definition findOne_cart (filter : Cart.Doc num -> bool) (carts : Carts)
  : option (nat * Cart.Doc num) :=
  match findIndex filter carts with
  | Some i => option_map (pair i) (carts !! i)
  | None => None
  end.

(** "Find active cart": by the authenticated identity, else by the guest
    email of the body, else the request is refused. *)
Definition find_active_cart (u : option User) (body : CartBody) (carts : Carts)
  : outcome (option (nat * Cart.Doc num)) :=
  let by_guestEmail :=
    if negb (falsy_str (cb_guestEmail body))
    then Ok (findOne_cart
               (active_cart_of_guest
                  (toLowerCase (default "" (cb_guestEmail body)))) carts)
    else Throw (AppError "User authentication or guest email is required" 400)
  in
  match u with
  | Some usr =>
      if negb (String.eqb (_id usr) "")
      then Ok (findOne_cart (active_cart_of_user (_id usr)) carts)
      else by_guestEmail
  | None => by_guestEmail
  end.

Definition createOrderFromCart (now : Timestamp) (newId : ObjectId)
    (u : option User) (body : CartBody) (carts : Carts) (db : Order.Store num)
  : Carts * Order.Store num * Response num :=
  match cb_shippingAddress body with
  | None => (carts, db, Next (AppError "Shipping address is required" 400))
  | Some shippingAddress =>
      if falsy_str (cb_paymentMethod body)
      then (carts, db, Next (AppError "Payment method is required" 400))
      else
        match find_active_cart u body carts with
        | Throw e => (carts, db, Next e)
        | Ok None => (carts, db, Next (AppError "No active cart found" 404))
        | Ok (Some (i, cart)) =>
            let args :=
              Cart.mkConvertArgs
                (Some (default
                         (Order.mkPaymentDetails None None None None None)
                         (cb_paymentDetails body)))
                (Some shippingAddress) (cb_paymentMethod body) in
            let '(cart', db', r) :=
              Cart.convertToOrder now newId args cart db in
            let carts' :=
              match saved_by_convertToOrder now args cart cart' r with
              | Some saved => <[i := saved]> carts
              | None => carts
              end in
            (carts', db',
             match r with
             | Ok order => Json 201 order
             | Throw e => Next e
             end)
        end
  end.

(** *** [createOrder] *)

(** The paths of a Product document that [createOrder] reads. *)
Record Product : Type := mkProduct {
  p_id : ObjectId;
  p_name : string;
  p_isActive : bool;
  p_stock : num;
  p_basePrice : num;
  p_images : list string
}.

(** [req.body.card]: an object that may carry [last4], or a string. *)
Inductive Card : Type :=
| CardObject (last4 : option string)
| CardString (digits : string).

(** The parts of [req.body] that [createOrder] reads. *)
Record OrderBody : Type := mkOrderBody {
  ob_productId : option string;
  ob_quantity : option num;
  ob_fullName : option string;
  ob_phone : option string;
  ob_country : option string;
  ob_city : option string;
  ob_street : option string;
  ob_postalCode : option string;
  ob_notes : option string;
  ob_guestEmail : option string;
  ob_provider : option string;
  ob_paymentID : option string;
  ob_payerEmail : option string;
  ob_card : option Card;
  ob_receiptUrl : option string;
  ob_guestName : option string;
  ob_paymentMethod : option string
}.

(** [s.slice(-4)] *)
Definition slice_last4 (s : string) : string :=
  String.substring (String.length s - 4) 4 s.

(** [card?.last4 || card?.slice(-4) || "0000"]; an object has no [slice],
    so calling it throws. *)
Definition cardLast4_of (card : option Card) : outcome string :=
  match card with
  | None => Ok "0000"
  | Some (CardObject last4) =>
      if falsy_str last4
      then Throw (TypeError "card?.slice is not a function")
      else Ok (default "" last4)
  | Some (CardString s) => Ok (str_or (Some (slice_last4 s)) "0000")
  end.

(** [a || b] for two strings that may be [undefined]. *)
Definition opt_or (a b : option string) : option string :=
  if falsy_str a then b else a.

(** [found] is what [await Product.findById(productId)] gave: the catalog
    is outside this code. *)
Definition createOrder (newId : ObjectId) (u : option User) (body : OrderBody)
    (found : outcome (option Product)) (db : Order.Store num)
  : Order.Store num * Response num :=
  if falsy_str (ob_productId body)
  then (db, Next (AppError "You must select a product." 400))
  else
    match found with
    | Throw e => (db, Next e)
    | Ok None => (db, Next (AppError "Product not found or inactive." 404))
    | Ok (Some product) =>
        if negb (p_isActive product)
        then (db, Next (AppError "Product not found or inactive." 404))
        else
          let quantity := default (ofZ 1) (ob_quantity body) in
          if nltb quantity (ofZ 1)
          then (db, Next (AppError "Quantity must be at least 1" 400))
          else if nltb (p_stock product) quantity
          then (db, Next (AppError
                  ("Only " ++ numToString (p_stock product)
                   ++ " items available in stock") 400))
          else
            let orderItem :=
              {| Order.product := p_id product;
                 Order.name := p_name product;
                 Order.quantity := quantity;
                 Order.price := p_basePrice product;
                 Order.image := str_or (head (p_images product)) "" |} in
            if falsy_str (ob_fullName body) || falsy_str (ob_phone body)
               || falsy_str (ob_country body) || falsy_str (ob_city body)
               || falsy_str (ob_street body) || falsy_str (ob_postalCode body)
            then (db, Next (AppError "Missing shipping address fields." 400))
            else
              let shippingAddress :=
                {| Order.fullName := ob_fullName body;
                   Order.phone := ob_phone body;
                   Order.country := ob_country body;
                   Order.city := ob_city body;
                   Order.street := ob_street body;
                   Order.postalCode := ob_postalCode body;
                   Order.addressNotes := Some (str_or (ob_notes body) "") |} in
              if falsy_str (ob_paymentMethod body)
              then (db, Next (AppError "Missing payment details." 400))
              else
                match cardLast4_of (ob_card body) with
                | Throw e => (db, Next e)
                | Ok cardLast4 =>
                    let paymentDetails :=
                      {| Order.provider := ob_provider body;
                         Order.paymentID := ob_paymentID body;
                         Order.payerEmail := ob_payerEmail body;
                         Order.cardLast4 := Some cardLast4;
                         Order.receiptUrl :=
                           Some (str_or (ob_receiptUrl body) "") |} in
                    let orderData (owner : option ObjectId) (guest : bool)
                        (email name : option string) : Order.Data num :=
                      {| Order.d_user := owner;
                         Order.d_isGuest := Some guest;
                         Order.d_guestEmail := email;
                         Order.d_guestName := name;
                         Order.d_orderItems := [orderItem];
                         Order.d_shippingAddress := shippingAddress;
                         Order.d_paymentDetails := paymentDetails;
                         Order.d_paymentMethod :=
                           default "" (ob_paymentMethod body);
                         Order.d_paymentStatus := None;
                         Order.d_status := Some "processing";
                         Order.d_totalAmount :=
                           nmul (p_basePrice product) quantity;
                         Order.d_isPaid := None;
                         Order.d_paidAt := None;
                         Order.d_isDelivered := None |} in
                    let isAuthenticated :=
                      match u with
                      | Some usr => negb (String.eqb (_id usr) "")
                      | None => false
                      end in
                    let data : outcome (Order.Data num) :=
                      if isAuthenticated
                      then Ok (orderData (option_map _id u) false None None)
                      else if falsy_str (ob_guestEmail body)
                              && falsy_str (ob_payerEmail body)
                      then Throw (AppError
                             "Email is required for guest checkout" 400)
                      else Ok (orderData None true
                                 (opt_or (ob_guestEmail body) (ob_payerEmail body))
                                 (Some (str_or (ob_guestName body) "Guest User")))
                      in
                    match data with
                    | Throw e => (db, Next e)
                    | Ok d =>
                        match Order.create newId d db with
                        | (db', Ok newOrder) => (db', Json 201 newOrder)
                        | (db', Throw e) => (db', Next e)
                        end
                    end
                end
  end.

End Creation.
Arguments Product : clear implicits.
Arguments OrderBody : clear implicits.
End orderCreation.

(** ** What the handlers may change in a stored order *)

Module OrderInv.
Section Inv.
Context {num : Type}.

(** The paths fixed at creation. *)
Definition same_snapshot (o o' : Order.Doc num) : Prop :=
  Order._id o' = Order._id o
  /\ Order.user o' = Order.user o
  /\ Order.isGuest o' = Order.isGuest o
  /\ Order.guestEmail o' = Order.guestEmail o
  /\ Order.guestName o' = Order.guestName o
  /\ Order.orderItems o' = Order.orderItems o
  /\ Order.shippingAddress o' = Order.shippingAddress o
  /\ Order.paymentDetails o' = Order.paymentDetails o
  /\ Order.paymentMethod o' = Order.paymentMethod o
  /\ Order.totalAmount o' = Order.totalAmount o.

(** A flag that is set stays set. *)
Definition flags_monotone (o o' : Order.Doc num) : Prop :=
  (Order.isPaid o = true -> Order.isPaid o' = true)
  /\ (Order.paymentStatus o = "paid" -> Order.paymentStatus o' = "paid")
  /\ (Order.isDelivered o = true -> Order.isDelivered o' = true)
  /\ (Order.isCancelled o = true -> Order.isCancelled o' = true).

(** The flags agree with the status: delivered exactly when the status is
    [delivered], and cancelled when the status is [cancelled]. *)
Definition flags_agree (o : Order.Doc num) : Prop :=
  (Order.isDelivered o = true <-> Order.status o = "delivered")
  /\ (Order.status o = "cancelled" -> Order.isCancelled o = true).

End Inv.
End OrderInv.

(** ** More concrete documents *)

Module Sample2.

Definition product3 : ObjectId := "64b7f0c2a1d3e4f5a6b7c8d3".

Definition pencil (q : Q) : Cart.ItemData Q :=
  Sample.itemData product3 "Pencil" q 2%Q.

(** [Sample.filledCart] with a payment method chosen. *)
Definition payableCart : Cart.Doc Q :=
  {| Cart.user := None; Cart.isGuest := true;
     Cart.guestEmail := Some "a@b.com";
     Cart.items := Cart.items Sample.filledCart;
     Cart.paymentMethod := Some "card"; Cart.subtotal := 25%Q;
     Cart.shippingCost := 5%Q; Cart.totalAmount := 30%Q;
     Cart.isConverted := false; Cart.lastUpdated := 2 |}.

(** A cart in memory with a line of 150 mugs, more than the schema allows,
    and the order that its conversion at time 7 with [card] builds. *)
Definition bulkCart : Cart.Doc Q :=
  Sample.cartState [Sample.lineAt 1 Sample.product1 "Mug" 150%Q 10%Q]
                   1500%Q 5%Q 1505%Q false 2.

Definition bulkOrder : Order.Doc Q :=
  Order.build Sample.order1
    (Cart.set_owner bulkCart
       (Cart.orderData 7 bulkCart
          (Order.mkPaymentDetails None None None None None)
          Sample.address "card")).

(** A body for [createOrderFromCart], by the guest of the sample carts. *)
Definition cartBody : orderCreation.CartBody :=
  {| orderCreation.cb_paymentDetails := None;
     orderCreation.cb_shippingAddress := Some Sample.address;
     orderCreation.cb_paymentMethod := Some "card";
     orderCreation.cb_guestEmail := Some "A@B.com" |}.

(** A product, a body for [createOrder] by a guest with the given email,
    and the order that it creates under the id [Sample.order1]. *)
Definition mug : orderCreation.Product Q :=
  {| orderCreation.p_id := Sample.product1;
     orderCreation.p_name := "Mug";
     orderCreation.p_isActive := true;
     orderCreation.p_stock := 5%Q;
     orderCreation.p_basePrice := 10%Q;
     orderCreation.p_images := ["mug.png"] |}.

Definition orderBody (email : option string) : orderCreation.OrderBody Q :=
  {| orderCreation.ob_productId := Some Sample.product1;
     orderCreation.ob_quantity := Some 2%Q;
     orderCreation.ob_fullName := Some "Ada Guest";
     orderCreation.ob_phone := Some "555-0100";
     orderCreation.ob_country := Some "NL";
     orderCreation.ob_city := Some "Delft";
     orderCreation.ob_street := Some "Main 1";
     orderCreation.ob_postalCode := Some "2611";
     orderCreation.ob_notes := None;
     orderCreation.ob_guestEmail := email;
     orderCreation.ob_provider := None;
     orderCreation.ob_paymentID := None;
     orderCreation.ob_payerEmail := None;
     orderCreation.ob_card :=
       Some (orderCreation.CardString "4242424242424242");
     orderCreation.ob_receiptUrl := None;
     orderCreation.ob_guestName := None;
     orderCreation.ob_paymentMethod := Some "card" |}.

Definition directOrder (email : string) : Order.Doc Q :=
  {| Order._id := Sample.order1;
     Order.user := None;
     Order.isGuest := true;
     Order.guestEmail := Some email;
     Order.guestName := Some "Guest User";
     Order.orderItems :=
       [ {| Order.product := Sample.product1; Order.name := "Mug";
            Order.quantity := 2%Q; Order.price := 10%Q;
            Order.image := "mug.png" |} ];
     Order.shippingAddress :=
       {| Order.fullName := Some "Ada Guest"; Order.phone := Some "555-0100";
          Order.country := Some "NL"; Order.city := Some "Delft";
          Order.street := Some "Main 1"; Order.postalCode := Some "2611";
          Order.addressNotes := Some "" |};
     Order.paymentDetails :=
       {| Order.provider := None; Order.paymentID := None;
          Order.payerEmail := None; Order.cardLast4 := Some "4242";
          Order.receiptUrl := Some "" |};
     Order.paymentMethod := "card";
     Order.paymentStatus := "pending";
     Order.status := "processing";
     Order.totalAmount := 20%Q;
     Order.isPaid := false;
     Order.paidAt := None;
     Order.isDelivered := false;
     Order.deliveredAt := None;
     Order.isCancelled := false;
     Order.cancelledAt := None;
     Order.notes := None;
     Order.trackingNumber := None;
     Order.invoiceURL := None |}.

(** [Sample.confirmedOrder], which is paid, with its invoice written. *)
Definition invoicedOrder : Order.Doc Q :=
  Order.set_invoiceURL
    (Some "/invoices/invoice-64b7f0c2a1d3e4f5a6b7c8e1.pdf")
    Sample.confirmedOrder.

End Sample2.

(** * Properties *)

(** ** The cart's lines and totals *)

Section CartFacts.
Context {num : Type} `{!JsNumber num}.
Implicit Types (c : Cart.Doc num) (its : list (Cart.Item num)).

(** When the loop of [calculateTotals] runs to its end, its first
    accumulator is the running sum of the line totals. *)
Lemma forEach_totals_sum its : forall a n s m,
  Cart.forEach_totals its a n = Ok (s, m) ->
  s = fold_left nadd (map CartOps.line_total its) a.
Proof.
  induction its as [|it rest IH]; intros a n s m; simpl.
  - intros [= <- _]. reflexivity.
  - destruct (negb (truthy (Cart.price it)) || negb (truthy (Cart.quantity it)));
      [discriminate|].
    intros Hrest. apply IH in Hrest. exact Hrest.
Qed.

(** [calculateTotals] never touches the lines, whether it returns or
    throws. *)
Lemma calculateTotals_items now c :
  Cart.items (fst (Cart.calculateTotals now c)) = Cart.items c.
Proof.
  unfold Cart.calculateTotals, Cart.save.
  destruct (Cart.forEach_totals _ _ _) as [[s m]|e]; [|reflexivity].
  destruct (Cart.validate _); reflexivity.
Qed.

(** A call of [calculateTotals] that returns leaves consistent totals. *)
Lemma calculateTotals_ok now c c' u :
  Cart.calculateTotals now c = (c', Ok u) -> CartOps.totals_ok c'.
Proof.
  unfold Cart.calculateTotals, Cart.save.
  destruct (Cart.forEach_totals _ _ _) as [[s m]|e] eqn:Hloop; [|discriminate].
  apply forEach_totals_sum in Hloop.
  destruct (Cart.validate _); [|discriminate].
  intros [= <- _]. unfold CartOps.totals_ok, CartOps.sum_of_lines; simpl.
  rewrite Hloop. split; reflexivity.
Qed.

(** Each mutator that returns has gone through [calculateTotals]. *)
Lemma apply_ok now op c c' u :
  CartOps.apply now op c = (c', Ok u) -> CartOps.totals_ok c'.
Proof.
  destruct op as [d|itemId|itemId q]; simpl.
  - unfold Cart.addItem. destruct (Cart.isConverted c); [discriminate|].
    apply calculateTotals_ok.
  - unfold Cart.removeItem. destruct (Cart.isConverted c); [discriminate|].
    destruct (findIndex _ _); [|discriminate]. apply calculateTotals_ok.
  - unfold Cart.updateItemQuantity. destruct (Cart.isConverted c); [discriminate|].
    destruct (findIndex _ _); [|discriminate]. apply calculateTotals_ok.
Qed.

Lemma run_app ops1 : forall ops2 c,
  CartOps.run (ops1 ++ ops2) c
  = match CartOps.run ops1 c with
    | Some c1 => CartOps.run ops2 c1
    | None => None
    end.
Proof.
  induction ops1 as [|[now op] rest IH]; intros ops2 c; simpl; [reflexivity|].
  destruct (CartOps.apply now op c) as [c1 [u|e]]; [apply IH|reflexivity].
Qed.

(** C1. After any sequence of [addItem], [removeItem] and
    [updateItemQuantity] calls that all return, ending with the call [op]
    at time [now], the cart's [subtotal] is the sum over its lines of
    price times quantity, rounded to two decimals, and its [totalAmount] is
    [subtotal] plus [shippingCost], rounded to two decimals. *)
Theorem totals_after_operations ops now op c c' :
  CartOps.run (ops ++ [(now, op)]) c = Some c' ->
  Cart.subtotal c' = toFixed2 (CartOps.sum_of_lines (Cart.items c'))
  /\ Cart.totalAmount c'
     = toFixed2 (nadd (Cart.subtotal c') (Cart.shippingCost c')).
Proof.
  rewrite run_app. destruct (CartOps.run ops c) as [c1|]; [|discriminate].
  simpl. destruct (CartOps.apply now op c1) as [c2 [u|e]] eqn:Hstep; [|discriminate].
  intros [= <-]. exact (apply_ok _ _ _ _ _ Hstep).
Qed.

End CartFacts.

(** ** [findIndex] *)

Section FindIndex.
Context {A : Type} (p : A -> bool).

(** A found index is the first position whose element satisfies [p]. *)
Lemma findIndex_Some (l : list A) : forall i,
  findIndex p l = Some i ->
  exists x, l !! i = Some x /\ p x = true
            /\ forall j y, (j < i)%nat -> l !! j = Some y -> p y = false.
Proof.
  induction l as [|a rest IH]; intros i; simpl; [discriminate|].
  destruct (p a) eqn:Hpa.
  - intros [= <-]. exists a. repeat split; trivial. intros j y Hj. lia.
  - destruct (findIndex p rest) as [k|] eqn:Hk; [|discriminate].
    intros [= <-]. destruct (IH k eq_refl) as (x & Hx & Hpx & Hfirst).
    exists x. repeat split; trivial.
    intros [|j] y Hj; simpl.
    + intros [= <-]. exact Hpa.
    + intros Hy. apply (Hfirst j y); [lia|exact Hy].
Qed.

(** [-1] is returned exactly when no element satisfies [p]. *)
Lemma findIndex_None (l : list A) :
  findIndex p l = None <-> forall x, x ∈ l -> p x = false.
Proof.
  induction l as [|a rest IH]; simpl.
  - split; [|reflexivity]. intros _ x Hx. apply elem_of_nil in Hx. contradiction.
  - destruct (p a) eqn:Hpa.
    + split; [discriminate|]. intros Hall.
      rewrite (Hall a) in Hpa; [discriminate|]. apply elem_of_cons. now left.
    + destruct (findIndex p rest) as [k|]; simpl.
      * split; [discriminate|]. intros Hall. destruct IH as [_ IH].
        assert (Hk : Some k = None); [|discriminate].
        apply IH. intros x Hx. apply Hall, elem_of_cons. now right.
      * split; [|reflexivity]. intros _ x Hx.
        apply elem_of_cons in Hx as [->|Hx]; [exact Hpa|].
        destruct IH as [IH _]. apply IH; trivial.
Qed.

Lemma findIndex_is_Some (l : list A) x :
  x ∈ l -> p x = true -> exists i, findIndex p l = Some i.
Proof.
  intros Hx Hpx. destruct (findIndex p l) as [i|] eqn:Hfind; [eauto|].
  rewrite findIndex_None in Hfind. rewrite (Hfind x Hx) in Hpx. discriminate.
Qed.

End FindIndex.

(** ** Adding and removing lines *)

Section CartLines.
Context {num : Type} `{!JsNumber num}.
Implicit Types (c : Cart.Doc num) (d : Cart.ItemData num).

(** The lines of the in-memory cart after [addItem] on a cart that is not
    converted, whether or not the totals could then be computed. *)
Lemma addItem_items now d c :
  Cart.isConverted c = false ->
  Cart.items (fst (Cart.addItem now d c))
  = match findIndex (Cart.same_line d) (Cart.items c) with
    | Some i =>
        alter (fun it => Cart.set_quantity
                           (nadd (Cart.quantity it) (Cart.data_quantity d)) it)
              i (Cart.items c)
    | None => (Cart.items c ++ [Cart.castItem d now])%list
    end.
Proof.
  intros Hconv. unfold Cart.addItem. rewrite Hconv.
  rewrite calculateTotals_items. reflexivity.
Qed.

(** The two cases of [addItem] on a cart that is not converted: the
    quantity goes to the first line that is the same line, and no other
    line nor the number of lines changes; when no line is the same, a new
    line is appended. *)
Lemma addItem_first_same_line now d c :
  Cart.isConverted c = false ->
  let its' := Cart.items (fst (Cart.addItem now d c)) in
  ((exists line, line ∈ Cart.items c /\ Cart.same_line d line = true) ->
   exists i line,
     Cart.items c !! i = Some line
     /\ Cart.same_line d line = true
     /\ its' !! i = Some (Cart.set_quantity
                            (nadd (Cart.quantity line) (Cart.data_quantity d))
                            line)
     /\ (forall j, j <> i -> its' !! j = Cart.items c !! j)
     /\ length its' = length (Cart.items c))
  /\ ((forall line, line ∈ Cart.items c -> Cart.same_line d line = false) ->
      its' = (Cart.items c ++ [Cart.castItem d now])%list).
Proof.
  intros Hconv its'. subst its'. rewrite (addItem_items now d c Hconv). split.
  - intros (line & Hin & Hsame).
    destruct (findIndex_is_Some _ _ _ Hin Hsame) as [i Hfind]. rewrite Hfind.
    destruct (findIndex_Some _ _ _ Hfind) as (x & Hx & Hpx & _).
    exists i, x. repeat split; trivial.
    + rewrite list_lookup_alter_eq, Hx. reflexivity.
    + intros j Hj. apply list_lookup_alter_ne. congruence.
    + apply length_alter.
  - intros Hnone. apply findIndex_None in Hnone. rewrite Hnone. reflexivity.
Qed.

Lemma addItem_isConverted now d c :
  Cart.isConverted (fst (Cart.addItem now d c)) = Cart.isConverted c.
Proof.
  unfold Cart.addItem. destruct (Cart.isConverted c) eqn:Hconv; [exact Hconv|].
  unfold Cart.calculateTotals, Cart.save. simpl.
  destruct (Cart.forEach_totals _ _ _) as [[s m]|e]; [|exact Hconv].
  destruct (Cart.validate _); exact Hconv.
Qed.

(** Objects that print the same have the same keys, in the same order. *)
Lemma JSON_stringify_eqb_keys (a b : list (string * Cart.JsValue num)) :
  Cart.JSON_stringify_eqb a b = true -> map fst a = map fst b.
Proof.
  revert b. induction a as [|[k x] a IH]; intros [|[l y] b]; simpl;
    try discriminate; [reflexivity|].
  intros Heq. apply andb_true_iff in Heq as [Heq Hrest].
  apply andb_true_iff in Heq as [Hkey _]. apply String.eqb_eq in Hkey.
  rewrite Hkey, (IH b Hrest). reflexivity.
Qed.

(** The keys of a stored variant without [_id] are paths of the schema,
    in the order of the schema. *)
Lemma variant_entries_in_order (v : Cart.Variant num) :
  Cart.v_id v = None ->
  Cart.in_order (map fst (Cart.variant_entries v)) Cart.variant_paths = true.
Proof.
  destruct v as [i n s k z p t]. simpl. intros ->.
  destruct n, s, k, z, p, t; reflexivity.
Qed.

(** A variant given with an [_id], or with its keys in another order than
    the schema's, is the same line as no line that the schema stored. *)
Lemma same_line_out_of_order d fields (line : Cart.Item num) :
  Cart.data_variant d = Some fields ->
  Cart.in_order (Cart.given_keys fields) Cart.variant_paths = false ->
  Cart.v_id (Cart.variant line) = None ->
  Cart.same_line d line = false.
Proof.
  intros Hfields Horder Hid. unfold Cart.same_line. rewrite Hfields. simpl.
  destruct (Cart.JSON_stringify_eqb _ _) eqn:Hjson; [|apply andb_false_r].
  apply JSON_stringify_eqb_keys in Hjson.
  pose proof (variant_entries_in_order _ Hid) as Hstored.
  rewrite Hjson in Hstored. unfold Cart.given_keys in Horder. congruence.
Qed.

(** C7, as the code behaves. [addItem] looks for a line with the same
    product whose stored variant prints, with [JSON.stringify], as the
    variant given. The stored variant has the paths of the schema only,
    in the order of the schema, so a variant given with an [_id] (as
    [cartController] always gives it) or with its keys in another order
    prints as no stored variant: on a cart that is not converted, whose
    lines the schema stored, adding such an item appends a line, and
    adding the same item again appends a second line instead of adding
    to the quantity of the first. *)
Theorem addItem_same_variant_twice_appends now1 now2 d c fields :
  Cart.isConverted c = false ->
  Cart.data_variant d = Some fields ->
  Cart.in_order (Cart.given_keys fields) Cart.variant_paths = false ->
  (forall line, line ∈ Cart.items c -> Cart.v_id (Cart.variant line) = None) ->
  Cart.items (fst (Cart.addItem now1 d c))
  = (Cart.items c ++ [Cart.castItem d now1])%list
  /\ Cart.items (fst (Cart.addItem now2 d (fst (Cart.addItem now1 d c))))
     = (Cart.items c ++ [Cart.castItem d now1; Cart.castItem d now2])%list.
Proof.
  intros Hconv Hfields Horder Hstored.
  assert (Hfirst : Cart.items (fst (Cart.addItem now1 d c))
                   = (Cart.items c ++ [Cart.castItem d now1])%list).
  { apply (addItem_first_same_line now1 d c Hconv). intros line Hin.
    apply (same_line_out_of_order d fields); auto. }
  split; [exact Hfirst|].
  assert (Hconv1 : Cart.isConverted (fst (Cart.addItem now1 d c)) = false)
    by (rewrite addItem_isConverted; exact Hconv).
  rewrite (proj2 (addItem_first_same_line now2 d _ Hconv1)).
  - rewrite Hfirst, <- app_assoc. reflexivity.
  - intros line Hin. rewrite Hfirst in Hin.
    apply (same_line_out_of_order d fields); trivial.
    apply elem_of_app in Hin as [Hin|Hin]; [auto|].
    apply list_elem_of_singleton in Hin. rewrite Hin. reflexivity.
Qed.

(** C8, as the code behaves. On a cart that is not converted, [removeItem]
    with an id that matches no line (by item, product or variant identity)
    leaves the cart as it is, but what it throws is the [ReferenceError] of
    the unbound [next], not an [AppError] with status 404. *)
Theorem removeItem_not_found_throws_ReferenceError now itemId c :
  Cart.isConverted c = false ->
  (forall line, line ∈ Cart.items c -> Cart.removeItem_matches itemId line = false) ->
  Cart.removeItem now itemId c
  = (c, Throw (ReferenceError "next is not defined")).
Proof.
  intros Hconv Hnone. apply findIndex_None in Hnone.
  unfold Cart.removeItem. rewrite Hconv, Hnone. reflexivity.
Qed.

(** The sibling method does raise the 404 in the same situation. *)
Lemma updateItemQuantity_not_found_404 now itemId q c :
  Cart.isConverted c = false ->
  (forall line, line ∈ Cart.items c ->
                Cart.updateItemQuantity_matches itemId line = false) ->
  Cart.updateItemQuantity now itemId q c
  = (c, Throw (AppError "Item not found in cart" 404)).
Proof.
  intros Hconv Hnone. apply findIndex_None in Hnone.
  unfold Cart.updateItemQuantity. rewrite Hconv, Hnone. reflexivity.
Qed.

End CartLines.

(** ** Converting a cart into an order *)

Section Conversion.
Context {num : Type} `{!JsNumber num}.
Implicit Types (c : Cart.Doc num) (db : Order.Store num) (o : Order.Doc num).

(** An order that passes validation has one of the five statuses. *)
Lemma validate_status o :
  Order.validate o = true -> in_enum (Order.status o) Order.status_enum = true.
Proof.
  unfold Order.validate. rewrite !andb_true_iff. tauto.
Qed.

(** The owner paths are set last and leave the others as they are. *)
Lemma set_owner_other_paths c (d : Order.Data num) :
  Order.d_status (Cart.set_owner c d) = Order.d_status d
  /\ Order.d_paymentStatus (Cart.set_owner c d) = Order.d_paymentStatus d
  /\ Order.d_isPaid (Cart.set_owner c d) = Order.d_isPaid d
  /\ Order.d_paidAt (Cart.set_owner c d) = Order.d_paidAt d.
Proof.
  unfold Cart.set_owner. destruct (Cart.user c); [|destruct (Cart.isGuest c)];
    repeat split.
Qed.

(** What a returning call of [convertToOrder] has done. *)
Lemma convertToOrder_ok now newId args c db c' db' o :
  Cart.convertToOrder now newId args c db = (c', db', Ok o) ->
  exists c1 shippingAddress paymentMethod,
    Cart.isConverted c = false
    /\ Cart.arg_shippingAddress args = Some shippingAddress
    /\ Cart.arg_paymentMethod args = Some paymentMethod
    /\ o = Order.build newId
             (Cart.set_owner c1
                (Cart.orderData now c1
                   (default (Order.mkPaymentDetails None None None None None)
                            (Cart.arg_paymentDetails args))
                   shippingAddress paymentMethod))
    /\ Order.validate o = true
    /\ db' = (db ++ [o])%list
    /\ c' = Cart.set_lastUpdated now (Cart.set_isConverted true c1).
Proof.
  unfold Cart.convertToOrder.
  destruct (Cart.isConverted c); [discriminate|].
  destruct (Nat.eqb _ 0); [discriminate|].
  destruct (Cart.arg_shippingAddress args) as [sa|]; [|discriminate].
  destruct (Cart.arg_paymentMethod args) as [pm|]; [|discriminate].
  destruct (falsy_str (Some pm)); [discriminate|]. simpl default.
  match goal with
  | |- context [let '(c1, r) := ?pre in _] => destruct pre as [c1 [u|e]]
  end; [|discriminate].
  unfold Order.create.
  destruct (Order.validate _) eqn:Hvalid; [|discriminate].
  unfold Cart.save. destruct (Cart.validate _); [|discriminate].
  intros [= <- <- <-]. exists c1, sa, pm. repeat split; trivial.
Qed.

(** C2. Once [convertToOrder] has returned an order for a cart, every later
    call on that cart throws an [AppError] with status 400, whatever its
    arguments; the cart is left as it is and the order collection too. *)
Theorem convertToOrder_twice_fails now newId args c db c' db' o :
  Cart.convertToOrder now newId args c db = (c', db', Ok o) ->
  Cart.isConverted c' = true
  /\ forall now2 newId2 args2 db2,
       Cart.convertToOrder now2 newId2 args2 c' db2
       = (c', db2,
          Throw (AppError "Cart has already been converted to an order" 400)).
Proof.
  intros Hfirst.
  destruct (convertToOrder_ok _ _ _ _ _ _ _ _ Hfirst)
    as (c1 & sa & pm & _ & _ & _ & _ & _ & _ & ->).
  split; [reflexivity|]. intros now2 newId2 args2 db2. reflexivity.
Qed.

(** The same for any cart whose [isConverted] flag is set. *)
Lemma convertToOrder_converted now newId args c db :
  Cart.isConverted c = true ->
  Cart.convertToOrder now newId args c db
  = (c, db, Throw (AppError "Cart has already been converted to an order" 400)).
Proof.
  intros Hconv. unfold Cart.convertToOrder. rewrite Hconv. reflexivity.
Qed.

(** The paths of a converted order that depend on the payment method. *)
Lemma convertToOrder_payment_paths now newId args c db c' db' o :
  Cart.convertToOrder now newId args c db = (c', db', Ok o) ->
  exists paymentMethod,
    Cart.arg_paymentMethod args = Some paymentMethod
    /\ Order.isPaid o = negb (String.eqb paymentMethod "cash")
    /\ Order.paidAt o
       = (if negb (String.eqb paymentMethod "cash") then Some now else None)
    /\ Order.status o
       = (if String.eqb paymentMethod "cash" then "pending" else "processing")
    /\ Order.paymentStatus o = "pending".
Proof.
  intros Hok.
  destruct (convertToOrder_ok _ _ _ _ _ _ _ _ Hok)
    as (c1 & sa & pm & _ & _ & Hpm & -> & _ & _ & _).
  exists pm. split; [exact Hpm|].
  unfold Order.build; simpl.
  destruct (set_owner_other_paths c1
              (Cart.orderData now c1
                 (default (Order.mkPaymentDetails None None None None None)
                          (Cart.arg_paymentDetails args)) sa pm))
    as (-> & -> & -> & ->).
  simpl. repeat split.
Qed.

(** C3, the cash half as the code behaves. A call of [convertToOrder] with
    payment method [cash] never returns an order: the status [pending] that
    it asks for is not a status of the Order schema. *)
Theorem convertToOrder_cash_never_returns
    now newId paymentDetails shippingAddress c db :
  is_ok (snd (Cart.convertToOrder now newId
                (Cart.mkConvertArgs paymentDetails shippingAddress
                                    (Some "cash")) c db))
  = false.
Proof.
  destruct (Cart.convertToOrder _ _ _ _ _) as [[c' db'] [o|e]] eqn:Hcall;
    [|reflexivity]. exfalso.
  destruct (convertToOrder_payment_paths _ _ _ _ _ _ _ _ Hcall)
    as (pm & [= <-] & _ & _ & Hstatus & _).
  destruct (convertToOrder_ok _ _ _ _ _ _ _ _ Hcall)
    as (_ & _ & _ & _ & _ & _ & _ & Hvalid & _).
  apply validate_status in Hvalid. rewrite Hstatus in Hvalid. discriminate.
Qed.

(** C3, the other half: an order returned for a payment method other than
    [cash] is paid at creation and [processing]. *)
Lemma convertToOrder_non_cash now newId args c db c' db' o paymentMethod :
  Cart.convertToOrder now newId args c db = (c', db', Ok o) ->
  Cart.arg_paymentMethod args = Some paymentMethod ->
  paymentMethod <> "cash" ->
  Order.isPaid o = true /\ Order.paidAt o = Some now
  /\ Order.status o = "processing".
Proof.
  intros Hok Hpm Hne.
  destruct (convertToOrder_payment_paths _ _ _ _ _ _ _ _ Hok)
    as (pm & Hpm' & -> & -> & -> & _).
  rewrite Hpm in Hpm'. injection Hpm' as <-.
  apply String.eqb_neq in Hne. rewrite Hne. repeat split.
Qed.

End Conversion.

(** ** The order collection *)

Section OrderStore.
Context {num : Type} `{!JsNumber num}.
Implicit Types (o : Order.Doc num) (db : Order.Store num).


(** A valid order stays valid when its status and payment status are
    set to values of their enums. *)
Lemma validate_set_statuses o o' :
  Order.validate o = true ->
  Order.isGuest o' = Order.isGuest o ->
  Order.guestEmail o' = Order.guestEmail o ->
  Order.orderItems o' = Order.orderItems o ->
  Order.shippingAddress o' = Order.shippingAddress o ->
  Order.paymentMethod o' = Order.paymentMethod o ->
  Order.totalAmount o' = Order.totalAmount o ->
  in_enum (Order.paymentStatus o') Order.paymentStatus_enum = true ->
  in_enum (Order.status o') Order.status_enum = true ->
  Order.validate o' = true.
Proof.
  unfold Order.validate. intros Hvalid -> -> -> -> -> -> -> ->.
  rewrite !andb_true_iff in Hvalid. rewrite !andb_true_iff. tauto.
Qed.

Lemma validate_paymentStatus o :
  Order.validate o = true ->
  in_enum (Order.paymentStatus o) Order.paymentStatus_enum = true.
Proof.
  unfold Order.validate. rewrite !andb_true_iff. tauto.
Qed.

Lemma set_notes_if_paths notes o :
  Order._id (orderController.set_notes_if notes o) = Order._id o
  /\ Order.isGuest (orderController.set_notes_if notes o) = Order.isGuest o
  /\ Order.guestEmail (orderController.set_notes_if notes o) = Order.guestEmail o
  /\ Order.orderItems (orderController.set_notes_if notes o) = Order.orderItems o
  /\ Order.shippingAddress (orderController.set_notes_if notes o) = Order.shippingAddress o
  /\ Order.paymentMethod (orderController.set_notes_if notes o) = Order.paymentMethod o
  /\ Order.paymentStatus (orderController.set_notes_if notes o) = Order.paymentStatus o
  /\ Order.status (orderController.set_notes_if notes o) = Order.status o
  /\ Order.totalAmount (orderController.set_notes_if notes o) = Order.totalAmount o
  /\ Order.isPaid (orderController.set_notes_if notes o) = Order.isPaid o
  /\ Order.paidAt (orderController.set_notes_if notes o) = Order.paidAt o
  /\ Order.isDelivered (orderController.set_notes_if notes o) = Order.isDelivered o
  /\ Order.isCancelled (orderController.set_notes_if notes o) = Order.isCancelled o.
Proof.
  unfold orderController.set_notes_if. destruct (falsy_str notes);
    repeat split.
Qed.

(** [save] of a valid document stores it and responds with it. *)
Lemma save_and_respond_valid code o db :
  Order.validate o = true ->
  orderController.save_and_respond code o db
  = (Order.replace o db, orderController.Json code o).
Proof.
  intros Hvalid. unfold orderController.save_and_respond, Order.save.
  rewrite Hvalid. reflexivity.
Qed.

(** A handler that ends in [save] responds with the document it saved,
    or forwards the validation error and leaves the collection alone. *)
Lemma save_and_respond_inv code o db db' r :
  orderController.save_and_respond code o db = (db', r) ->
  (Order.validate o = true /\ db' = Order.replace o db
   /\ r = orderController.Json code o)
  \/ (db' = db /\ exists e, r = orderController.Next e).
Proof.
  unfold orderController.save_and_respond, Order.save.
  destruct (Order.validate o); intros [= <- <-]; [left|right]; eauto.
Qed.

Lemma elem_of_replace o x db :
  In x (Order.replace o db) -> x = o \/ In x db.
Proof.
  induction db as [|y rest IH]; simpl; [tauto|].
  destruct (String.eqb (Order._id y) (Order._id o)); simpl; intuition.
Qed.

(** With distinct ids in the collection, a query on the id of a stored
    order finds that order or nothing. *)
Lemma find_by_id (p : Order.Doc num -> bool) o db :
  (forall x, p x = true -> Order._id x = Order._id o) ->
  List.NoDup (map Order._id db) -> In o db ->
  find p db = if p o then Some o else None.
Proof.
  intros Hid. induction db as [|x rest IH]; simpl; [contradiction|].
  intros Hnodup Hin. apply NoDup_cons_iff in Hnodup as [Hfresh Hnodup].
  destruct Hin as [->|Hin].
  - destruct (p o) eqn:Hpo; [reflexivity|].
    destruct (find p rest) as [y|] eqn:Hfind; [|reflexivity].
    apply find_some in Hfind as [Hy Hpy]. exfalso. apply Hfresh.
    rewrite <- (Hid y Hpy). apply in_map. exact Hy.
  - destruct (p x) eqn:Hpx; [|apply IH; trivial].
    exfalso. apply Hfresh. rewrite (Hid x Hpx). apply in_map. exact Hin.
Qed.


Lemma findOne_stored q o db :
  orderController.q_id q = Order._id o ->
  List.NoDup (map Order._id db) -> In o db ->
  orderController.findOne q db
  = if orderController.matches q o then Some o else None.
Proof.
  intros Hq Hnodup Hin. unfold orderController.findOne.
  apply find_by_id; trivial.
  intros x Hx. unfold orderController.matches in Hx.
  rewrite !andb_true_iff in Hx. destruct Hx as [[[Hx _] _] _].
  apply String.eqb_eq in Hx. congruence.
Qed.

Lemma findOne_found q o db :
  orderController.findOne q db = Some o ->
  In o db /\ Order._id o = orderController.q_id q.
Proof.
  unfold orderController.findOne. intros Hfind.
  apply find_some in Hfind as [Hin Hm]. split; [exact Hin|].
  unfold orderController.matches in Hm. rewrite !andb_true_iff in Hm.
  destruct Hm as [[[Hm _] _] _]. apply String.eqb_eq in Hm. exact Hm.
Qed.

Lemma findById_found id o db :
  Order.findById id db = Some o -> In o db /\ Order._id o = id.
Proof.
  unfold Order.findById. intros Hfind.
  apply find_some in Hfind as [Hin Hm]. apply String.eqb_eq in Hm. tauto.
Qed.

(** After the [save] of a document that a query by id had found, the same
    query finds the document saved. *)
Lemma findById_replace id o o' db :
  Order.findById id db = Some o -> Order._id o' = Order._id o ->
  Order.findById id (Order.replace o' db) = Some o'.
Proof.
  intros Hfind Hid. destruct (findById_found _ _ _ Hfind) as [_ Ho].
  unfold Order.findById in *. induction db as [|x rest IH]; [discriminate|].
  simpl in *. rewrite Hid, Ho.
  destruct (String.eqb (Order._id x) id) eqn:Hx; simpl.
  - rewrite Hid, Ho, String.eqb_refl. reflexivity.
  - rewrite Hx. apply IH. exact Hfind.
Qed.

End OrderStore.

(** ** Guarded transitions of an order *)

Section OrderTransitions.
Context {num : Type} `{!JsNumber num}.
Implicit Types (o : Order.Doc num) (db : Order.Store num)
  (req : orderController.Request).

Import orderController.

(** C6. For an order that an administrator's request designates,
    [markOrderAsPaid] responds with a 400 error when the order is
    cancelled (by status or by flag) or already paid; whenever it responds
    with success the order was neither, and is now paid, with [paidAt] the
    time of the call, and also delivered, with status [delivered]: the
    order of the response has the id of the designated one and is what
    the collection now holds in its place, so that the same id finds it;
    and it does respond with success for a valid order that is neither
    cancelled nor paid. *)
Theorem markOrderAsPaid_guards_and_effects now req db o adminUser :
  invalid_orderId (params_orderId req) = false ->
  user req = Some adminUser ->
  role adminUser = "admin" ->
  Order.findById (default "" (params_orderId req)) db = Some o ->
  ((Order.status o = "cancelled" \/ Order.isCancelled o = true
    \/ Order.isPaid o = true) ->
   exists message,
     markOrderAsPaid now req db = (db, Next (AppError message 400)))
  /\ (forall db' code o',
        markOrderAsPaid now req db = (db', Json code o') ->
        Order.status o <> "cancelled" /\ Order.isCancelled o = false
        /\ Order.isPaid o = false
        /\ Order.isPaid o' = true /\ Order.paidAt o' = Some now
        /\ Order.isDelivered o' = true /\ Order.status o' = "delivered"
        /\ Order.paymentStatus o' = "paid"
        /\ code = 200 /\ Order._id o' = Order._id o
        /\ db' = Order.replace o' db
        /\ Order.findById (default "" (params_orderId req)) db' = Some o')
  /\ (Order.status o <> "cancelled" -> Order.isCancelled o = false ->
      Order.isPaid o = false -> Order.validate o = true ->
      is_success (snd (markOrderAsPaid now req db)) = true).
Proof.
  intros Hid Huser Hrole Hfind.
  unfold markOrderAsPaid, require_admin.
  rewrite Hid, Huser, Hrole, Hfind. simpl negb. cbv iota.
  pose proof (set_notes_if_paths (num:=num) (body_notes req)) as Hnotes.
  split; [|split].
  - intros [Hst|[Hc|Hp]].
    + rewrite Hst. simpl. eauto.
    + rewrite Hc, orb_true_r. eauto.
    + destruct (String.eqb (Order.status o) "cancelled" || Order.isCancelled o);
        [eauto|]. rewrite Hp. eauto.
  - intros db' code o'.
    destruct (String.eqb (Order.status o) "cancelled") eqn:Hst; [discriminate|].
    destruct (Order.isCancelled o); [discriminate|].
    destruct (Order.isPaid o); [discriminate|]. simpl orb. cbv iota.
    intros Hsave. apply save_and_respond_inv in Hsave
      as [(_ & Hdb & [= <- ->])|(_ & e & [=])].
    apply String.eqb_neq in Hst.
    match goal with
    | |- context [set_notes_if _ ?x] =>
        destruct (Hnotes x) as (Hsame&_&_&_&_&_&-> &-> &_&-> &-> &-> &_)
    end.
    repeat split; trivial.
    rewrite Hdb. apply (findById_replace _ o); [exact Hfind|exact Hsame].
  - intros Hst Hc Hp Hvalid. apply String.eqb_neq in Hst.
    rewrite Hst, Hc, Hp. simpl orb. cbv iota.
    rewrite save_and_respond_valid; [reflexivity|].
    match goal with
    | |- Order.validate (set_notes_if _ ?x) = true =>
        destruct (Hnotes x) as (_&Hg&He&Hi&Ha&Hm&Hps&Hs&Ht&_)
    end.
    apply (validate_set_statuses o); [exact Hvalid|..];
      rewrite ?Hg, ?He, ?Hi, ?Ha, ?Hm, ?Hps, ?Hs, ?Ht; reflexivity.
Qed.

(** *** The status update *)

(** C4, first part: a delivered order accepts no status update. *)
Lemma updateOrderStatus_delivered_is_terminal now req db o :
  invalid_orderId (params_orderId req) = false ->
  Order.findById (default "" (params_orderId req)) db = Some o ->
  Order.status o = "delivered" ->
  exists message,
    updateOrderStatus now req db = (db, Next (AppError message 400)).
Proof.
  intros Hid Hfind Hst. unfold updateOrderStatus. rewrite Hid.
  destruct (falsy_str (body_newStatus req)); [eauto|].
  destruct (negb (in_enum _ allowedStatuses)); [eauto|].
  rewrite Hfind, Hst. simpl in_enum.
  destruct (String.eqb _ "cancelled"); simpl; eauto.
Qed.

(** C4, third part: a status update to the status the order has fails. *)
Lemma updateOrderStatus_same_status_fails now req db o newStatus :
  invalid_orderId (params_orderId req) = false ->
  Order.findById (default "" (params_orderId req)) db = Some o ->
  body_newStatus req = Some newStatus ->
  toLowerCase newStatus = Order.status o ->
  exists message,
    updateOrderStatus now req db = (db, Next (AppError message 400)).
Proof.
  intros Hid Hfind Hnew Hsame. unfold updateOrderStatus. rewrite Hid, Hnew.
  destruct (falsy_str (Some newStatus)); [eauto|]. simpl default.
  destruct (negb (in_enum _ allowedStatuses)); [eauto|].
  rewrite Hfind, Hsame, String.eqb_refl.
  destruct (_ && _); [eauto|].
  destruct (String.eqb _ "delivered"); eauto.
Qed.

(** C4, fourth part: a confirmed, shipped or delivered order cannot be
    cancelled through the status update. *)
Lemma updateOrderStatus_cancel_blocked now req db o newStatus :
  invalid_orderId (params_orderId req) = false ->
  Order.findById (default "" (params_orderId req)) db = Some o ->
  body_newStatus req = Some newStatus ->
  toLowerCase newStatus = "cancelled" ->
  In (Order.status o) ["confirmed"; "shipped"; "delivered"] ->
  exists message,
    updateOrderStatus now req db = (db, Next (AppError message 400)).
Proof.
  intros Hid Hfind Hnew Hcancel Hin. unfold updateOrderStatus.
  rewrite Hid, Hnew.
  destruct (falsy_str (Some newStatus)); [eauto|]. simpl default.
  rewrite Hcancel. simpl negb. cbv iota. rewrite Hfind.
  destruct Hin as [<-|[<-|[<-|[]]]]; simpl; eauto.
Qed.

(** C4, second part, as the code behaves. The status update has no guard
    for a cancelled order: for every valid order whose status is
    [cancelled] and every other known status, the update responds with
    success, and the order then has that status while its [isCancelled]
    flag stays as it was. *)
Theorem updateOrderStatus_cancelled_is_not_terminal now req db o newStatus :
  invalid_orderId (params_orderId req) = false ->
  Order.findById (default "" (params_orderId req)) db = Some o ->
  Order.validate o = true ->
  Order.status o = "cancelled" ->
  body_newStatus req = Some newStatus ->
  In (toLowerCase newStatus) ["processing"; "confirmed"; "shipped"; "delivered"] ->
  exists o',
    updateOrderStatus now req db = (Order.replace o' db, Json 200 o')
    /\ Order.status o' = toLowerCase newStatus
    /\ Order.isCancelled o' = Order.isCancelled o.
Proof.
  intros Hid Hfind Hvalid Hst Hnew Hin. unfold updateOrderStatus.
  rewrite Hid, Hnew.
  assert (Hfalsy : falsy_str (Some newStatus) = false).
  { destruct newStatus; [|reflexivity]. simpl in Hin. intuition discriminate. }
  rewrite Hfalsy. simpl default. rewrite Hfind, Hst.
  pose proof (set_notes_if_paths (num:=num) (body_notes req)) as Hnotes.
  pose proof (validate_paymentStatus o Hvalid) as Hps.
  destruct Hin as [<-|[<-|[<-|[<-|[]]]]]; simpl;
    match goal with
    | |- context [set_notes_if _ ?x] =>
        destruct (Hnotes x) as (_&Hg&He&Hi&Ha&Hm&Hp&Hs&Ht&_&_&_&Hc)
    end;
    try match goal with
    | |- context [String.eqb (Order.paymentMethod ?x) "cash"] =>
        destruct (String.eqb (Order.paymentMethod x) "cash")
    end;
    eexists; (split; [apply save_and_respond_valid|split]);
    simpl; rewrite ?Hs, ?Hc; try reflexivity;
    (apply (validate_set_statuses o); [exact Hvalid|..]; simpl;
     rewrite ?Hg, ?He, ?Hi, ?Ha, ?Hm, ?Hp, ?Hs, ?Ht; simpl;
     first [reflexivity|exact Hps]).
Qed.

(** *** Cancellation by the customer and by an administrator *)





End OrderTransitions.

(** ** Reading a guest order *)

Section GuestAccess.
Context {num : Type} `{!JsNumber num}.
Implicit Types (o : Order.Doc num) (db : Order.Store num)
  (req : orderController.Request).

Import orderController.

Lemma valid_orderId (id : string) :
  String.length id = 24%nat -> invalid_orderId (Some id) = false.
Proof.
  intros Hlen. unfold invalid_orderId. rewrite Hlen.
  destruct id; [discriminate|reflexivity].
Qed.

Lemma ascii_lower_idempotent (ch : ascii) :
  ascii_lower (ascii_lower ch) = ascii_lower ch.
Proof.
  destruct ch as [[] [] [] [] [] [] [] []]; reflexivity.
Qed.

(** Lowercasing twice is lowercasing once: an email that equals a
    lowercased one is itself in lower case. *)
Lemma toLowerCase_idempotent (s : string) :
  toLowerCase (toLowerCase s) = toLowerCase s.
Proof.
  induction s as [|ch rest IH]; simpl; [reflexivity|].
  rewrite ascii_lower_idempotent, IH. reflexivity.
Qed.

(** Which filters a stored guest order passes. *)
Lemma matches_guest_order o g u e b :
  Order.isGuest o = true -> Order.user o = None ->
  Order.guestEmail o = Some g ->
  matches (mkQuery (Order._id o) None None None) o = true
  /\ matches (mkQuery (Order._id o) (Some u) None None) o = false
  /\ matches (mkQuery (Order._id o) None (Some e) (Some b)) o
     = (String.eqb g e && Bool.eqb true b).
Proof.
  intros Hguest Huser Hemail. unfold matches; simpl.
  rewrite String.eqb_refl, Hguest, Huser, Hemail. simpl.
  repeat split.
Qed.

(** C9. For a stored guest order with guest email [g], and a request for
    its id: [getMyOrderById] returns the order only to an administrator, or
    to an unauthenticated request whose [guestEmail], lowercased, is [g]
    (the two emails then agree when both are lowercased);
    it does return it in these two cases; an unauthenticated request with
    another email, and any authenticated user who is not an administrator,
    get a 404; an unauthenticated request without email gets a 400. *)
Theorem getMyOrderById_guest_order req db o g :
  List.NoDup (map Order._id db) -> In o db ->
  Order.isGuest o = true -> Order.user o = None ->
  Order.guestEmail o = Some g ->
  params_orderId req = Some (Order._id o) ->
  String.length (Order._id o) = 24%nat ->
  (forall code o',
     getMyOrderById req db = Json code o' ->
     o' = o
     /\ (is_admin (user req) = true
         \/ (user req = None
             /\ exists e, query_guestEmail req = Some e /\ toLowerCase e = g
                          /\ toLowerCase e = toLowerCase g)))
  /\ (is_admin (user req) = true -> getMyOrderById req db = Json 200 o)
  /\ (forall e,
        user req = None -> query_guestEmail req = Some e -> e <> "" ->
        toLowerCase e = g -> getMyOrderById req db = Json 200 o)
  /\ (forall e,
        user req = None -> query_guestEmail req = Some e -> e <> "" ->
        toLowerCase e <> g ->
        exists message, getMyOrderById req db = Next (AppError message 404))
  /\ (forall u,
        user req = Some u -> role u <> "admin" ->
        exists message, getMyOrderById req db = Next (AppError message 404))
  /\ (user req = None -> falsy_str (query_guestEmail req) = true ->
      exists message, getMyOrderById req db = Next (AppError message 400)).
Proof.
  intros Hnodup Hin Hguest Huser Hemail Hparams Hlen.
  assert (Hfind : forall q, q_id q = Order._id o ->
            findOne q db = if matches q o then Some o else None).
  { intros q Hq. apply findOne_stored; trivial. }
  unfold getMyOrderById. rewrite Hparams, (valid_orderId _ Hlen). simpl default.
  repeat apply conj.
  - intros code o'. destruct (is_admin (user req)) eqn:Hadmin; simpl negb; cbv iota.
    + rewrite Hfind by reflexivity. destruct (matches _ o); [|discriminate].
      intros [= _ <-]. auto.
    + destruct (user req) as [u|] eqn:Hu.
      * rewrite Hfind by reflexivity.
        destruct (matches_guest_order o g (_id u) "" true Hguest Huser Hemail)
          as (_ & -> & _). discriminate.
      * destruct (query_guestEmail req) as [e|] eqn:He; [|discriminate].
        destruct (negb (falsy_str (Some e))); [|discriminate]. simpl option_map.
        rewrite Hfind by reflexivity.
        destruct (matches_guest_order o g "" (toLowerCase e) true
                    Hguest Huser Hemail) as (_ & _ & ->).
        destruct (String.eqb g (toLowerCase e)) eqn:Hge; [|discriminate].
        apply String.eqb_eq in Hge. intros [= _ <-]. split; [reflexivity|].
        right. split; [reflexivity|]. exists e. subst g.
        rewrite toLowerCase_idempotent. auto.
  - intros Hadmin. rewrite Hadmin. simpl negb. cbv iota.
    rewrite Hfind by reflexivity.
    destruct (matches_guest_order o g "" "" true Hguest Huser Hemail)
      as (-> & _). reflexivity.
  - intros e Hu He Hne Hlow. rewrite Hu, He. simpl is_admin. simpl negb. cbv iota.
    apply String.eqb_neq in Hne. unfold falsy_str. rewrite Hne. simpl.
    rewrite Hfind by reflexivity.
    destruct (matches_guest_order o g "" (toLowerCase e) true
                Hguest Huser Hemail) as (_ & _ & ->).
    rewrite Hlow, String.eqb_refl. reflexivity.
  - intros e Hu He Hne Hlow. rewrite Hu, He. simpl is_admin. simpl negb. cbv iota.
    apply String.eqb_neq in Hne. unfold falsy_str. rewrite Hne. simpl.
    rewrite Hfind by reflexivity.
    destruct (matches_guest_order o g "" (toLowerCase e) true
                Hguest Huser Hemail) as (_ & _ & ->).
    assert (Hge : String.eqb g (toLowerCase e) = false).
    { apply String.eqb_neq. congruence. }
    rewrite Hge. simpl. eauto.
  - intros u Hu Hrole. rewrite Hu. simpl is_admin.
    apply String.eqb_neq in Hrole. rewrite Hrole. simpl negb. cbv iota.
    rewrite Hfind by reflexivity.
    destruct (matches_guest_order o g (_id u) "" true Hguest Huser Hemail)
      as (_ & -> & _). eauto.
  - intros Hu Hfalsy. rewrite Hu, Hfalsy. simpl. eauto.
Qed.

End GuestAccess.

(** ** The payment status of an order *)

Section PaymentStatus.
Context {num : Type} `{!JsNumber num}.
Implicit Types (o : Order.Doc num) (db : Order.Store num)
  (req : orderController.Request).

Import orderController.

Lemma set_notes_if_id notes o :
  Order._id (set_notes_if notes o) = Order._id o.
Proof. apply set_notes_if_paths. Qed.

Lemma set_notes_if_paymentStatus notes o :
  Order.paymentStatus (set_notes_if notes o) = Order.paymentStatus o.
Proof. apply set_notes_if_paths. Qed.

(** After a handler has saved [x], the collection holds [x] and documents
    it held before. *)
Lemma save_and_respond_members code x db db' r o' :
  save_and_respond code x db = (db', r) -> In o' db' -> o' = x \/ In o' db.
Proof.
  intros Hsave Hin.
  apply save_and_respond_inv in Hsave as [(_ & -> & _)|(-> & _)]; [|tauto].
  apply elem_of_replace. exact Hin.
Qed.

(** Case analysis along the branches of a handler. *)
Ltac split_handler H :=
  repeat (cbn [andb orb negb] in H; cbv iota in H;
    match type of H with
    | context [String.eqb ?a ?b] => destruct (String.eqb a b) eqn:?
    | context [falsy_str ?a] => destruct (falsy_str a) eqn:?
    | context [in_enum ?a ?b] => destruct (in_enum a b) eqn:?
    | context [if ?b then _ else _] => destruct b eqn:?
    | context [match ?x with _ => _ end] => destruct x eqn:?
    end);
  cbn [andb orb negb] in H; cbv iota in H.

Ltac order_paths :=
  rewrite ?set_notes_if_id, ?set_notes_if_paymentStatus;
  cbn [Order._id Order.paymentStatus Order.set_status Order.set_paymentStatus
       Order.set_isPaid Order.set_paidAt Order.set_isDelivered
       Order.set_deliveredAt Order.set_isCancelled Order.set_cancelledAt
       Order.set_notes Order.set_trackingNumber Order.set_invoiceURL].

(** The handlers that are neither a delivery nor mark-as-paid store no
    order with payment status [paid] that was not stored so before. *)
Lemma handle_paymentStatus a now req db db' r o' :
  handle a now req db = (db', r) ->
  In o' db' -> Order.paymentStatus o' = "paid" ->
  (exists o, In o db /\ Order._id o = Order._id o'
             /\ Order.paymentStatus o = "paid")
  \/ is_markPaid a = true \/ is_delivery a req = true.
Proof.
  intros Hcall Hin Hpaid.
  destruct a; cbn [handle is_markPaid is_delivery] in *;
    try (right; left; reflexivity); try (right; right; reflexivity);
    [ unfold cancelMyOrder in Hcall
    | unfold generateInvoiceForOrder in Hcall
    | unfold updateOrderStatus in Hcall
    | unfold markOrderAsCancelled, require_admin in Hcall
    | unfold addTrackingInfo in Hcall
    | unfold deleteOrder in Hcall ];
    split_handler Hcall;
    try (injection Hcall as <- <-; left; exists o'; auto; fail);
    try (right; right; reflexivity);
    (destruct (save_and_respond_members _ _ _ _ _ _ Hcall Hin) as [->|Hold];
     [|left; exists o'; auto]);
    left;
    match goal with
    | Hf : Order.findById _ db = Some ?o0 |- _ =>
        apply findById_found in Hf as [Hin0 _]; exists o0
    | Hf : findOne _ db = Some ?o0 |- _ =>
        apply findOne_found in Hf as [Hin0 _]; exists o0
    end;
    (split; [exact Hin0|]); revert Hpaid; order_paths; auto.
Qed.

(** C10. Every order that [convertToOrder] returns has payment status
    [pending]: also one converted with a payment method other than [cash],
    which is paid from the start. And an order stored with payment status
    [paid] after a handler has run was stored so before, unless the
    handler is mark-as-paid or a delivery (the status update to
    [delivered], or mark-as-delivered). *)
Theorem paymentStatus_pending_until_paid_or_delivered :
  (forall now newId args (c : Cart.Doc num) db c' db' o,
     Cart.convertToOrder now newId args c db = (c', db', Ok o) ->
     Order.paymentStatus o = "pending"
     /\ (Cart.arg_paymentMethod args <> Some "cash" -> Order.isPaid o = true))
  /\ (forall a now req db db' r o',
        handle a now req db = (db', r) ->
        In o' db' -> Order.paymentStatus o' = "paid" ->
        (exists o, In o db /\ Order._id o = Order._id o'
                   /\ Order.paymentStatus o = "paid")
        \/ is_markPaid a = true \/ is_delivery a req = true).
Proof.
  split.
  - intros now newId args c db c' db' o Hok.
    destruct (convertToOrder_payment_paths _ _ _ _ _ _ _ _ Hok)
      as (pm & Hpm & Hpaid & _ & _ & Hstatus).
    split; [exact Hstatus|]. intros Hne. rewrite Hpaid.
    destruct (String.eqb pm "cash") eqn:Hcash; [|reflexivity].
    apply String.eqb_eq in Hcash. congruence.
  - apply handle_paymentStatus.
Qed.

End PaymentStatus.

(** * Concrete runs *)

Import CartOps.

(** The example of the spec: lines (price 10, quantity 2) and (price 5,
    quantity 1) give subtotal 25, and total 30 with shipping cost 5. *)
Example two_additions :
  run [Sample.addMug; Sample.addPen] Sample.emptyCart = Some Sample.filledCart.
Proof. vm_compute. reflexivity. Qed.

Lemma totals_after_operations_witness :
  run ([Sample.addMug] ++ [Sample.addPen]) Sample.emptyCart
  = Some Sample.filledCart
  /\ (Cart.subtotal Sample.filledCart
      = toFixed2 (sum_of_lines (Cart.items Sample.filledCart))
      /\ Cart.totalAmount Sample.filledCart
         = toFixed2 (nadd (Cart.subtotal Sample.filledCart)
                          (Cart.shippingCost Sample.filledCart))).
Proof.
  assert (Hrun : run ([Sample.addMug] ++ [Sample.addPen]) Sample.emptyCart
                 = Some Sample.filledCart) by (vm_compute; reflexivity).
  split; [exact Hrun|].
  exact (totals_after_operations [Sample.addMug] 2
           (AddItem (Sample.itemData Sample.product2 "Pen" 1%Q 5%Q))
           Sample.emptyCart Sample.filledCart Hrun).
Defined.

(** The failing input of C7: the item that [cartController] builds for a
    variant, added twice to the empty cart. *)
Lemma addItem_same_variant_twice_appends_witness :
  Cart.isConverted Sample.emptyCart = false
  /\ Cart.in_order (Cart.given_keys Sample.redVariant) Cart.variant_paths
     = false
  /\ Cart.items (fst (Cart.addItem 2 Sample.redMug
                        (fst (Cart.addItem 1 Sample.redMug Sample.emptyCart))))
     = [Cart.castItem Sample.redMug 1; Cart.castItem Sample.redMug 2].
Proof.
  split; [reflexivity|]. split; [reflexivity|].
  apply (addItem_same_variant_twice_appends 1 2 Sample.redMug Sample.emptyCart
           Sample.redVariant); try reflexivity.
  intros line Hin. simpl in Hin. apply elem_of_nil in Hin. destruct Hin.
Defined.

(** The same variant with its keys as [{sku, name}]: the keys are paths
    of the schema, not in its order, and the two additions give two
    lines. With the keys as [{name, sku}] the second addition goes to the
    line of the first. *)
Lemma addItem_keys_out_of_order :
  let d := Sample.variantItem [Cart.Field_sku "MUG-RED"; Cart.Field_name "Red"] in
  map (Cart.quantity (num:=Q))
      (Cart.items (fst (Cart.addItem 2 d
                          (fst (Cart.addItem 1 d Sample.emptyCart)))))
  = [1%Q; 1%Q].
Proof. vm_compute. reflexivity. Qed.

Lemma addItem_keys_in_order :
  let d := Sample.variantItem [Cart.Field_name "Red"; Cart.Field_sku "MUG-RED"] in
  map (Cart.quantity (num:=Q))
      (Cart.items (fst (Cart.addItem 2 d
                          (fst (Cart.addItem 1 d Sample.emptyCart)))))
  = [Qred (1 + 1)].
Proof. vm_compute. reflexivity. Qed.

(** The failing input of C8: an id that matches no line. *)
Lemma removeItem_not_found_throws_ReferenceError_witness :
  Cart.isConverted Sample.filledCart = false
  /\ (forall line, line ∈ Cart.items Sample.filledCart ->
        Cart.removeItem_matches (Some Sample.order1) line = false)
  /\ Cart.removeItem 3 (Some Sample.order1) Sample.filledCart
     = (Sample.filledCart, Throw (ReferenceError "next is not defined")).
Proof.
  assert (Hnone : forall line, line ∈ Cart.items Sample.filledCart ->
            Cart.removeItem_matches (Some Sample.order1) line = false).
  { intros line Hin. simpl in Hin.
    apply elem_of_cons in Hin as [->|Hin]; [vm_compute; reflexivity|].
    apply elem_of_cons in Hin as [->|Hin]; [vm_compute; reflexivity|].
    apply elem_of_nil in Hin. contradiction. }
  split; [reflexivity|]. split; [exact Hnone|].
  exact (removeItem_not_found_throws_ReferenceError 3 (Some Sample.order1)
           Sample.filledCart eq_refl Hnone).
Defined.

(** Conversion with [card] at time 7, then a second attempt. *)
Example conversion_with_card :
  Cart.convertToOrder 7 Sample.order1 (Sample.convertArgs "card")
                      Sample.filledCart []
  = (Sample.convertedCart, [Sample.cardOrder], Ok Sample.cardOrder).
Proof. vm_compute. reflexivity. Qed.

Lemma convertToOrder_twice_fails_witness :
  Cart.convertToOrder 7 Sample.order1 (Sample.convertArgs "card")
                      Sample.filledCart []
  = (Sample.convertedCart, [Sample.cardOrder], Ok Sample.cardOrder)
  /\ Cart.isConverted Sample.convertedCart = true
  /\ forall now2 newId2 args2 db2,
       Cart.convertToOrder now2 newId2 args2 Sample.convertedCart db2
       = (Sample.convertedCart, db2,
          Throw (AppError "Cart has already been converted to an order" 400)).
Proof.
  assert (Hfirst : Cart.convertToOrder 7 Sample.order1 (Sample.convertArgs "card")
                     Sample.filledCart []
                   = (Sample.convertedCart, [Sample.cardOrder], Ok Sample.cardOrder))
    by (vm_compute; reflexivity).
  split; [exact Hfirst|].
  exact (convertToOrder_twice_fails 7 Sample.order1 (Sample.convertArgs "card")
           Sample.filledCart [] Sample.convertedCart [Sample.cardOrder]
           Sample.cardOrder Hfirst).
Defined.

(** The failing input of C3: the same conversion with [cash] is rejected by
    the validation of the order, and no order is stored. *)
Example conversion_with_cash :
  Cart.convertToOrder 7 Sample.order1 (Sample.convertArgs "cash")
                      Sample.filledCart []
  = (Sample.filledCart, [], Throw (ValidationError "Order validation failed")).
Proof. vm_compute. reflexivity. Qed.

Import orderController.

Lemma sample_ids_distinct (o : Order.Doc Q) : List.NoDup (map Order._id [o]).
Proof. repeat constructor. simpl. tauto. Defined.

(** The failing input of C4: an administrator moves a cancelled order back
    to [processing]; the flag [isCancelled] stays set. *)
Lemma updateOrderStatus_cancelled_is_not_terminal_witness :
  let req := Sample.request (Some Sample.admin) None (Some "processing") in
  let db := [Sample.cancelledOrder] in
  Order.status Sample.cancelledOrder = "cancelled"
  /\ Order.validate Sample.cancelledOrder = true
  /\ exists o',
       updateOrderStatus 9 req db = (Order.replace o' db, Json 200 o')
       /\ Order.status o' = "processing"
       /\ Order.isCancelled o' = true.
Proof.
  intros req db. split; [reflexivity|]. split; [vm_compute; reflexivity|].
  refine (updateOrderStatus_cancelled_is_not_terminal 9 req db
            Sample.cancelledOrder "processing" _ _ _ _ _ _).
  - reflexivity.
  - reflexivity.
  - vm_compute. reflexivity.
  - reflexivity.
  - reflexivity.
  - simpl. left. reflexivity.
Defined.

(** The same call on the marked-cancelled sibling path is refused. *)
Example markOrderAsDelivered_refuses_cancelled :
  markOrderAsDelivered 9 (Sample.request (Some Sample.admin) None None)
                       [Sample.cancelledOrder]
  = ([Sample.cancelledOrder],
     Next (AppError
             "This order was cancelled and cannot be marked as delivered." 400)).
Proof. vm_compute. reflexivity. Qed.



(** A customer cancels a processing order; so can the administrator. *)
Example cancelMyOrder_processing :
  is_success (snd (cancelMyOrder 9
                     (Sample.request (Some Sample.customer) None None)
                     [Sample.unpaidOrder])) = true
  /\ is_success (snd (markOrderAsCancelled 9
                        (Sample.request (Some Sample.admin) None None)
                        [Sample.unpaidOrder])) = true.
Proof. split; vm_compute; reflexivity. Qed.

Lemma markOrderAsPaid_guards_and_effects_witness :
  let req := Sample.request (Some Sample.admin) None None in
  let db := [Sample.unpaidOrder] in
  invalid_orderId (params_orderId req) = false
  /\ user req = Some Sample.admin
  /\ role Sample.admin = "admin"
  /\ Order.findById (default "" (params_orderId req)) db = Some Sample.unpaidOrder
  /\ Order.validate Sample.unpaidOrder = true
  /\ is_success (snd (markOrderAsPaid 9 req db)) = true
  /\ forall db' code o',
       markOrderAsPaid 9 req db = (db', Json code o') ->
       Order.isPaid o' = true /\ Order.paidAt o' = Some 9
       /\ Order.isDelivered o' = true /\ Order.status o' = "delivered".
Proof.
  intros req db.
  assert (Hvalid : Order.validate Sample.unpaidOrder = true)
    by (vm_compute; reflexivity).
  pose proof (markOrderAsPaid_guards_and_effects 9 req db Sample.unpaidOrder
                Sample.admin eq_refl eq_refl eq_refl eq_refl)
    as (_ & Heffects & Hsucceeds).
  do 4 (split; [reflexivity|]). split; [exact Hvalid|].
  split.
  - apply Hsucceeds; [discriminate|reflexivity|reflexivity|exact Hvalid].
  - intros db' code o' Hcall.
    destruct (Heffects db' code o' Hcall) as (_ & _ & _ & H1 & H2 & H3 & H4 & _).
    auto.
Defined.

(** The guest reads the order with the same email in another case; a
    stranger and another email get a 404. *)
Lemma getMyOrderById_guest_order_witness :
  let db := [Sample.guestOrder] in
  List.NoDup (map Order._id db) /\ In Sample.guestOrder db
  /\ Order.isGuest Sample.guestOrder = true
  /\ Order.user Sample.guestOrder = None
  /\ Order.guestEmail Sample.guestOrder = Some "a@b.com"
  /\ String.length (Order._id Sample.guestOrder) = 24%nat
  /\ getMyOrderById (Sample.request None (Some "A@B.com") None) db
     = Json 200 Sample.guestOrder
  /\ (exists message,
        getMyOrderById (Sample.request None (Some "c@d.com") None) db
        = Next (AppError message 404))
  /\ (exists message,
        getMyOrderById (Sample.request (Some Sample.stranger) None None) db
        = Next (AppError message 404))
  /\ (exists message,
        getMyOrderById (Sample.request None None None) db
        = Next (AppError message 400)).
Proof.
  intros db.
  assert (Hin : In Sample.guestOrder db) by (simpl; tauto).
  pose (Hthm := fun req Hreq =>
          getMyOrderById_guest_order req db Sample.guestOrder "a@b.com"
            (sample_ids_distinct _) Hin eq_refl eq_refl eq_refl Hreq eq_refl).
  split; [apply sample_ids_distinct|]. split; [exact Hin|].
  do 4 (split; [reflexivity|]).
  split; [|split; [|split]].
  - destruct (Hthm (Sample.request None (Some "A@B.com") None) eq_refl)
      as (_ & _ & Hsame & _).
    apply (Hsame "A@B.com"); [reflexivity|reflexivity|discriminate|reflexivity].
  - destruct (Hthm (Sample.request None (Some "c@d.com") None) eq_refl)
      as (_ & _ & _ & Hother & _).
    apply (Hother "c@d.com"); [reflexivity|reflexivity|discriminate|].
    vm_compute. discriminate.
  - destruct (Hthm (Sample.request (Some Sample.stranger) None None) eq_refl)
      as (_ & _ & _ & _ & Huser & _).
    apply (Huser Sample.stranger); [reflexivity|]. vm_compute. discriminate.
  - destruct (Hthm (Sample.request None None None) eq_refl)
      as (_ & _ & _ & _ & _ & Hnone).
    apply Hnone; reflexivity.
Defined.

(** The converted [card] order is paid and still [pending]; marking it
    delivered does not settle its payment status, which is set for a cash
    order only. *)
Lemma paymentStatus_pending_until_paid_or_delivered_witness :
  let req := Sample.request (Some Sample.admin) None None in
  (Cart.convertToOrder 7 Sample.order1 (Sample.convertArgs "card")
                       Sample.filledCart []
   = (Sample.convertedCart, [Sample.cardOrder], Ok Sample.cardOrder)
   /\ Order.paymentStatus Sample.cardOrder = "pending"
   /\ Order.isPaid Sample.cardOrder = true)
  /\ (handle MarkOrderAsDelivered 9 req [Sample.cashOrder]
      = ([Sample.deliveredCashOrder], Json 200 Sample.deliveredCashOrder)
      /\ In Sample.deliveredCashOrder [Sample.deliveredCashOrder]
      /\ Order.paymentStatus Sample.deliveredCashOrder = "paid"
      /\ ((exists o, In o [Sample.cashOrder]
                     /\ Order._id o = Order._id Sample.deliveredCashOrder
                     /\ Order.paymentStatus o = "paid")
          \/ is_markPaid MarkOrderAsDelivered = true
          \/ is_delivery MarkOrderAsDelivered req = true)).
Proof.
  intros req. split; cycle 1.
  { assert (Hcall : handle MarkOrderAsDelivered 9 req [Sample.cashOrder]
              = ([Sample.deliveredCashOrder], Json 200 Sample.deliveredCashOrder))
      by (vm_compute; reflexivity).
    assert (Hin : In Sample.deliveredCashOrder [Sample.deliveredCashOrder])
      by (simpl; tauto).
    split; [exact Hcall|]. split; [exact Hin|]. split; [reflexivity|].
    exact (proj2 paymentStatus_pending_until_paid_or_delivered
             MarkOrderAsDelivered 9 req [Sample.cashOrder]
             [Sample.deliveredCashOrder] (Json 200 Sample.deliveredCashOrder)
             Sample.deliveredCashOrder Hcall Hin eq_refl). }
  assert (Hfirst : Cart.convertToOrder 7 Sample.order1 (Sample.convertArgs "card")
                     Sample.filledCart []
                   = (Sample.convertedCart, [Sample.cardOrder], Ok Sample.cardOrder))
    by (vm_compute; reflexivity).
  split; [exact Hfirst|].
  destruct (proj1 paymentStatus_pending_until_paid_or_delivered
              7 Sample.order1 (Sample.convertArgs "card") Sample.filledCart []
              Sample.convertedCart [Sample.cardOrder] Sample.cardOrder Hfirst)
    as [Hpending Hpaid].
  split; [exact Hpending|]. apply Hpaid. discriminate.
Defined.

(** The example of the spec: a cash order that reaches [delivered] ends
    paid, with payment status [paid]; through the status update as well. *)
Example cash_order_delivered :
  Order.isPaid Sample.deliveredCashOrder = true
  /\ Order.paymentStatus Sample.deliveredCashOrder = "paid"
  /\ updateOrderStatus 9
       (Sample.request (Some Sample.admin) None (Some "Delivered"))
       [Sample.cashOrder]
     = ([Sample.deliveredCashOrder], Json 200 Sample.deliveredCashOrder).
Proof. repeat split. Qed.

(** * Further properties of the cart *)

Section CartMore.
Context {num : Type} `{!JsNumber num}.
Implicit Types (c : Cart.Doc num) (d : Cart.ItemData num)
  (its : list (Cart.Item num)).

Import CartGuard.

Lemma forEach_totals_throws its : forall a n,
  existsb zero_line its = true ->
  Cart.forEach_totals its a n = Throw (AppError "Invalid item in cart" 400).
Proof.
  induction its as [|it rest IH]; intros a n; simpl; [discriminate|].
  unfold zero_line at 1.
  destruct (negb (truthy (Cart.price it)) || negb (truthy (Cart.quantity it)));
    simpl; [reflexivity|]. apply IH.
Qed.

Lemma forEach_totals_returns its : forall a n,
  existsb zero_line its = false ->
  exists s m, Cart.forEach_totals its a n = Ok (s, m).
Proof.
  induction its as [|it rest IH]; intros a n; simpl; [eauto|].
  unfold zero_line at 1.
  destruct (negb (truthy (Cart.price it)) || negb (truthy (Cart.quantity it)));
    simpl; [discriminate|]. apply IH.
Qed.

(** The paths that [calculateTotals] leaves alone. *)
Lemma calculateTotals_other_paths now c :
  Cart.user (fst (Cart.calculateTotals now c)) = Cart.user c
  /\ Cart.isGuest (fst (Cart.calculateTotals now c)) = Cart.isGuest c
  /\ Cart.guestEmail (fst (Cart.calculateTotals now c)) = Cart.guestEmail c
  /\ Cart.paymentMethod (fst (Cart.calculateTotals now c))
     = Cart.paymentMethod c
  /\ Cart.shippingCost (fst (Cart.calculateTotals now c))
     = Cart.shippingCost c
  /\ Cart.isConverted (fst (Cart.calculateTotals now c))
     = Cart.isConverted c.
Proof.
  unfold Cart.calculateTotals, Cart.save.
  destruct (Cart.forEach_totals _ _ _) as [[s m]|e]; [|repeat split].
  destruct (Cart.validate _); repeat split.
Qed.

(** X1. A converted cart is immutable: each of [addItem], [removeItem] and
    [updateItemQuantity] throws an [AppError] with status 400 and leaves
    the cart as it is, so no sequence of them that starts on a converted
    cart runs. *)
Theorem converted_cart_rejects_every_mutation now op c :
  Cart.isConverted c = true ->
  (exists message,
     CartOps.apply now op c = (c, Throw (AppError message 400)))
  /\ forall ops, CartOps.run ((now, op) :: ops) c = None.
Proof.
  intros Hconv.
  assert (Hstep : exists message,
            CartOps.apply now op c = (c, Throw (AppError message 400))).
  { destruct op as [d|itemId|itemId q]; simpl;
      [unfold Cart.addItem|unfold Cart.removeItem|unfold Cart.updateItemQuantity];
      rewrite Hconv; eauto. }
  split; [exact Hstep|]. intros ops. destruct Hstep as [message Hstep].
  simpl. rewrite Hstep. reflexivity.
Qed.

(** Without a line that stops the loop, [calculateTotals] sets the
    totals and reaches [save]. *)
Lemma calculateTotals_without_zero_line now c :
  existsb zero_line (Cart.items c) = false ->
  CartOps.totals_ok (fst (Cart.calculateTotals now c))
  /\ Cart.items (fst (Cart.calculateTotals now c)) = Cart.items c
  /\ (snd (Cart.calculateTotals now c) = Ok tt
      \/ snd (Cart.calculateTotals now c)
         = Throw (ValidationError "Cart validation failed")).
Proof.
  intros Hzero.
  destruct (forEach_totals_returns _ (ofZ 0) (ofZ 0) Hzero) as (s & m & Hloop).
  pose proof (forEach_totals_sum _ _ _ _ _ Hloop) as Hsum.
  unfold Cart.calculateTotals, Cart.save. rewrite Hloop.
  destruct (Cart.validate _); simpl;
    (split; [unfold CartOps.totals_ok, CartOps.sum_of_lines; simpl;
             rewrite Hsum; split; reflexivity|]);
    (split; [reflexivity|]); [left|right]; reflexivity.
Qed.

(** X2. [calculateTotals] on a cart with a line whose price or quantity is
    zero (or not a number) throws an [AppError] with status 500, the 400
    of the loop being caught and wrapped, and writes nothing; on any other
    cart it sets consistent totals in memory, keeps the lines, and either
    returns or passes on the validation error of [save]. *)
Theorem calculateTotals_outcome now c :
  if existsb zero_line (Cart.items c)
  then Cart.calculateTotals now c
       = (c, Throw (AppError
                      "Error calculating cart totals: Invalid item in cart" 500))
  else CartOps.totals_ok (fst (Cart.calculateTotals now c))
       /\ Cart.items (fst (Cart.calculateTotals now c)) = Cart.items c
       /\ (snd (Cart.calculateTotals now c) = Ok tt
           \/ snd (Cart.calculateTotals now c)
              = Throw (ValidationError "Cart validation failed")).
Proof.
  destruct (existsb _ (Cart.items c)) eqn:Hzero.
  - unfold Cart.calculateTotals.
    rewrite (forEach_totals_throws _ _ _ Hzero). reflexivity.
  - apply calculateTotals_without_zero_line. exact Hzero.
Qed.

(** *** Lists: the last position *)

Lemma findIndex_app_last {A : Type} (p : A -> bool) (l : list A) (y : A) :
  (forall x, x ∈ l -> p x = false) -> p y = true ->
  findIndex p (l ++ [y])%list = Some (length l).
Proof.
  induction l as [|a rest IH]; intros Hnone Hy; simpl.
  - rewrite Hy. reflexivity.
  - rewrite (Hnone a) by (apply elem_of_cons; now left).
    rewrite IH; [reflexivity| |exact Hy].
    intros x Hx. apply Hnone, elem_of_cons. now right.
Qed.

Lemma delete_app_last {A : Type} (l : list A) (y : A) :
  delete (length l) (l ++ [y])%list = l.
Proof.
  induction l as [|a rest IH]; simpl; [reflexivity|].
  f_equal. exact IH.
Qed.

Lemma alter_app_last {A : Type} (f : A -> A) (l : list A) (y : A) :
  alter f (length l) (l ++ [y])%list = (l ++ [f y])%list.
Proof.
  induction l as [|a rest IH]; simpl; [reflexivity|].
  f_equal. exact IH.
Qed.

(** *** The lines after each mutator *)

Lemma addItem_other_paths now d c :
  Cart.isConverted (fst (Cart.addItem now d c)) = Cart.isConverted c.
Proof.
  unfold Cart.addItem. destruct (Cart.isConverted c) eqn:Hconv; [exact Hconv|].
  match goal with
  | |- context [Cart.calculateTotals now ?x] =>
      destruct (calculateTotals_other_paths now x) as (_&_&_&_&_& ->)
  end. exact Hconv.
Qed.

Lemma removeItem_items now itemId c :
  Cart.isConverted c = false ->
  Cart.items (fst (Cart.removeItem now itemId c))
  = match findIndex (Cart.removeItem_matches itemId) (Cart.items c) with
    | Some i => delete i (Cart.items c)
    | None => Cart.items c
    end.
Proof.
  intros Hconv. unfold Cart.removeItem. rewrite Hconv.
  destruct (findIndex _ _); [|reflexivity].
  rewrite calculateTotals_items. reflexivity.
Qed.

Lemma updateItemQuantity_items now itemId q c :
  Cart.isConverted c = false ->
  Cart.items (fst (Cart.updateItemQuantity now itemId q c))
  = match findIndex (Cart.updateItemQuantity_matches itemId) (Cart.items c) with
    | Some i => alter (Cart.set_quantity q) i (Cart.items c)
    | None => Cart.items c
    end.
Proof.
  intros Hconv. unfold Cart.updateItemQuantity. rewrite Hconv.
  destruct (findIndex _ _); [|reflexivity].
  rewrite calculateTotals_items. reflexivity.
Qed.

(** A cart that passes the guard has no line that stops the loop of
    [calculateTotals]. *)
Lemma canConvertToOrder_lines c :
  canConvertToOrder c = Convertible ->
  Cart.isConverted c = false
  /\ Nat.eqb (length (Cart.items c)) 0 = false
  /\ falsy_str (Cart.paymentMethod c) = false
  /\ existsb zero_line (Cart.items c) = false.
Proof.
  unfold canConvertToOrder.
  destruct (Cart.isConverted c); [discriminate|].
  destruct (Nat.eqb _ 0); [discriminate|].
  destruct (falsy_str _); [discriminate|].
  destruct (existsb invalid_item (Cart.items c)) eqn:Hinvalid; [discriminate|].
  intros _. repeat split.
  induction (Cart.items c) as [|it rest IH]; simpl in *; [reflexivity|].
  apply orb_false_iff in Hinvalid as [Hit Hrest].
  rewrite (IH Hrest), orb_false_r.
  unfold invalid_item in Hit. unfold zero_line.
  destruct (String.eqb (Cart.product it) ""); simpl in Hit; [discriminate|].
  rewrite orb_comm. exact Hit.
Qed.

(** X3. A cart that passes [canConvertToOrder] is converted without any
    [AppError]: given a shipping address and a payment method,
    [convertToOrder] returns an order, or throws the validation error of
    the order or of the cart. *)
Theorem canConvertToOrder_then_convertToOrder now newId args c db address :
  canConvertToOrder c = Convertible ->
  Cart.arg_shippingAddress args = Some address ->
  falsy_str (Cart.arg_paymentMethod args) = false ->
  (exists o, snd (Cart.convertToOrder now newId args c db) = Ok o)
  \/ (exists message,
        snd (Cart.convertToOrder now newId args c db)
        = Throw (ValidationError message)).
Proof.
  intros Hguard Haddr Hmethod.
  destruct (canConvertToOrder_lines c Hguard) as (Hconv & Hlen & _ & Hzero).
  destruct (calculateTotals_without_zero_line now c Hzero)
    as (_ & _ & Htotals).
  unfold Cart.convertToOrder. rewrite Hconv, Hlen, Haddr, Hmethod.
  destruct (negb (truthy (Cart.totalAmount c)) || negb (truthy (Cart.subtotal c))).
  - destruct (Cart.calculateTotals now c) as [c1 r]. simpl in Htotals.
    destruct Htotals as [-> | ->]; [|right; simpl; eauto].
    unfold Order.create. destruct (Order.validate _); [|right; simpl; eauto].
    unfold Cart.save. destruct (Cart.validate _); simpl; eauto.
  - unfold Order.create. destruct (Order.validate _); [|right; simpl; eauto].
    unfold Cart.save. destruct (Cart.validate _); simpl; eauto.
Qed.

(** X4. Adding a product that the cart does not hold and removing it again
    by its product id gives back the lines the cart had. *)
Theorem addItem_then_removeItem now now' d c :
  Cart.isConverted c = false ->
  (forall line, line ∈ Cart.items c ->
     Cart.removeItem_matches (Some (Cart.data_product d)) line = false) ->
  Cart.items
    (fst (Cart.removeItem now' (Some (Cart.data_product d))
            (fst (Cart.addItem now d c))))
  = Cart.items c.
Proof.
  intros Hconv Hnone.
  assert (Hother : forall line, line ∈ Cart.items c -> Cart.same_line d line = false).
  { intros line Hin. specialize (Hnone line Hin).
    unfold Cart.removeItem_matches in Hnone.
    apply orb_false_iff in Hnone as [Hnone _].
    apply orb_false_iff in Hnone as [_ Hprod]. simpl in Hprod.
    unfold Cart.same_line. rewrite Hprod. reflexivity. }
  rewrite removeItem_items by (rewrite addItem_other_paths; exact Hconv).
  rewrite (addItem_items now d c Hconv).
  apply findIndex_None in Hother. rewrite Hother.
  rewrite (findIndex_app_last _ _ _ Hnone).
  - apply delete_app_last.
  - unfold Cart.removeItem_matches. simpl.
    rewrite String.eqb_refl. reflexivity.
Qed.

(** X5. Adding twice the same product without variant to a cart that does
    not hold it gives one new line, whose quantity is the sum of the two
    quantities; price, name and time are those of the first addition. *)
Theorem addItem_twice_merges now1 now2 d1 d2 c :
  Cart.isConverted c = false ->
  Cart.data_variant d1 = None -> Cart.data_variant d2 = None ->
  Cart.data_product d2 = Cart.data_product d1 ->
  (forall line, line ∈ Cart.items c -> Cart.same_line d1 line = false) ->
  Cart.items (fst (Cart.addItem now2 d2 (fst (Cart.addItem now1 d1 c))))
  = (Cart.items c
     ++ [Cart.set_quantity (nadd (Cart.data_quantity d1) (Cart.data_quantity d2))
           (Cart.castItem d1 now1)])%list.
Proof.
  intros Hconv Hv1 Hv2 Hprod Hnone.
  assert (Hnone2 : forall line, line ∈ Cart.items c -> Cart.same_line d2 line = false).
  { intros line Hin. specialize (Hnone line Hin). unfold Cart.same_line in *.
    rewrite Hv2, Hprod. rewrite Hv1 in Hnone. exact Hnone. }
  rewrite addItem_items by (rewrite addItem_other_paths; exact Hconv).
  rewrite (addItem_items now1 d1 c Hconv).
  pose proof Hnone as Hfind. apply findIndex_None in Hfind. rewrite Hfind.
  rewrite (findIndex_app_last _ _ _ Hnone2).
  - rewrite alter_app_last. reflexivity.
  - unfold Cart.same_line, Cart.castItem. simpl.
    rewrite Hprod, String.eqb_refl, Hv1, Hv2. reflexivity.
Qed.

(** X6. [removeItem] without an id removes the first line when that line
    has no [_id] (as every line of the schema): both sides of the first
    comparison are then [undefined]. *)
Theorem removeItem_undefined_removes_first_line now c line rest :
  Cart.isConverted c = false ->
  Cart.items c = line :: rest ->
  Cart.item_id line = None ->
  Cart.items (fst (Cart.removeItem now None c)) = rest.
Proof.
  intros Hconv Hitems Hid. rewrite (removeItem_items now None c Hconv).
  rewrite Hitems. simpl. unfold Cart.removeItem_matches at 1.
  rewrite Hid. reflexivity.
Qed.

(** X7. When some line matches the id, [removeItem] removes the first line
    that does and no other: one line less, in the same order. *)
Theorem removeItem_removes_first_match now itemId c :
  Cart.isConverted c = false ->
  (exists line, line ∈ Cart.items c
     /\ Cart.removeItem_matches itemId line = true) ->
  exists i line,
    Cart.items c !! i = Some line
    /\ Cart.removeItem_matches itemId line = true
    /\ (forall j other, (j < i)%nat -> Cart.items c !! j = Some other ->
          Cart.removeItem_matches itemId other = false)
    /\ Cart.items (fst (Cart.removeItem now itemId c))
       = (take i (Cart.items c) ++ drop (S i) (Cart.items c))%list
    /\ S (length (Cart.items (fst (Cart.removeItem now itemId c))))
       = length (Cart.items c).
Proof.
  intros Hconv (line & Hin & Hmatch).
  destruct (findIndex_is_Some _ _ _ Hin Hmatch) as [i Hfind].
  destruct (findIndex_Some _ _ _ Hfind) as (x & Hx & Hpx & Hfirst).
  exists i, x. rewrite (removeItem_items now itemId c Hconv), Hfind.
  repeat split; trivial.
  - apply delete_take_drop.
  - rewrite length_delete by (rewrite Hx; eauto).
    apply lookup_lt_Some in Hx. lia.
Qed.

(** X8. When some line matches the id, [updateItemQuantity] writes the new
    quantity into the first line that does, whatever the quantity and
    whether or not the cart then validates, and touches no other line;
    when none matches it throws the 404 and leaves the cart as it is. *)
Theorem updateItemQuantity_sets_first_match now itemId q c :
  Cart.isConverted c = false ->
  ((exists line, line ∈ Cart.items c
      /\ Cart.updateItemQuantity_matches itemId line = true) ->
   exists i line,
     Cart.items c !! i = Some line
     /\ Cart.updateItemQuantity_matches itemId line = true
     /\ Cart.items (fst (Cart.updateItemQuantity now itemId q c)) !! i
        = Some (Cart.set_quantity q line)
     /\ (forall j, j <> i ->
           Cart.items (fst (Cart.updateItemQuantity now itemId q c)) !! j
           = Cart.items c !! j)
     /\ length (Cart.items (fst (Cart.updateItemQuantity now itemId q c)))
        = length (Cart.items c))
  /\ ((forall line, line ∈ Cart.items c ->
         Cart.updateItemQuantity_matches itemId line = false) ->
      Cart.updateItemQuantity now itemId q c
      = (c, Throw (AppError "Item not found in cart" 404))).
Proof.
  intros Hconv. split.
  - intros (line & Hin & Hmatch).
    destruct (findIndex_is_Some _ _ _ Hin Hmatch) as [i Hfind].
    destruct (findIndex_Some _ _ _ Hfind) as (x & Hx & Hpx & _).
    exists i, x. rewrite (updateItemQuantity_items now itemId q c Hconv), Hfind.
    repeat split; trivial.
    + rewrite list_lookup_alter_eq, Hx. reflexivity.
    + intros j Hj. apply list_lookup_alter_ne. congruence.
    + apply length_alter.
  - intros Hnone. apply findIndex_None in Hnone.
    unfold Cart.updateItemQuantity. rewrite Hconv, Hnone. reflexivity.
Qed.

End CartMore.

(** * Further properties of the conversion *)

Section ConversionMore.
Context {num : Type} `{!JsNumber num}.
Implicit Types (c : Cart.Doc num) (db : Order.Store num) (o : Order.Doc num).

(** The cart on which the order is built: with its totals computed first
    when one of them is zero. *)
Lemma convertToOrder_returns now newId args c db c' db' o :
  Cart.convertToOrder now newId args c db = (c', db', Ok o) ->
  exists c1 shippingAddress paymentMethod,
    Cart.isConverted c = false
    /\ Cart.arg_shippingAddress args = Some shippingAddress
    /\ Cart.arg_paymentMethod args = Some paymentMethod
    /\ (c1 = c \/ exists u, Cart.calculateTotals now c = (c1, Ok u))
    /\ o = Order.build newId
             (Cart.set_owner c1
                (Cart.orderData now c1
                   (default (Order.mkPaymentDetails None None None None None)
                            (Cart.arg_paymentDetails args))
                   shippingAddress paymentMethod))
    /\ Order.validate o = true
    /\ db' = (db ++ [o])%list
    /\ c' = Cart.set_lastUpdated now (Cart.set_isConverted true c1).
Proof.
  unfold Cart.convertToOrder.
  destruct (Cart.isConverted c); [discriminate|].
  destruct (Nat.eqb _ 0); [discriminate|].
  destruct (Cart.arg_shippingAddress args) as [sa|]; [|discriminate].
  destruct (Cart.arg_paymentMethod args) as [pm|]; [|discriminate].
  destruct (falsy_str (Some pm)); [discriminate|]. simpl default.
  match goal with
  | |- context [let '(c1, r) := ?pre in _] =>
      destruct pre as [c1 [u|e]] eqn:Hpre
  end; [|discriminate].
  unfold Order.create.
  destruct (Order.validate _) eqn:Hvalid; [|discriminate].
  unfold Cart.save. destruct (Cart.validate _); [|discriminate].
  intros [= <- <- <-]. exists c1, sa, pm. repeat split; trivial.
  destruct (negb (truthy (Cart.totalAmount c)) || negb (truthy (Cart.subtotal c))).
  - right. destruct u. eauto.
  - left. congruence.
Qed.

Lemma computed_cart_paths now c c1 :
  (c1 = c \/ exists u, Cart.calculateTotals now c = (c1, Ok u)) ->
  Cart.items c1 = Cart.items c /\ Cart.user c1 = Cart.user c
  /\ Cart.isGuest c1 = Cart.isGuest c /\ Cart.guestEmail c1 = Cart.guestEmail c.
Proof.
  intros [->|[u Hcalc]]; [repeat split|].
  pose proof (calculateTotals_items now c) as Hitems.
  pose proof (calculateTotals_other_paths now c) as (Hu & Hg & He & _).
  rewrite Hcalc in *. simpl in *. auto.
Qed.

(** X9. The order that [convertToOrder] returns is the one order added to
    the collection, under the given id; its lines are the lines of the
    cart, in order, with the same product, name, quantity, price and
    image, and its total is the cart's [totalAmount]. It belongs to the
    cart's user if the cart has one, and is otherwise a guest order under
    the cart's email and the name [Guest] if the cart is a guest cart; a
    cart that is neither gives an order without owner. *)
Theorem convertToOrder_snapshot now newId args c db c' db' o :
  Cart.convertToOrder now newId args c db = (c', db', Ok o) ->
  db' = (db ++ [o])%list
  /\ Order._id o = newId
  /\ Cart.items c' = Cart.items c
  /\ Order.orderItems o = map Cart.orderItem_of (Cart.items c)
  /\ Order.totalAmount o = Cart.totalAmount c'
  /\ Order.user o = Cart.user c
  /\ Order.isGuest o
     = (match Cart.user c with Some _ => false | None => Cart.isGuest c end)
  /\ Order.guestEmail o
     = (match Cart.user c with
        | Some _ => None
        | None => if Cart.isGuest c then Cart.guestEmail c else None
        end)
  /\ Order.guestName o
     = (match Cart.user c with
        | Some _ => None
        | None => if Cart.isGuest c then Some "Guest" else None
        end).
Proof.
  intros Hok.
  destruct (convertToOrder_returns _ _ _ _ _ _ _ _ Hok)
    as (c1 & sa & pm & _ & _ & _ & Hc1 & -> & _ & -> & ->).
  destruct (computed_cart_paths now c c1 Hc1) as (Hitems & Hu & Hg & He).
  rewrite <- Hitems, <- Hu, <- Hg, <- He.
  unfold Order.build, Cart.set_owner.
  destruct (Cart.user c1); [|destruct (Cart.isGuest c1)]; simpl; repeat split.
Qed.

(** The two ways in which [convertToOrder] throws. *)
Lemma convertToOrder_throws now newId args c db c' db' e :
  Cart.convertToOrder now newId args c db = (c', db', Throw e) ->
  (db' = db /\ Cart.isConverted c' = Cart.isConverted c)
  \/ (exists o,
        db' = (db ++ [o])%list /\ Order.validate o = true
        /\ e = ValidationError "Cart validation failed"
        /\ Cart.isConverted c' = true /\ Cart.validate c' = false).
Proof.
  unfold Cart.convertToOrder.
  destruct (Cart.isConverted c) eqn:Hconv; [intros [= <- <- _]; auto|].
  destruct (Nat.eqb _ 0); [intros [= <- <- _]; auto|].
  destruct (Cart.arg_shippingAddress args) as [sa|]; [|intros [= <- <- _]; auto].
  destruct (falsy_str _); [intros [= <- <- _]; auto|].
  match goal with
  | |- context [let '(c1, r) := ?pre in _] =>
      destruct pre as [c1 r] eqn:Hpre
  end.
  assert (Hc1 : Cart.isConverted c1 = false).
  { destruct (_ || _) in Hpre; [|injection Hpre as <- _; exact Hconv].
    pose proof (calculateTotals_other_paths now c) as (_&_&_&_&_&Hsame).
    rewrite Hpre in Hsame. simpl in Hsame. congruence. }
  destruct r as [u|e1].
  - unfold Order.create.
    destruct (Order.validate _) eqn:Hvalid.
    + unfold Cart.save. destruct (Cart.validate _) eqn:Hcart; [discriminate|].
      intros [= <- <- <-]. right. eexists. repeat split; eauto.
    + intros [= <- <- _]. left. split; [reflexivity|]. congruence.
  - intros [= <- <- _]. left. split; [reflexivity|]. congruence.
Qed.

(** X10. When [convertToOrder] throws, either nothing was created and the
    cart is still not marked converted, or the order was created and
    stored and it is the final [save] of the cart that was rejected: the
    call then fails with the cart's validation error although the order
    exists, and the cart is marked converted in memory only. *)
Theorem convertToOrder_throw_cases now newId args c db c' db' e :
  Cart.convertToOrder now newId args c db = (c', db', Throw e) ->
  (db' = db /\ Cart.isConverted c' = Cart.isConverted c)
  \/ (exists o,
        db' = (db ++ [o])%list /\ Order.validate o = true
        /\ e = ValidationError "Cart validation failed"
        /\ Cart.isConverted c' = true /\ Cart.validate c' = false).
Proof. apply convertToOrder_throws. Qed.

(** X11. On a cart that is not converted, [convertToOrder] without lines,
    without shipping address or without payment method throws an
    [AppError] with status 400; the cart and the order collection are
    left as they are. *)
Theorem convertToOrder_missing_input now newId args c db :
  Cart.isConverted c = false ->
  Cart.items c = [] \/ Cart.arg_shippingAddress args = None
  \/ falsy_str (Cart.arg_paymentMethod args) = true ->
  exists message,
    Cart.convertToOrder now newId args c db
    = (c, db, Throw (AppError message 400)).
Proof.
  intros Hconv Hmissing. unfold Cart.convertToOrder. rewrite Hconv.
  destruct (Nat.eqb (length (Cart.items c)) 0) eqn:Hlen; [eauto|].
  destruct (Cart.arg_shippingAddress args) as [sa|]; [|eauto].
  destruct (falsy_str (Cart.arg_paymentMethod args)); [eauto|].
  destruct Hmissing as [Hempty|[Haddr|Hmethod]]; try discriminate.
  rewrite Hempty in Hlen. discriminate.
Qed.

End ConversionMore.

(** * Further properties of the order handlers *)

Section OrdersMore.
Context {num : Type} `{!JsNumber num}.
Implicit Types (o : Order.Doc num) (db : Order.Store num)
  (req : orderController.Request).

Import orderController OrderInv.

Lemma set_notes_if_cases notes o :
  set_notes_if notes o = o \/ set_notes_if notes o = Order.set_notes notes o.
Proof.
  unfold set_notes_if. destruct (falsy_str notes); auto.
Qed.

Lemma replace_ids x db :
  map Order._id (Order.replace x db) = map Order._id db.
Proof.
  induction db as [|y rest IH]; simpl; [reflexivity|].
  destruct (String.eqb (Order._id y) (Order._id x)) eqn:Hid; simpl.
  - apply String.eqb_eq in Hid. congruence.
  - rewrite IH. reflexivity.
Qed.

Ltac branches H :=
  repeat (cbn [andb orb negb] in H; cbv iota in H;
    match type of H with
    | context [String.eqb ?a ?b] => destruct (String.eqb a b) eqn:?
    | context [falsy_str ?a] => destruct (falsy_str a) eqn:?
    | context [in_enum ?a ?b] => destruct (in_enum a b) eqn:?
    | context [if ?b then _ else _] => destruct b eqn:?
    | context [match ?x with _ => _ end] => destruct x eqn:?
    end);
  cbn [andb orb negb] in H; cbv iota in H.

Ltac notes_cases :=
  repeat match goal with
  | |- context [set_notes_if ?n ?y] =>
      destruct (set_notes_if_cases n y) as [-> | ->]
  | H : context [set_notes_if ?n ?y] |- _ =>
      destruct (set_notes_if_cases n y) as [-> | ->]
  end.

Ltac eqb_facts :=
  repeat match goal with
  | H : String.eqb _ _ = true |- _ => apply String.eqb_eq in H
  | H : String.eqb _ _ = false |- _ => apply String.eqb_neq in H
  end.

(** A handler leaves the collection as it is, or replaces one stored
    order by a valid one that has the same snapshot, no flag reset, and
    flags that agree with the status if they did before. *)
Lemma handle_frame a now req db db' r :
  handle a now req db = (db', r) ->
  db' = db
  \/ exists o x,
       In o db /\ db' = Order.replace x db /\ Order.validate x = true
       /\ r = Json 200 x
       /\ same_snapshot o x /\ flags_monotone o x
       /\ (flags_agree o -> flags_agree x).
Proof.
  intros Hcall.
  destruct a; cbn [handle] in Hcall;
    [ unfold cancelMyOrder in Hcall
    | unfold generateInvoiceForOrder in Hcall
    | unfold updateOrderStatus in Hcall
    | unfold markOrderAsPaid, require_admin in Hcall
    | unfold markOrderAsDelivered, require_admin in Hcall
    | unfold markOrderAsCancelled, require_admin in Hcall
    | unfold addTrackingInfo in Hcall
    | unfold deleteOrder in Hcall ];
    branches Hcall;
    try (injection Hcall as <- _; left; reflexivity);
    (apply save_and_respond_inv in Hcall
       as [(Hvalid & -> & ->)|(-> & _)]; [right|left; reflexivity]);
    match goal with
    | Hf : Order.findById _ db = Some ?o0 |- _ =>
        apply findById_found in Hf as [Hin0 _]; exists o0
    | Hf : findOne _ db = Some ?o0 |- _ =>
        apply findOne_found in Hf as [Hin0 _]; exists o0
    end;
    eexists; (split; [exact Hin0|]); (split; [reflexivity|]);
    (split; [exact Hvalid|]); (split; [reflexivity|]);
    clear Hvalid; notes_cases; eqb_facts;
    unfold same_snapshot, flags_monotone, flags_agree;
    cbn [Order._id Order.user Order.isGuest Order.guestEmail Order.guestName
         Order.orderItems Order.shippingAddress Order.paymentDetails
         Order.paymentMethod Order.paymentStatus Order.status
         Order.totalAmount Order.isPaid Order.paidAt Order.isDelivered
         Order.deliveredAt Order.isCancelled Order.cancelledAt
         Order.set_status Order.set_paymentStatus Order.set_isPaid
         Order.set_paidAt Order.set_isDelivered Order.set_deliveredAt
         Order.set_isCancelled Order.set_cancelledAt Order.set_notes
         Order.set_trackingNumber Order.set_invoiceURL] in *;
    intuition (try congruence; try discriminate).
Qed.

(** X12. No handler adds or removes an order: the ids of the collection
    are the same, in the same order, after any handler; and the stored
    orders are all valid afterwards if they were before. *)
Theorem handlers_keep_ids_and_validity a now req db db' r :
  handle a now req db = (db', r) ->
  map Order._id db' = map Order._id db
  /\ ((forall o, In o db -> Order.validate o = true) ->
      forall o', In o' db' -> Order.validate o' = true).
Proof.
  intros Hcall.
  destruct (handle_frame _ _ _ _ _ _ Hcall)
    as [->|(o & x & Hin & -> & Hvalid & _)]; [auto|].
  split; [apply replace_ids|].
  intros Hall o' Hin'. apply elem_of_replace in Hin' as [->|Hin']; auto.
Qed.

(** X13. [deleteOrder] never succeeds: it responds with an error and
    leaves the collection as it is, for every request. An order that
    exists gets the [TypeError] of the missing [logs] path. *)
Theorem deleteOrder_never_succeeds req db :
  (exists e, deleteOrder req db = (db, Next e))
  /\ (invalid_orderId (params_orderId req) = false ->
      (exists o, Order.findById (default "" (params_orderId req)) db = Some o) ->
      exists message, deleteOrder req db = (db, Next (TypeError message))).
Proof.
  unfold deleteOrder. split.
  - destruct (invalid_orderId _); [eauto|].
    destruct (Order.findById _ db); eauto.
  - intros -> [o ->]. eauto.
Qed.

(** X14. Whatever handler runs, every order stored afterwards is an order
    stored before with the same id, owner, lines, addresses, payment
    method and total, and with no flag reset: once paid, delivered or
    cancelled, an order stays so. *)
Theorem handlers_keep_snapshot_and_flags a now req db db' r o' :
  handle a now req db = (db', r) ->
  In o' db' ->
  exists o, In o db /\ same_snapshot o o' /\ flags_monotone o o'.
Proof.
  intros Hcall Hin'.
  assert (Hsame : forall o, same_snapshot o o /\ flags_monotone o o).
  { intros o. unfold same_snapshot, flags_monotone. tauto. }
  destruct (handle_frame _ _ _ _ _ _ Hcall)
    as [->|(o & x & Hin & -> & _ & _ & Hsnap & Hmono & _)].
  - exists o'. split; [exact Hin'|apply Hsame].
  - apply elem_of_replace in Hin' as [->|Hin'].
    + exists o. auto.
    + exists o'. split; [exact Hin'|apply Hsame].
Qed.

(** X15. The handlers keep the flags in agreement with the status: if in
    every stored order [isDelivered] holds exactly when the status is
    [delivered], and [isCancelled] holds when the status is [cancelled],
    the same is true after any handler. *)
Theorem handlers_keep_flags_agree a now req db db' r :
  handle a now req db = (db', r) ->
  (forall o, In o db -> flags_agree o) ->
  forall o', In o' db' -> flags_agree o'.
Proof.
  intros Hcall Hall o' Hin'.
  destruct (handle_frame _ _ _ _ _ _ Hcall)
    as [->|(o & x & Hin & -> & _ & _ & _ & _ & Hagree)]; [auto|].
  apply elem_of_replace in Hin' as [->|Hin']; auto.
Qed.

Lemma in_enum_In (s : string) (values : list string) :
  in_enum s values = true <-> In s values.
Proof.
  unfold in_enum. rewrite existsb_exists. split.
  - intros (x & Hx & Heq). apply String.eqb_eq in Heq. subst x. exact Hx.
  - intros Hin. exists s. split; [exact Hin|apply String.eqb_refl].
Qed.

Lemma toLowerCase_empty (s : string) : toLowerCase s = "" <-> s = "".
Proof.
  destruct s; simpl; split; intros Heq; try reflexivity; discriminate.
Qed.

(** The order that the status update saves is valid when the order it
    found is. *)
Lemma updated_order_valid now notes newStatus o :
  Order.validate o = true ->
  in_enum newStatus allowedStatuses = true ->
  Order.validate
    (let order := Order.set_status newStatus o in
     let order :=
       if String.eqb newStatus "cancelled"
       then Order.set_cancelledAt (Some now) (Order.set_isCancelled true order)
       else order in
     let order :=
       if String.eqb newStatus "delivered"
       then Order.set_deliveredAt (Some now) (Order.set_isDelivered true order)
       else order in
     let order := set_notes_if notes order in
     if String.eqb newStatus "delivered"
        && String.eqb (Order.paymentMethod order) "cash"
     then Order.set_paymentStatus "paid"
            (Order.set_paidAt (Some now) (Order.set_isPaid true order))
     else order) = true.
Proof.
  intros Hvalid Henum. pose proof (validate_paymentStatus o Hvalid) as Hps.
  cbv zeta.
  destruct (String.eqb newStatus "cancelled");
    destruct (String.eqb newStatus "delivered"); cbn [andb];
    notes_cases;
    try match goal with
    | |- context [String.eqb ?a "cash"] => destruct (String.eqb a "cash")
    end;
    (apply (validate_set_statuses o); [exact Hvalid|..];
     first [reflexivity|exact Hps|exact Henum]).
Qed.

(** X16. The transitions of the status update. For a valid order and a
    known new status, the update succeeds exactly when the order is not
    delivered, the new status differs from the current one, and the order
    is not being cancelled once confirmed or shipped; every other move,
    backwards included, is accepted, and the stored status is then the
    new one in lower case. *)
Theorem updateOrderStatus_succeeds_iff now req db o newStatus :
  invalid_orderId (params_orderId req) = false ->
  Order.findById (default "" (params_orderId req)) db = Some o ->
  Order.validate o = true ->
  body_newStatus req = Some newStatus ->
  In (toLowerCase newStatus) allowedStatuses ->
  (is_success (snd (updateOrderStatus now req db)) = true
   <-> Order.status o <> "delivered"
       /\ toLowerCase newStatus <> Order.status o
       /\ ~ (In (Order.status o) ["confirmed"; "shipped"]
             /\ toLowerCase newStatus = "cancelled"))
  /\ (forall db' code o',
        updateOrderStatus now req db = (db', Json code o') ->
        code = 200 /\ Order.status o' = toLowerCase newStatus
        /\ db' = Order.replace o' db).
Proof.
  intros Hid Hfind Hvalid Hnew Hin.
  assert (Hfalsy : falsy_str (Some newStatus) = false).
  { simpl. apply String.eqb_neq. intros ->. simpl in Hin.
    intuition discriminate. }
  pose proof (proj2 (in_enum_In _ _) Hin) as Henum.
  pose proof (updated_order_valid now (body_notes req) _ o Hvalid Henum) as Hx.
  cbv zeta in Hx.
  unfold updateOrderStatus.
  rewrite Hid, Hnew, Hfalsy. simpl default. rewrite Henum, Hfind.
  simpl negb. cbv iota.
  rewrite (save_and_respond_valid 200 _ db Hx).
  destruct (in_enum (Order.status o) ["confirmed"; "shipped"; "delivered"])
    eqn:Hblock;
    [apply in_enum_In in Hblock
    |assert (Hnot : ~ In (Order.status o) ["confirmed"; "shipped"; "delivered"])
       by (rewrite <- in_enum_In, Hblock; discriminate)];
    destruct (String.eqb (toLowerCase newStatus) "cancelled") eqn:Hcancel;
    destruct (String.eqb (Order.status o) "delivered") eqn:Hdelivered;
    destruct (String.eqb (Order.status o) (toLowerCase newStatus)) eqn:Hsame;
    eqb_facts; cbn [andb snd is_success]; simpl in *;
    (split; [split; [intros Hs; try discriminate Hs|intros Hs]
            |intros db' code o' Hs; try discriminate Hs;
             try (injection Hs as <- <- <-; notes_cases;
                  repeat match goal with
                  | |- context [if ?b then _ else _] => destruct b
                  end; auto)]);
    try reflexivity; try (exfalso; intuition congruence);
    intuition congruence.
Qed.

(** X17. The status update reads the new status without regard to letter
    case: two requests for the same order that differ only in the case of
    [newStatus] have the same effect and the same response. *)
Theorem updateOrderStatus_case_insensitive now req1 req2 db s1 s2 :
  params_orderId req1 = params_orderId req2 ->
  body_notes req1 = body_notes req2 ->
  body_newStatus req1 = Some s1 -> body_newStatus req2 = Some s2 ->
  toLowerCase s1 = toLowerCase s2 ->
  updateOrderStatus now req1 db = updateOrderStatus now req2 db.
Proof.
  intros Hparams Hnotes H1 H2 Hlow.
  assert (Hempty : String.eqb s1 "" = String.eqb s2 "").
  { destruct (String.eqb s1 "") eqn:He1; destruct (String.eqb s2 "") eqn:He2;
      eqb_facts; try reflexivity; exfalso.
    - apply He2. apply toLowerCase_empty. rewrite <- Hlow, He1. reflexivity.
    - apply He1. apply toLowerCase_empty. rewrite Hlow, He2. reflexivity. }
  unfold updateOrderStatus. rewrite Hparams, Hnotes, H1, H2.
  simpl falsy_str. simpl default. rewrite Hempty, Hlow. reflexivity.
Qed.

(** X18. An order of a registered user is read by that user only, apart
    from administrators: another authenticated user gets a 404, and so
    does an unauthenticated request whatever email it gives (without
    email, a 400). *)
Theorem getMyOrderById_registered_order req db o owner :
  List.NoDup (map Order._id db) -> In o db ->
  Order.user o = Some owner -> Order.isGuest o = false ->
  params_orderId req = Some (Order._id o) ->
  String.length (Order._id o) = 24%nat ->
  (forall u, user req = Some u -> role u <> "admin" ->
     (_id u = owner -> getMyOrderById req db = Json 200 o)
     /\ (_id u <> owner ->
         exists message, getMyOrderById req db = Next (AppError message 404)))
  /\ (user req = None ->
      exists message,
        getMyOrderById req db
        = Next (AppError message
                  (if falsy_str (query_guestEmail req) then 400 else 404))).
Proof.
  intros Hnodup Hin Howner Hguest Hparams Hlen.
  assert (Hfind : forall q, q_id q = Order._id o ->
            findOne q db = if matches q o then Some o else None).
  { intros q Hq. apply findOne_stored; trivial. }
  unfold getMyOrderById. rewrite Hparams, (valid_orderId _ Hlen). simpl default.
  split.
  - intros u Hu Hrole. rewrite Hu. simpl is_admin.
    apply String.eqb_neq in Hrole. rewrite Hrole. simpl negb. cbv iota.
    rewrite Hfind by reflexivity. unfold matches; simpl.
    rewrite String.eqb_refl, Howner. simpl.
    split.
    + intros ->. rewrite String.eqb_refl. reflexivity.
    + intros Hne. assert (Heq : String.eqb owner (_id u) = false).
      { apply String.eqb_neq. congruence. }
      rewrite Heq. simpl. eauto.
  - intros Hu. rewrite Hu. simpl is_admin. simpl negb. cbv iota.
    destruct (falsy_str (query_guestEmail req)); simpl; [eauto|].
    rewrite Hfind by reflexivity. unfold matches; simpl.
    rewrite Hguest, andb_false_r. eauto.
Qed.

(** X19. Only the owner, or an administrator, cancels through
    [cancelMyOrder]: an authenticated user who is not the order's user,
    and an unauthenticated request whose lowercased email is not the
    email of a guest order, get a 404 and change nothing. *)
Theorem cancelMyOrder_not_the_owner now req db o :
  List.NoDup (map Order._id db) -> In o db ->
  params_orderId req = Some (Order._id o) ->
  String.length (Order._id o) = 24%nat ->
  (forall u, user req = Some u -> role u <> "admin" ->
     Order.user o <> Some (_id u) ->
     exists message,
       cancelMyOrder now req db = (db, Next (AppError message 404)))
  /\ (forall e, user req = None -> body_guestEmail req = Some e -> e <> "" ->
        Order.isGuest o = false \/ Order.guestEmail o <> Some (toLowerCase e) ->
        exists message,
          cancelMyOrder now req db = (db, Next (AppError message 404))).
Proof.
  intros Hnodup Hin Hparams Hlen.
  assert (Hfind : forall q, q_id q = Order._id o ->
            findOne q db = if matches q o then Some o else None).
  { intros q Hq. apply findOne_stored; trivial. }
  unfold cancelMyOrder. rewrite Hparams, (valid_orderId _ Hlen). simpl default.
  split.
  - intros u Hu Hrole Hother. rewrite Hu. simpl is_admin.
    apply String.eqb_neq in Hrole. rewrite Hrole. simpl negb. cbv iota.
    rewrite Hfind by reflexivity. unfold matches; simpl.
    rewrite String.eqb_refl. simpl.
    assert (Hne : opt_str_eqb (Order.user o) (Some (_id u)) = false).
    { destruct (Order.user o) as [x|]; simpl; [|reflexivity].
      apply String.eqb_neq. congruence. }
    rewrite Hne. simpl. eauto.
  - intros e Hu He Hne Hother. rewrite Hu, He. simpl is_admin. simpl negb.
    cbv iota. apply String.eqb_neq in Hne. simpl falsy_str. rewrite Hne.
    simpl negb. cbv iota. simpl option_map.
    rewrite Hfind by reflexivity. unfold matches; simpl.
    rewrite String.eqb_refl. simpl.
    destruct Hother as [Hguest|Hemail].
    + rewrite Hguest, andb_false_r. eauto.
    + assert (Heq : opt_str_eqb (Order.guestEmail o) (Some (toLowerCase e))
                    = false).
      { destruct (Order.guestEmail o) as [x|]; simpl; [|reflexivity].
        apply String.eqb_neq. congruence. }
      rewrite Heq. simpl. eauto.
Qed.

(** X20. A delivery, by [markOrderAsDelivered] or by the status update to
    [delivered], leaves the order delivered at the time of the call. A
    cash order is then paid; if it was not paid before, its payment status
    becomes [paid] and [paidAt] the time of the call. An order with
    another payment method keeps its payment paths as they were, so that
    it can be delivered and unpaid. The order of the response is the one
    that the request designates, as changed, and the collection holds it
    in the place of that one, so that the same id now finds it. *)
Theorem delivery_settles_cash now req db db' code o' :
  markOrderAsDelivered now req db = (db', Json code o')
  \/ (updateOrderStatus now req db = (db', Json code o')
      /\ toLowerCase (default "" (body_newStatus req)) = "delivered") ->
  exists o,
    In o db /\ Order._id o' = Order._id o
    /\ Order.status o' = "delivered" /\ Order.isDelivered o' = true
    /\ Order.deliveredAt o' = Some now
    /\ (Order.paymentMethod o = "cash" -> Order.isPaid o' = true)
    /\ (Order.paymentMethod o = "cash" -> Order.isPaid o = false ->
        Order.paymentStatus o' = "paid" /\ Order.paidAt o' = Some now)
    /\ (Order.paymentMethod o <> "cash" ->
        Order.isPaid o' = Order.isPaid o
        /\ Order.paymentStatus o' = Order.paymentStatus o
        /\ Order.paidAt o' = Order.paidAt o)
    /\ Order.findById (default "" (params_orderId req)) db = Some o
    /\ db' = Order.replace o' db
    /\ Order.findById (default "" (params_orderId req)) db' = Some o'.
Proof.
  intros [Hcall|[Hcall Hnew]];
    [unfold markOrderAsDelivered, require_admin in Hcall
    |unfold updateOrderStatus in Hcall; rewrite Hnew in Hcall];
    branches Hcall; try discriminate Hcall;
    (apply save_and_respond_inv in Hcall
       as [(_ & Hdb & [= _ ->])|(_ & e & [=])]);
    match goal with
    | Hf : Order.findById _ _ = Some ?o0 |- _ =>
        pose proof Hf as Hstored;
        apply findById_found in Hf as [Hin0 _]; exists o0
    end;
    (split; [exact Hin0|]);
    repeat match goal with
    | H : context [set_notes_if ?n ?y] |- _ =>
        destruct (set_notes_if_cases n y) as [Hn|Hn]; rewrite Hn in *; clear Hn
    | |- context [set_notes_if ?n ?y] =>
        destruct (set_notes_if_cases n y) as [Hn|Hn]; rewrite Hn in *; clear Hn
    end;
    cbn [Order._id Order.paymentMethod Order.paymentStatus Order.status
         Order.isPaid Order.paidAt Order.isDelivered Order.deliveredAt
         Order.set_status Order.set_paymentStatus Order.set_isPaid
         Order.set_paidAt Order.set_isDelivered Order.set_deliveredAt
         Order.set_isCancelled Order.set_cancelledAt Order.set_notes] in *;
    rewrite ?negb_true_iff, ?negb_false_iff in *;
    eqb_facts; repeat split; try congruence; intros; try congruence;
    rewrite Hdb; apply (findById_replace _ _ _ _ Hstored); reflexivity.
Qed.

(** X21. [generateInvoiceForOrder] succeeds only on a paid order and when
    the PDF was written; what it stores is that order with its invoice
    URL set to the path of the file, nothing else changed. *)
Theorem generateInvoiceForOrder_effect pdf req db db' code o' :
  generateInvoiceForOrder pdf req db = (db', Json code o') ->
  pdf = Ok tt
  /\ exists o,
       In o db /\ Order.isPaid o = true
       /\ o' = Order.set_invoiceURL
                 (Some ("/invoices/invoice-" ++ Order._id o ++ ".pdf")) o
       /\ db' = Order.replace o' db.
Proof.
  unfold generateInvoiceForOrder. intros Hcall.
  destruct (findOne _ db) as [o|] eqn:Hfind; [|discriminate].
  apply findOne_found in Hfind as [Hin _].
  destruct (Order.isPaid o) eqn:Hpaid; simpl in Hcall; [|discriminate].
  destruct pdf as [[]|e]; [|discriminate].
  apply save_and_respond_inv in Hcall
    as [(_ & -> & [= _ ->])|(_ & e & [=])].
  split; [reflexivity|]. exists o. auto.
Qed.

End OrdersMore.

(** * Properties of the creation of orders *)

Section CreationMore.
Context {num : Type} `{!JsNumber num} `{!JsNumberText num}.
Implicit Types (db : Order.Store num) (o : Order.Doc num)
  (carts : list (Cart.Doc num)).

Import orderController orderCreation.

Lemma findOne_cart_Some (filter : Cart.Doc num -> bool) carts i cart :
  findOne_cart filter carts = Some (i, cart) ->
  carts !! i = Some cart /\ filter cart = true.
Proof.
  unfold findOne_cart. destruct (findIndex filter carts) as [k|] eqn:Hfind;
    [|discriminate].
  destruct (findIndex_Some _ _ _ Hfind) as (x & Hx & Hpx & _).
  rewrite Hx. simpl. intros [= <- <-]. auto.
Qed.

(** The cart that a request selects is stored and not converted. *)
Lemma find_active_cart_Some u body carts i cart :
  find_active_cart u body carts = Ok (Some (i, cart)) ->
  carts !! i = Some cart /\ Cart.isConverted cart = false.
Proof.
  unfold find_active_cart. intros Hfind.
  assert (Hcases : exists filter,
            findOne_cart filter carts = Some (i, cart)
            /\ forall c, filter c = true -> Cart.isConverted c = false).
  { destruct u as [usr|];
      [destruct (negb (String.eqb (_id usr) ""))|];
      try destruct (negb (falsy_str (cb_guestEmail body)));
      try discriminate; injection Hfind as Hfind;
      eexists; (split; [exact Hfind|]);
      intros c Hc; unfold active_cart_of_user, active_cart_of_guest in Hc;
      apply andb_true_iff in Hc as [_ Hc]; apply negb_true_iff in Hc;
      exact Hc. }
  destruct Hcases as (filter & Hfound & Hactive).
  apply findOne_cart_Some in Hfound as [Hi Hp]. auto.
Qed.

(** X22. A successful [createOrderFromCart] has converted the first active
    cart of the requester: that cart is stored as converted, with its
    lines, the order is the one order added, with status 201, and it
    belongs to the cart's user. No later request, by anyone, selects that
    cart again. *)
Theorem createOrderFromCart_converts_once
    now newId u body carts db carts' db' code o :
  createOrderFromCart now newId u body carts db = (carts', db', Json code o) ->
  exists i cart cart',
    find_active_cart u body carts = Ok (Some (i, cart))
    /\ carts' = <[i := cart']> carts
    /\ Cart.isConverted cart' = true
    /\ Cart.items cart' = Cart.items cart
    /\ code = 201 /\ db' = (db ++ [o])%list
    /\ Order.user o = Cart.user cart
    /\ forall u2 body2 j cart2,
         find_active_cart u2 body2 carts' = Ok (Some (j, cart2)) -> j <> i.
Proof.
  unfold createOrderFromCart.
  destruct (cb_shippingAddress body) as [sa|]; [|discriminate].
  destruct (falsy_str (cb_paymentMethod body)); [discriminate|].
  destruct (find_active_cart u body carts) as [[[i cart]|]|e] eqn:Hfind;
    try discriminate.
  destruct (Cart.convertToOrder _ _ _ cart db) as [[cart' db1] [o1|e]] eqn:Hconv;
    [|discriminate].
  simpl. intros [= <- <- <- <-].
  destruct (find_active_cart_Some _ _ _ _ _ Hfind) as [Hi _].
  destruct (convertToOrder_returns _ _ _ _ _ _ _ _ Hconv)
    as (c1 & sa' & pm & _ & _ & _ & Hc1 & Ho & _ & Hdb & Hcart').
  destruct (computed_cart_paths now cart c1 Hc1) as (Hitems & Huser & _ & _).
  exists i, cart, cart'. repeat split; trivial.
  - rewrite Hcart'. reflexivity.
  - rewrite Hcart'. exact Hitems.
  - rewrite Ho, <- Huser. unfold Order.build, Cart.set_owner.
    destruct (Cart.user c1); [|destruct (Cart.isGuest c1)]; reflexivity.
  - intros u2 body2 j cart2 Hfind2 ->.
    destruct (find_active_cart_Some _ _ _ _ _ Hfind2) as [Hj Hactive].
    rewrite list_lookup_insert_eq in Hj by (apply lookup_lt_Some in Hi; exact Hi).
    injection Hj as <-. rewrite Hcart' in Hactive. discriminate.
Qed.

Ltac creation_branches H :=
  repeat (cbn [andb orb negb] in H; cbv iota in H;
    match type of H with
    | context [String.eqb ?a ?b] => destruct (String.eqb a b) eqn:?
    | context [falsy_str ?a] => destruct (falsy_str a) eqn:?
    | context [nltb ?a ?b] => destruct (nltb a b) eqn:?
    | context [if ?b then _ else _] => destruct b eqn:?
    | context [match ?x with _ => _ end] => destruct x eqn:?
    end);
  cbn [andb orb negb] in H; cbv iota in H.

(** X23. An order that [createOrder] returns is the one order added to
    the collection, with status 201. It has one line, for the active
    product found, at its base price and in the quantity asked (1 if
    none), which is at least 1 and within the stock; its total is base
    price times quantity; it is [processing], not paid and of payment
    status [pending] whatever the payment method. It belongs to the
    authenticated user; without one it is a guest order under the guest
    email, or else the payer email, as given, and the guest name or
    [Guest User]. *)
Theorem createOrder_creates_unpaid_order newId u body found db db' code o :
  createOrder newId u body found db = (db', Json code o) ->
  code = 201 /\ db' = (db ++ [o])%list /\ Order._id o = newId
  /\ Order.validate o = true
  /\ Order.status o = "processing" /\ Order.isPaid o = false
  /\ Order.paymentStatus o = "pending" /\ Order.paidAt o = None
  /\ Order.isDelivered o = false /\ Order.isCancelled o = false
  /\ (exists product,
        found = Ok (Some product) /\ p_isActive product = true
        /\ let quantity := default (ofZ 1) (ob_quantity body) in
           nltb quantity (ofZ 1) = false
           /\ nltb (p_stock product) quantity = false
           /\ Order.orderItems o
              = [ {| Order.product := p_id product;
                     Order.name := p_name product;
                     Order.quantity := quantity;
                     Order.price := p_basePrice product;
                     Order.image := str_or (head (p_images product)) "" |} ]
           /\ Order.totalAmount o = nmul (p_basePrice product) quantity)
  /\ match u with
     | Some usr =>
         if String.eqb (_id usr) ""
         then Order.user o = None /\ Order.isGuest o = true
              /\ Order.guestEmail o
                 = opt_or (ob_guestEmail body) (ob_payerEmail body)
         else Order.user o = Some (_id usr) /\ Order.isGuest o = false
              /\ Order.guestEmail o = None
     | None =>
         Order.user o = None /\ Order.isGuest o = true
         /\ Order.guestEmail o
            = opt_or (ob_guestEmail body) (ob_payerEmail body)
         /\ Order.guestName o
            = Some (str_or (ob_guestName body) "Guest User")
     end.
Proof.
  intros Hcall. unfold createOrder in Hcall.
  creation_branches Hcall; try discriminate Hcall;
    match goal with
    | Hc : Order.create _ _ _ = _ |- _ =>
        unfold Order.create in Hc;
        match type of Hc with
        | context [if ?b then _ else _] => destruct b eqn:Hvalid
        end; [|discriminate Hc]; injection Hc as <- <-
    end;
    injection Hcall as <- <- <-;
    repeat match goal with
    | H : Ok _ = Ok _ |- _ => injection H as <-
    | H : negb _ = false |- _ => apply negb_false_iff in H
    | H : negb _ = true |- _ => apply negb_true_iff in H
    end;
    (split; [reflexivity|]); (split; [reflexivity|]); (split; [reflexivity|]);
    (split; [exact Hvalid|]);
    do 6 (split; [reflexivity|]);
    (split; [eexists; split; [reflexivity|]; split; [assumption|];
             cbv zeta; repeat split; assumption|]);
    cbn; repeat split; try reflexivity; try discriminate;
    destruct u as [usr|]; cbn in *; try discriminate;
    try (destruct (String.eqb (_id usr) ""); cbn in *; try discriminate);
    repeat split; reflexivity.
Qed.

Lemma opt_str_eqb_eq (a b : option string) :
  opt_str_eqb a b = true <-> a = b.
Proof.
  destruct a as [x|], b as [y|]; simpl; split; intros Heq;
    try discriminate; try reflexivity.
  - apply String.eqb_eq in Heq. congruence.
  - injection Heq as ->. apply String.eqb_refl.
Qed.

(** What an unauthenticated [createOrder] that returns has stored. *)
Lemma createOrder_guest_returns newId body found db db' code o :
  createOrder newId None body found db = (db', Json code o) ->
  db' = (db ++ [o])%list /\ Order._id o = newId
  /\ Order.user o = None /\ Order.isGuest o = true
  /\ Order.guestEmail o = opt_or (ob_guestEmail body) (ob_payerEmail body).
Proof.
  intros Hcall. unfold createOrder in Hcall.
  creation_branches Hcall; try discriminate Hcall;
    match goal with
    | Hc : Order.create _ _ _ = _ |- _ =>
        unfold Order.create in Hc;
        match type of Hc with
        | context [if ?b then _ else _] => destruct b eqn:Hvalid
        end; [|discriminate Hc]; injection Hc as <- <-
    end;
    injection Hcall as <- <- <-;
    repeat match goal with
    | H : Ok _ = Ok _ |- _ => injection H as <-
    end;
    cbn; repeat split; reflexivity.
Qed.

(** X24. A guest order made by [createOrder] keeps the email as it was
    given, while [getMyOrderById] lowercases the email of the request: a
    guest reads the order back exactly when the lowercased email of the
    request is the stored one, so an order made with an email that has an
    upper-case letter is found by no guest request, the same email
    included. *)
Theorem created_guest_order_read_back
    newId body found db db' code o req email :
  createOrder newId None body found db = (db', Json code o) ->
  List.NoDup (map Order._id db') ->
  String.length newId = 24%nat ->
  params_orderId req = Some newId -> user req = None ->
  query_guestEmail req = Some email -> email <> "" ->
  (getMyOrderById req db' = Json 200 o
   <-> opt_or (ob_guestEmail body) (ob_payerEmail body)
       = Some (toLowerCase email))
  /\ (forall given,
        opt_or (ob_guestEmail body) (ob_payerEmail body) = Some given ->
        toLowerCase given <> given ->
        exists message,
          getMyOrderById req db' = Next (AppError message 404)).
Proof.
  intros Hcall Hnodup Hlen Hparams Huser Hemail Hne.
  destruct (createOrder_guest_returns _ _ _ _ _ _ _ Hcall)
    as (Hdb & Hid & Howner & Hguest & Hstored).
  assert (Hin : In o db') by (rewrite Hdb; apply in_or_app; simpl; auto).
  assert (Hread : getMyOrderById req db'
            = if opt_str_eqb (Order.guestEmail o) (Some (toLowerCase email))
              then Json 200 o
              else Next (AppError
                     "No order found with that ID for your account." 404)).
  { unfold getMyOrderById. rewrite Hparams, (valid_orderId _ Hlen), Huser, Hemail.
    simpl is_admin. simpl negb. cbv iota. apply String.eqb_neq in Hne.
    simpl falsy_str. rewrite Hne. simpl negb. cbv iota. simpl.
    rewrite (findOne_stored _ o db') by (simpl; congruence || trivial).
    unfold matches; simpl. rewrite Hid, String.eqb_refl, Hguest. simpl.
    rewrite andb_true_r.
    destruct (opt_str_eqb _ _); reflexivity. }
  rewrite Hread, <- Hstored. split.
  - rewrite <- opt_str_eqb_eq.
    destruct (opt_str_eqb _ _); split; intros Heq;
      try reflexivity; discriminate.
  - intros given Hgiven Hupper. rewrite Hgiven. simpl.
    destruct (String.eqb given (toLowerCase email)) eqn:Heq; [|eauto].
    apply String.eqb_eq in Heq. exfalso. apply Hupper.
    rewrite Heq. apply toLowerCase_idempotent.
Qed.

(** X25. A [createOrder] that does not return an order stores nothing:
    whatever the error, the collection is as it was. *)
Theorem createOrder_failure_stores_nothing newId u body found db db' e :
  createOrder newId u body found db = (db', Next e) -> db' = db.
Proof.
  intros Hcall. unfold createOrder in Hcall.
  creation_branches Hcall; try discriminate Hcall;
    try (injection Hcall as <- _; reflexivity);
    match goal with
    | Hc : Order.create _ _ _ = _ |- _ =>
        unfold Order.create in Hc;
        match type of Hc with
        | context [if ?b then _ else _] => destruct b
        end; [discriminate Hc|]; injection Hc as <- _
    end;
    injection Hcall as <- _; reflexivity.
Qed.

Lemma saved_by_convertToOrder_throw now args (c c' : Cart.Doc num) e saved :
  saved_by_convertToOrder now args c c' (Throw e) = Some saved ->
  same_cart c saved.
Proof.
  unfold saved_by_convertToOrder.
  destruct (_ && _); [|discriminate].
  pose proof (calculateTotals_items now c) as Hitems.
  pose proof (calculateTotals_other_paths now c) as (Hu & _ & He & _ & _ & Hc).
  destruct (Cart.calculateTotals now c) as [c1 [u|e1]]; [|discriminate].
  intros [= <-]. simpl in *. repeat split; assumption.
Qed.

(** X26. A [createOrderFromCart] that answers with an error converts no
    cart: the stored carts are as many, each with its owner, email, lines
    and [isConverted] as before. The order collection is as it was, except
    when the error is the cart's validation error at the final [save]:
    then the order was stored although the request failed, and the cart
    is still active. *)
Theorem createOrderFromCart_failure_converts_nothing
    now newId u body carts db carts' db' e :
  createOrderFromCart now newId u body carts db = (carts', db', Next e) ->
  length carts' = length carts
  /\ (forall i c', carts' !! i = Some c' ->
        exists c, carts !! i = Some c /\ same_cart c c')
  /\ (db' = db
      \/ exists o,
           db' = (db ++ [o])%list /\ Order.validate o = true
           /\ e = ValidationError "Cart validation failed").
Proof.
  assert (Hsame : forall l : list (Cart.Doc num),
            forall i c', l !! i = Some c' ->
              exists c, l !! i = Some c /\ same_cart c c').
  { intros l i c' Hi. exists c'. unfold same_cart. auto. }
  unfold createOrderFromCart.
  destruct (cb_shippingAddress body) as [sa|];
    [|intros [= <- <- _]; auto].
  destruct (falsy_str (cb_paymentMethod body)); [intros [= <- <- _]; auto|].
  destruct (find_active_cart u body carts) as [[[i cart]|]|e0] eqn:Hfind;
    try (intros [= <- <- _]; auto).
  destruct (Cart.convertToOrder _ _ _ cart db) as [[cart' db1] [o1|e1]] eqn:Hconv;
    [discriminate|].
  cbv beta iota.
  destruct (find_active_cart_Some _ _ _ _ _ Hfind) as [Hi _].
  match goal with
  | |- context [saved_by_convertToOrder ?a ?b ?c ?d ?e] =>
      destruct (saved_by_convertToOrder a b c d e) as [saved|] eqn:Hsaved
  end; intros [= <- <- <-]; (split; [|split]);
    try apply length_insert; try reflexivity; try apply Hsame.
  - apply saved_by_convertToOrder_throw in Hsaved.
    intros j c' Hj. destruct (decide (j = i)) as [->|Hne].
    + rewrite list_lookup_insert_eq in Hj
        by (apply lookup_lt_Some in Hi; exact Hi).
      injection Hj as <-. eauto.
    + rewrite list_lookup_insert_ne in Hj by congruence. apply Hsame, Hj.
  - destruct (convertToOrder_throws _ _ _ _ _ _ _ _ Hconv)
      as [[-> _]|(o & -> & Hvalid & -> & _)]; [left; reflexivity|].
    right. eauto.
  - destruct (convertToOrder_throws _ _ _ _ _ _ _ _ Hconv)
      as [[-> _]|(o & -> & Hvalid & -> & _)]; [left; reflexivity|].
    right. eauto.
Qed.

End CreationMore.

(** * More concrete runs *)

Import CartOps CartGuard orderController orderCreation OrderInv.

Lemma converted_cart_rejects_every_mutation_witness :
  Cart.isConverted Sample.convertedCart = true
  /\ (exists message,
        apply 9 (AddItem (Sample2.pencil 1%Q)) Sample.convertedCart
        = (Sample.convertedCart, Throw (AppError message 400)))
  /\ forall ops,
       run ((9, AddItem (Sample2.pencil 1%Q)) :: ops) Sample.convertedCart = None.
Proof.
  split; [reflexivity|].
  exact (converted_cart_rejects_every_mutation 9 (AddItem (Sample2.pencil 1%Q))
           Sample.convertedCart eq_refl).
Defined.

Lemma canConvertToOrder_then_convertToOrder_witness :
  canConvertToOrder Sample2.payableCart = Convertible
  /\ Cart.arg_shippingAddress (Sample.convertArgs "card") = Some Sample.address
  /\ falsy_str (Cart.arg_paymentMethod (Sample.convertArgs "card")) = false
  /\ ((exists o,
         snd (Cart.convertToOrder 7 Sample.order1 (Sample.convertArgs "card")
                Sample2.payableCart []) = Ok o)
      \/ (exists message,
            snd (Cart.convertToOrder 7 Sample.order1 (Sample.convertArgs "card")
                   Sample2.payableCart [])
            = Throw (ValidationError message))).
Proof.
  assert (Hguard : canConvertToOrder Sample2.payableCart = Convertible)
    by (vm_compute; reflexivity).
  split; [exact Hguard|]. split; [reflexivity|]. split; [reflexivity|].
  exact (canConvertToOrder_then_convertToOrder 7 Sample.order1
           (Sample.convertArgs "card") Sample2.payableCart [] Sample.address
           Hguard eq_refl eq_refl).
Defined.

Lemma no_line_of_filledCart (p : Cart.Item Q -> bool) :
  p (Sample.lineAt 1 Sample.product1 "Mug" 2%Q 10%Q) = false ->
  p (Sample.lineAt 2 Sample.product2 "Pen" 1%Q 5%Q) = false ->
  forall line, line ∈ Cart.items Sample.filledCart -> p line = false.
Proof.
  intros H1 H2 line Hin. simpl in Hin.
  apply elem_of_cons in Hin as [->|Hin]; [exact H1|].
  apply elem_of_cons in Hin as [->|Hin]; [exact H2|].
  apply elem_of_nil in Hin. contradiction.
Defined.

Lemma addItem_then_removeItem_witness :
  Cart.isConverted Sample.filledCart = false
  /\ (forall line, line ∈ Cart.items Sample.filledCart ->
        Cart.removeItem_matches (Some Sample2.product3) line = false)
  /\ Cart.items
       (fst (Cart.removeItem 4 (Some Sample2.product3)
               (fst (Cart.addItem 3 (Sample2.pencil 1%Q) Sample.filledCart))))
     = Cart.items Sample.filledCart.
Proof.
  assert (Hnone : forall line, line ∈ Cart.items Sample.filledCart ->
            Cart.removeItem_matches (Some Sample2.product3) line = false)
    by (apply no_line_of_filledCart; vm_compute; reflexivity).
  split; [reflexivity|]. split; [exact Hnone|].
  exact (addItem_then_removeItem 3 4 (Sample2.pencil 1%Q) Sample.filledCart
           eq_refl Hnone).
Defined.

Lemma addItem_twice_merges_witness :
  Cart.isConverted Sample.filledCart = false
  /\ (forall line, line ∈ Cart.items Sample.filledCart ->
        Cart.same_line (Sample2.pencil 1%Q) line = false)
  /\ Cart.items
       (fst (Cart.addItem 4 (Sample2.pencil 3%Q)
               (fst (Cart.addItem 3 (Sample2.pencil 1%Q) Sample.filledCart))))
     = (Cart.items Sample.filledCart
        ++ [Sample.lineAt 3 Sample2.product3 "Pencil" 4%Q 2%Q])%list.
Proof.
  assert (Hnone : forall line, line ∈ Cart.items Sample.filledCart ->
            Cart.same_line (Sample2.pencil 1%Q) line = false)
    by (apply no_line_of_filledCart; vm_compute; reflexivity).
  split; [reflexivity|]. split; [exact Hnone|].
  exact (addItem_twice_merges 3 4 (Sample2.pencil 1%Q) (Sample2.pencil 3%Q)
           Sample.filledCart eq_refl eq_refl eq_refl eq_refl Hnone).
Defined.

Lemma removeItem_undefined_removes_first_line_witness :
  Cart.isConverted Sample.filledCart = false
  /\ Cart.items Sample.filledCart
     = [Sample.lineAt 1 Sample.product1 "Mug" 2%Q 10%Q;
        Sample.lineAt 2 Sample.product2 "Pen" 1%Q 5%Q]
  /\ Cart.item_id (Sample.lineAt 1 Sample.product1 "Mug" 2%Q 10%Q) = None
  /\ Cart.items (fst (Cart.removeItem 3 None Sample.filledCart))
     = [Sample.lineAt 2 Sample.product2 "Pen" 1%Q 5%Q].
Proof.
  do 3 (split; [reflexivity|]).
  exact (removeItem_undefined_removes_first_line 3 Sample.filledCart
           _ _ eq_refl eq_refl eq_refl).
Defined.

Lemma pen_is_in_filledCart :
  Sample.lineAt 2 Sample.product2 "Pen" 1%Q 5%Q ∈ Cart.items Sample.filledCart.
Proof.
  simpl. apply elem_of_cons. right. apply elem_of_cons. left. reflexivity.
Defined.

Lemma removeItem_removes_first_match_witness :
  Cart.isConverted Sample.filledCart = false
  /\ (exists line, line ∈ Cart.items Sample.filledCart
        /\ Cart.removeItem_matches (Some Sample.product2) line = true)
  /\ S (length (Cart.items
                  (fst (Cart.removeItem 3 (Some Sample.product2)
                          Sample.filledCart))))
     = length (Cart.items Sample.filledCart).
Proof.
  assert (Hsome : exists line, line ∈ Cart.items Sample.filledCart
            /\ Cart.removeItem_matches (Some Sample.product2) line = true).
  { eexists. split; [exact pen_is_in_filledCart|]. vm_compute. reflexivity. }
  split; [reflexivity|]. split; [exact Hsome|].
  destruct (removeItem_removes_first_match 3 (Some Sample.product2)
              Sample.filledCart eq_refl Hsome)
    as (i & line & _ & _ & _ & _ & Hlen).
  exact Hlen.
Defined.

Lemma updateItemQuantity_sets_first_match_witness :
  Cart.isConverted Sample.filledCart = false
  /\ (exists line, line ∈ Cart.items Sample.filledCart
        /\ Cart.updateItemQuantity_matches (Some Sample.product2) line = true)
  /\ length (Cart.items
               (fst (Cart.updateItemQuantity 3 (Some Sample.product2) 7%Q
                       Sample.filledCart)))
     = length (Cart.items Sample.filledCart).
Proof.
  assert (Hsome : exists line, line ∈ Cart.items Sample.filledCart
            /\ Cart.updateItemQuantity_matches (Some Sample.product2) line
               = true).
  { eexists. split; [exact pen_is_in_filledCart|]. vm_compute. reflexivity. }
  split; [reflexivity|]. split; [exact Hsome|].
  destruct (proj1 (updateItemQuantity_sets_first_match 3 (Some Sample.product2)
                     7%Q Sample.filledCart eq_refl) Hsome)
    as (i & line & _ & _ & _ & _ & Hlen).
  exact Hlen.
Defined.

Lemma sample_conversion :
  Cart.convertToOrder 7 Sample.order1 (Sample.convertArgs "card")
                      Sample.filledCart []
  = (Sample.convertedCart, [Sample.cardOrder], Ok Sample.cardOrder).
Proof. vm_compute. reflexivity. Defined.

Lemma convertToOrder_snapshot_witness :
  Cart.convertToOrder 7 Sample.order1 (Sample.convertArgs "card")
                      Sample.filledCart []
  = (Sample.convertedCart, [Sample.cardOrder], Ok Sample.cardOrder)
  /\ Order.orderItems Sample.cardOrder
     = map Cart.orderItem_of (Cart.items Sample.filledCart)
  /\ Order.totalAmount Sample.cardOrder = Cart.totalAmount Sample.convertedCart.
Proof.
  split; [exact sample_conversion|].
  destruct (convertToOrder_snapshot 7 Sample.order1 (Sample.convertArgs "card")
              Sample.filledCart [] Sample.convertedCart [Sample.cardOrder]
              Sample.cardOrder sample_conversion)
    as (_ & _ & _ & Hitems & Htotal & _).
  split; [exact Hitems|exact Htotal].
Defined.

(** The order is stored although the call throws. *)
Lemma convertToOrder_throw_cases_witness :
  Cart.convertToOrder 7 Sample.order1 (Sample.convertArgs "card")
                      Sample2.bulkCart []
  = (Cart.set_isConverted true Sample2.bulkCart, [Sample2.bulkOrder],
     Throw (ValidationError "Cart validation failed"))
  /\ (([Sample2.bulkOrder] = []
       /\ Cart.isConverted (Cart.set_isConverted true Sample2.bulkCart)
          = Cart.isConverted Sample2.bulkCart)
      \/ (exists o,
            [Sample2.bulkOrder] = ([] ++ [o])%list
            /\ Order.validate o = true
            /\ ValidationError "Cart validation failed"
               = ValidationError "Cart validation failed"
            /\ Cart.isConverted (Cart.set_isConverted true Sample2.bulkCart)
               = true
            /\ Cart.validate (Cart.set_isConverted true Sample2.bulkCart)
               = false)).
Proof.
  assert (Hcall : Cart.convertToOrder 7 Sample.order1 (Sample.convertArgs "card")
                    Sample2.bulkCart []
                  = (Cart.set_isConverted true Sample2.bulkCart,
                     [Sample2.bulkOrder],
                     Throw (ValidationError "Cart validation failed")))
    by (vm_compute; reflexivity).
  split; [exact Hcall|].
  exact (convertToOrder_throw_cases 7 Sample.order1 (Sample.convertArgs "card")
           Sample2.bulkCart [] _ _ _ Hcall).
Defined.

Lemma convertToOrder_missing_input_witness :
  Cart.isConverted Sample.emptyCart = false
  /\ Cart.items Sample.emptyCart = []
  /\ exists message,
       Cart.convertToOrder 7 Sample.order1 (Sample.convertArgs "card")
                           Sample.emptyCart []
       = (Sample.emptyCart, [], Throw (AppError message 400)).
Proof.
  do 2 (split; [reflexivity|]).
  exact (convertToOrder_missing_input 7 Sample.order1 (Sample.convertArgs "card")
           Sample.emptyCart [] eq_refl (or_introl eq_refl)).
Defined.

Lemma sample_delivery :
  handle MarkOrderAsDelivered 9 (Sample.request (Some Sample.admin) None None)
         [Sample.cashOrder]
  = ([Sample.deliveredCashOrder], Json 200 Sample.deliveredCashOrder).
Proof. vm_compute. reflexivity. Defined.

Lemma handlers_keep_ids_and_validity_witness :
  handle MarkOrderAsDelivered 9 (Sample.request (Some Sample.admin) None None)
         [Sample.cashOrder]
  = ([Sample.deliveredCashOrder], Json 200 Sample.deliveredCashOrder)
  /\ map Order._id [Sample.deliveredCashOrder] = map Order._id [Sample.cashOrder].
Proof.
  split; [exact sample_delivery|].
  exact (proj1 (handlers_keep_ids_and_validity _ _ _ _ _ _ sample_delivery)).
Defined.

Lemma deleteOrder_never_succeeds_witness :
  let req := Sample.request (Some Sample.admin) None None in
  invalid_orderId (params_orderId req) = false
  /\ (exists o, Order.findById (default "" (params_orderId req))
                  [Sample.unpaidOrder] = Some o)
  /\ exists message,
       deleteOrder req [Sample.unpaidOrder]
       = ([Sample.unpaidOrder], Next (TypeError message)).
Proof.
  intros req.
  assert (Hfound : exists o, Order.findById (default "" (params_orderId req))
                     [Sample.unpaidOrder] = Some o)
    by (exists Sample.unpaidOrder; reflexivity).
  split; [reflexivity|]. split; [exact Hfound|].
  exact (proj2 (deleteOrder_never_succeeds req [Sample.unpaidOrder])
           eq_refl Hfound).
Defined.

Lemma handlers_keep_snapshot_and_flags_witness :
  handle MarkOrderAsDelivered 9 (Sample.request (Some Sample.admin) None None)
         [Sample.cashOrder]
  = ([Sample.deliveredCashOrder], Json 200 Sample.deliveredCashOrder)
  /\ In Sample.deliveredCashOrder [Sample.deliveredCashOrder]
  /\ exists o, In o [Sample.cashOrder]
               /\ same_snapshot o Sample.deliveredCashOrder
               /\ flags_monotone o Sample.deliveredCashOrder.
Proof.
  assert (Hin : In Sample.deliveredCashOrder [Sample.deliveredCashOrder])
    by (simpl; tauto).
  split; [exact sample_delivery|]. split; [exact Hin|].
  exact (handlers_keep_snapshot_and_flags _ _ _ _ _ _ _ sample_delivery Hin).
Defined.

Lemma handlers_keep_flags_agree_witness :
  handle MarkOrderAsDelivered 9 (Sample.request (Some Sample.admin) None None)
         [Sample.cashOrder]
  = ([Sample.deliveredCashOrder], Json 200 Sample.deliveredCashOrder)
  /\ (forall o, In o [Sample.cashOrder] -> flags_agree o)
  /\ flags_agree Sample.deliveredCashOrder.
Proof.
  assert (Hall : forall o : Order.Doc Q, In o [Sample.cashOrder] -> flags_agree o).
  { intros o [<-|[]]. unfold flags_agree. simpl.
    split; [split|]; discriminate. }
  split; [exact sample_delivery|]. split; [exact Hall|].
  apply (handlers_keep_flags_agree _ _ _ _ _ _ sample_delivery Hall).
  simpl. tauto.
Defined.

(** A shipped order goes back to [processing]. *)
Lemma updateOrderStatus_succeeds_iff_witness :
  let req := Sample.request (Some Sample.admin) None (Some "Processing") in
  let db := [Sample.cashOrder] in
  invalid_orderId (params_orderId req) = false
  /\ Order.findById (default "" (params_orderId req)) db = Some Sample.cashOrder
  /\ Order.validate Sample.cashOrder = true
  /\ In (toLowerCase "Processing") allowedStatuses
  /\ Order.status Sample.cashOrder = "shipped"
  /\ is_success (snd (updateOrderStatus 9 req db)) = true.
Proof.
  intros req db.
  assert (Hvalid : Order.validate Sample.cashOrder = true)
    by (vm_compute; reflexivity).
  assert (Hin : In (toLowerCase "Processing") allowedStatuses)
    by (simpl; tauto).
  do 2 (split; [reflexivity|]). split; [exact Hvalid|]. split; [exact Hin|].
  split; [reflexivity|].
  apply (proj1 (updateOrderStatus_succeeds_iff 9 req db Sample.cashOrder
                  "Processing" eq_refl eq_refl Hvalid eq_refl Hin)).
  split; [discriminate|]. split; [vm_compute; discriminate|].
  intros [_ H]. vm_compute in H. discriminate.
Defined.

Lemma updateOrderStatus_case_insensitive_witness :
  let req1 := Sample.request (Some Sample.admin) None (Some "SHIPPED") in
  let req2 := Sample.request (Some Sample.admin) None (Some "shipped") in
  toLowerCase "SHIPPED" = toLowerCase "shipped"
  /\ updateOrderStatus 9 req1 [Sample.unpaidOrder]
     = updateOrderStatus 9 req2 [Sample.unpaidOrder].
Proof.
  intros req1 req2. split; [reflexivity|].
  exact (updateOrderStatus_case_insensitive 9 req1 req2 [Sample.unpaidOrder]
           "SHIPPED" "shipped" eq_refl eq_refl eq_refl eq_refl eq_refl).
Defined.

Lemma getMyOrderById_registered_order_witness :
  let db := [Sample.unpaidOrder] in
  List.NoDup (map Order._id db) /\ In Sample.unpaidOrder db
  /\ Order.user Sample.unpaidOrder = Some Sample.customer1
  /\ Order.isGuest Sample.unpaidOrder = false
  /\ getMyOrderById (Sample.request (Some Sample.customer) None None) db
     = Json 200 Sample.unpaidOrder
  /\ (exists message,
        getMyOrderById (Sample.request (Some Sample.stranger) None None) db
        = Next (AppError message 404)).
Proof.
  intros db.
  assert (Hin : In Sample.unpaidOrder db) by (simpl; tauto).
  pose (Hthm := fun req Hreq =>
          getMyOrderById_registered_order req db Sample.unpaidOrder
            Sample.customer1 (sample_ids_distinct _) Hin eq_refl eq_refl
            Hreq eq_refl).
  split; [apply sample_ids_distinct|]. split; [exact Hin|].
  do 2 (split; [reflexivity|]). split.
  - apply (proj1 (Hthm (Sample.request (Some Sample.customer) None None)
                    eq_refl) Sample.customer eq_refl);
      [vm_compute; discriminate|reflexivity].
  - apply (proj1 (Hthm (Sample.request (Some Sample.stranger) None None)
                    eq_refl) Sample.stranger eq_refl);
      vm_compute; discriminate.
Defined.

Lemma cancelMyOrder_not_the_owner_witness :
  let db := [Sample.unpaidOrder] in
  let req := Sample.request (Some Sample.stranger) None None in
  List.NoDup (map Order._id db) /\ In Sample.unpaidOrder db
  /\ Order.user Sample.unpaidOrder <> Some (_id Sample.stranger)
  /\ exists message, cancelMyOrder 9 req db = (db, Next (AppError message 404)).
Proof.
  intros db req.
  assert (Hin : In Sample.unpaidOrder db) by (simpl; tauto).
  assert (Hother : Order.user Sample.unpaidOrder <> Some (_id Sample.stranger))
    by (vm_compute; discriminate).
  split; [apply sample_ids_distinct|]. split; [exact Hin|].
  split; [exact Hother|].
  apply (proj1 (cancelMyOrder_not_the_owner 9 req db Sample.unpaidOrder
                  (sample_ids_distinct _) Hin eq_refl eq_refl)
           Sample.stranger eq_refl); [vm_compute; discriminate|exact Hother].
Defined.

Lemma delivery_settles_cash_witness :
  markOrderAsDelivered 9 (Sample.request (Some Sample.admin) None None)
                       [Sample.cashOrder]
  = ([Sample.deliveredCashOrder], Json 200 Sample.deliveredCashOrder)
  /\ exists o,
       In o [Sample.cashOrder]
       /\ Order.status Sample.deliveredCashOrder = "delivered"
       /\ (Order.paymentMethod o = "cash" ->
           Order.isPaid Sample.deliveredCashOrder = true).
Proof.
  assert (Hcall : markOrderAsDelivered 9
                    (Sample.request (Some Sample.admin) None None)
                    [Sample.cashOrder]
                  = ([Sample.deliveredCashOrder],
                     Json 200 Sample.deliveredCashOrder))
    by (vm_compute; reflexivity).
  split; [exact Hcall|].
  destruct (delivery_settles_cash 9 _ _ _ _ _ (or_introl Hcall))
    as (o & Hin & _ & Hstatus & _ & _ & Hpaid & _).
  exists o. auto.
Defined.

Lemma generateInvoiceForOrder_effect_witness :
  generateInvoiceForOrder (Ok tt)
    (Sample.request (Some Sample.customer) None None) [Sample.confirmedOrder]
  = ([Sample2.invoicedOrder], Json 200 Sample2.invoicedOrder)
  /\ exists o,
       In o [Sample.confirmedOrder] /\ Order.isPaid o = true
       /\ Sample2.invoicedOrder
          = Order.set_invoiceURL
              (Some ("/invoices/invoice-" ++ Order._id o ++ ".pdf")) o
       /\ [Sample2.invoicedOrder]
          = Order.replace Sample2.invoicedOrder [Sample.confirmedOrder].
Proof.
  assert (Hcall : generateInvoiceForOrder (Ok tt)
            (Sample.request (Some Sample.customer) None None)
            [Sample.confirmedOrder]
          = ([Sample2.invoicedOrder], Json 200 Sample2.invoicedOrder))
    by (vm_compute; reflexivity).
  split; [exact Hcall|].
  exact (proj2 (generateInvoiceForOrder_effect _ _ _ _ _ _ Hcall)).
Defined.

Lemma createOrderFromCart_converts_once_witness :
  createOrderFromCart 7 Sample.order1 None Sample2.cartBody
                      [Sample.filledCart] []
  = ([Sample.convertedCart], [Sample.cardOrder], Json 201 Sample.cardOrder)
  /\ exists i cart',
       [Sample.convertedCart] = <[i := cart']> [Sample.filledCart]
       /\ Cart.isConverted cart' = true
       /\ forall u2 body2 j cart2,
            find_active_cart u2 body2 [Sample.convertedCart]
            = Ok (Some (j, cart2)) -> j <> i.
Proof.
  assert (Hcall : createOrderFromCart 7 Sample.order1 None Sample2.cartBody
                    [Sample.filledCart] []
                  = ([Sample.convertedCart], [Sample.cardOrder],
                     Json 201 Sample.cardOrder))
    by (vm_compute; reflexivity).
  split; [exact Hcall|].
  destruct (createOrderFromCart_converts_once _ _ _ _ _ _ _ _ _ _ Hcall)
    as (i & cart & cart' & _ & Hcarts & Hconv & _ & _ & _ & _ & Honce).
  exists i, cart'. auto.
Defined.

Lemma sample_creation :
  createOrder Sample.order1 None (Sample2.orderBody (Some "A@B.com"))
              (Ok (Some Sample2.mug)) []
  = ([Sample2.directOrder "A@B.com"], Json 201 (Sample2.directOrder "A@B.com")).
Proof. vm_compute. reflexivity. Defined.

Lemma createOrder_creates_unpaid_order_witness :
  createOrder Sample.order1 None (Sample2.orderBody (Some "A@B.com"))
              (Ok (Some Sample2.mug)) []
  = ([Sample2.directOrder "A@B.com"], Json 201 (Sample2.directOrder "A@B.com"))
  /\ Order.isPaid (Sample2.directOrder "A@B.com") = false
  /\ Order.paymentStatus (Sample2.directOrder "A@B.com") = "pending"
  /\ Order.status (Sample2.directOrder "A@B.com") = "processing".
Proof.
  split; [exact sample_creation|].
  destruct (createOrder_creates_unpaid_order _ _ _ _ _ _ _ _
              sample_creation)
    as (_ & _ & _ & _ & Hstatus & Hpaid & Hps & _).
  auto.
Defined.

(** The guest who checked out as [A@B.com] does not find the order. *)
Lemma created_guest_order_read_back_witness :
  let db' := [Sample2.directOrder "A@B.com"] in
  let req := Sample.request None (Some "A@B.com") None in
  createOrder Sample.order1 None (Sample2.orderBody (Some "A@B.com"))
              (Ok (Some Sample2.mug)) []
  = (db', Json 201 (Sample2.directOrder "A@B.com"))
  /\ List.NoDup (map Order._id db')
  /\ toLowerCase "A@B.com" <> "A@B.com"
  /\ exists message, getMyOrderById req db' = Next (AppError message 404).
Proof.
  intros db' req.
  assert (Hupper : toLowerCase "A@B.com" <> "A@B.com")
    by (vm_compute; discriminate).
  split; [exact sample_creation|].
  split; [apply sample_ids_distinct|]. split; [exact Hupper|].
  apply (proj2 (created_guest_order_read_back Sample.order1
                  (Sample2.orderBody (Some "A@B.com")) (Ok (Some Sample2.mug))
                  [] db' 201 (Sample2.directOrder "A@B.com") req "A@B.com"
                  sample_creation (sample_ids_distinct _)
                  eq_refl eq_refl eq_refl eq_refl
                  ltac:(discriminate))
           "A@B.com" eq_refl Hupper).
Defined.

Lemma createOrder_failure_stores_nothing_witness :
  createOrder Sample.order1 None (Sample2.orderBody None) (Ok None)
              [Sample.unpaidOrder]
  = ([Sample.unpaidOrder],
     Next (AppError "Product not found or inactive." 404))
  /\ [Sample.unpaidOrder] = [Sample.unpaidOrder].
Proof.
  assert (Hcall : createOrder Sample.order1 None (Sample2.orderBody None)
                    (Ok None) [Sample.unpaidOrder]
                  = ([Sample.unpaidOrder],
                     Next (AppError "Product not found or inactive." 404)))
    by reflexivity.
  split; [exact Hcall|].
  exact (createOrder_failure_stores_nothing _ _ _ _ _ _ _ Hcall).
Defined.

(** The order of the 150 mugs is stored although the request fails. *)
Lemma createOrderFromCart_failure_converts_nothing_witness :
  createOrderFromCart 7 Sample.order1 None Sample2.cartBody
                      [Sample2.bulkCart] []
  = ([Sample2.bulkCart], [Sample2.bulkOrder],
     Next (ValidationError "Cart validation failed"))
  /\ ([Sample2.bulkOrder] = []
      \/ exists o,
           [Sample2.bulkOrder] = ([] ++ [o])%list /\ Order.validate o = true
           /\ ValidationError "Cart validation failed"
              = ValidationError "Cart validation failed").
Proof.
  assert (Hcall : createOrderFromCart 7 Sample.order1 None Sample2.cartBody
                    [Sample2.bulkCart] []
                  = ([Sample2.bulkCart], [Sample2.bulkOrder],
                     Next (ValidationError "Cart validation failed")))
    by (vm_compute; reflexivity).
  split; [exact Hcall|].
  exact (proj2 (proj2 (createOrderFromCart_failure_converts_nothing
                         _ _ _ _ _ _ _ _ _ Hcall))).
Defined.
